(** * Link residual classification engine (helium-itm-classifier)

    A shallow embedding of [modules/itm_classifier.py],
    [modules/classifier_worker.py], [modules/report_card.py] and
    [modules/fetch_hotspot_inventory.py].

    Numbers.  Python [float] and numpy [float64] are IEEE-754 binary64.  They
    are modelled by the Standard Library's executable specification of
    binary64 ([SpecFloat], precision 53, maximal exponent 1024, rounding to
    nearest even), so every arithmetic step below rounds as the interpreter
    does.  Python [int] is [Z]; numpy [int64] is [Z] with its wrap-around
    written out.

    Exceptions are values of [exn]; a call that may raise returns a
    [result].  The external collaborators (ArangoDB, polars, h3, geoprop's
    [Tiles] and [Itm]) are records of functions that the engine receives.
    The numpy and matplotlib calls whose result or failure decides what the
    engine computes ([np.sum], [np.average], [np.linspace], the length check
    of [Axes.plot]) are written out as these libraries compute them. *)

From Stdlib Require Import ZArith List Bool String Ascii Lia Sorted.
From Stdlib Require Import Permutation DecimalString DecimalNat.
From Stdlib Require Import SpecFloat.
Import ListNotations.

Open Scope Z_scope.

(* ================================================================== *)
(** ** binary64 *)

Module F64.

Definition t : Type := spec_float.

Definition prec : Z := 53.
Definition emax : Z := 1024.

Definition add : t -> t -> t := SFadd prec emax.
Definition sub : t -> t -> t := SFsub prec emax.
Definition mul : t -> t -> t := SFmul prec emax.
Definition div : t -> t -> t := SFdiv prec emax.
Definition sqrt : t -> t := SFsqrt prec emax.

(** Conversion of a Python [int], correctly rounded (exact below 2^53). *)
Definition of_Z (z : Z) : t := binary_normalize prec emax z 0 false.

(** The quotient of two integers, [n / d] with both converted first; used
    to write decimal literals such as [-82.5 = -165 / 2]. *)
Definition frac (n d : Z) : t := div (of_Z n) (of_Z d).

Definition zero : t := S754_zero false.

(** Comparisons: every one is false as soon as an operand is NaN. *)
Definition eqb (x y : t) : bool := SFeqb x y.
Definition ltb (x y : t) : bool := SFltb x y.
Definition leb (x y : t) : bool := SFleb x y.
Definition gtb (x y : t) : bool :=
  match SFcompare x y with Some Gt => true | _ => false end.
Definition geb (x y : t) : bool :=
  match SFcompare x y with Some (Gt | Eq) => true | _ => false end.

Definition is_nan (x : t) : bool :=
  match x with S754_nan => true | _ => false end.

Definition is_finite (x : t) : bool :=
  match x with S754_zero _ | S754_finite _ _ _ => true | _ => false end.

Definition is_zero (x : t) : bool :=
  match x with S754_zero _ => true | _ => false end.

End F64.

Declare Scope f64_scope.
Delimit Scope f64_scope with f64.
Bind Scope f64_scope with F64.t.
Infix "+" := F64.add : f64_scope.
Infix "-" := F64.sub : f64_scope.
Infix "*" := F64.mul : f64_scope.
Infix "/" := F64.div : f64_scope.
Infix "<?" := F64.ltb : f64_scope.
Infix "<=?" := F64.leb : f64_scope.
Infix ">?" := F64.gtb : f64_scope.
Infix ">=?" := F64.geb : f64_scope.
Infix "=?" := F64.eqb : f64_scope.

(* ================================================================== *)
(** ** Python run-time: exceptions, builtins, numpy *)

(** The exceptions.  [ValueError] carries the constant text of its message
    (what an f-string formats after it is left out); [ExternalError] is an
    exception of a class of a library, by its name. *)
Inductive exn : Type :=
| ValueError (msg : string)
| ZeroDivisionError
| IndexError
| AttributeError
| OverflowError
| ExternalError (name : string).

Inductive result (A : Type) : Type :=
| Ok (a : A)
| Raise (e : exn).
Arguments Ok {A} a.
Arguments Raise {A} e.

(** [l[-1]]: the last element, [IndexError] on an empty sequence. *)
Fixpoint py_last {A : Type} (l : list A) : result A :=
  match l with
  | [] => Raise IndexError
  | [x] => Ok x
  | _ :: l' => py_last l'
  end.

(** [l[0]]. *)
Definition py_first {A : Type} (l : list A) : result A :=
  match l with
  | [] => Raise IndexError
  | x :: _ => Ok x
  end.

(** The builtins [max(a, b)] and [min(a, b)]: the first argument is kept
    unless the second is strictly greater (smaller). *)
Definition py_max2 (a b : F64.t) : F64.t := if (b >? a)%f64 then b else a.
Definition py_min2 (a b : F64.t) : F64.t := if (b <? a)%f64 then b else a.

(** [max(iterable, key=f)]: the first element whose key is maximal;
    [ValueError] on an empty iterable. *)
Fixpoint max_from {A : Type} (key : A -> F64.t) (best : A) (best_key : F64.t)
    (l : list A) : A :=
  match l with
  | [] => best
  | x :: l' =>
      if (key x >? best_key)%f64 then max_from key x (key x) l'
      else max_from key best best_key l'
  end.

Definition py_max_key {A : Type} (key : A -> F64.t) (l : list A) : result A :=
  match l with
  | [] => Raise (ValueError "max() arg is an empty sequence")
  | x :: l' => Ok (max_from key x (key x) l')
  end.

(** [str.strip(chars)]: [chars] is a set of characters; every leading and
    every trailing character that belongs to it is removed. *)
Definition in_chars (chars : string) (c : ascii) : bool :=
  existsb (Ascii.eqb c) (list_ascii_of_string chars).

Fixpoint lstrip_list (chars : string) (s : list ascii) : list ascii :=
  match s with
  | [] => []
  | c :: s' => if in_chars chars c then lstrip_list chars s' else s
  end.

Definition rstrip_list (chars : string) (s : list ascii) : list ascii :=
  rev (lstrip_list chars (rev s)).

Definition str_strip (s chars : string) : string :=
  string_of_list_ascii
    (rstrip_list chars (lstrip_list chars (list_ascii_of_string s))).

(** The conversion of an [int] to a [float] that mixed arithmetic does
    ([k / 10.0]): correctly rounded, [OverflowError] when the integer rounds
    beyond the largest float. *)
Definition py_float (z : Z) : result F64.t :=
  if F64.is_finite (F64.of_Z z) then Ok (F64.of_Z z) else Raise OverflowError.

(** A list comprehension whose element expression may raise: the first
    exception leaves it. *)
Fixpoint map_result {A B : Type} (f : A -> result B) (l : list A)
  : result (list B) :=
  match l with
  | [] => Ok []
  | x :: l' =>
      match f x with
      | Raise e => Raise e
      | Ok y =>
          match map_result f l' with
          | Raise e => Raise e
          | Ok ys => Ok (y :: ys)
          end
      end
  end.

(** *** numpy: sums *)

(** Addition of [int64] values wraps around. *)
Definition wrap64 (z : Z) : Z := (z + 2 ^ 63) mod 2 ^ 64 - 2 ^ 63.

(** [sum(a)] and [np.sum(a)] over an [int64] array: both add the elements
    in 64-bit two's complement arithmetic. *)
Definition int_sum (a : list Z) : Z :=
  fold_left (fun acc x => wrap64 (acc + x)) a 0.

Definition neg_zero : F64.t := S754_zero true.

(** The inner loop of numpy's float64 summation ([pairwise_sum]), on 8 or
    more elements: the first eight start eight accumulators, every further
    group of eight is added to them lane by lane, the accumulators are
    combined as a tree and the elements left over (fewer than eight) are
    added in order. *)
Fixpoint add_lanes (r a : list F64.t) {struct a} : list F64.t * list F64.t :=
  match r, a with
  | [r0; r1; r2; r3; r4; r5; r6; r7],
    a0 :: a1 :: a2 :: a3 :: a4 :: a5 :: a6 :: a7 :: rest =>
      add_lanes [r0 + a0; r1 + a1; r2 + a2; r3 + a3;
                 r4 + a4; r5 + a5; r6 + a6; r7 + a7]%f64 rest
  | _, _ => (r, a)
  end.

Definition combine_lanes (r : list F64.t) : F64.t :=
  match r with
  | [r0; r1; r2; r3; r4; r5; r6; r7] =>
      (((r0 + r1) + (r2 + r3)) + ((r4 + r5) + (r6 + r7)))%f64
  | _ => neg_zero
  end.

Definition block_sum (a : list F64.t) : F64.t :=
  let (r, rest) := add_lanes (firstn 8 a) (skipn 8 a) in
  fold_left F64.add rest (combine_lanes r).

(** [pairwise_sum]: fewer than 8 elements are added in order (from -0.0,
    which leaves the first element as it is); up to 128 go through
    [block_sum]; a longer buffer is cut in two, the first part holding half
    of the elements rounded down to a multiple of 8, and the two sums are
    added.  Every cut at least halves a buffer of more than 128 elements:
    [fuel] bounds the depth of the cuts, and the length of the buffer is
    always enough (lemma [pairwise_sum_fuel]). *)
Fixpoint pairwise_sum (fuel : nat) (a : list F64.t) : F64.t :=
  let n := List.length a in
  if (n <? 8)%nat then fold_left F64.add a neg_zero
  else if (n <=? 128)%nat then block_sum a
  else
    match fuel with
    | O => block_sum a
    | S fuel' =>
        let n2 := (n / 2)%nat in
        let n2 := (n2 - n2 mod 8)%nat in
        (pairwise_sum fuel' (firstn n2 a)
         + pairwise_sum fuel' (skipn n2 a))%f64
    end.

(** [np.sum] over a float64 array: the additive identity plus the pairwise
    sum of the whole array. *)
Definition np_sum (a : list F64.t) : F64.t :=
  (F64.zero + pairwise_sum (List.length a) a)%f64.

(** [w.sum(dtype=float64)] over an [int64] array: the elements are
    converted through a buffer of 8192 elements, and the pairwise sum of
    every buffer is added to the running total. *)
Definition np_bufsize : nat := (64 * 128)%nat.

Fixpoint sum_buffers (fuel : nat) (total : F64.t) (a : list F64.t) : F64.t :=
  match fuel with
  | O => total
  | S fuel' =>
      match a with
      | [] => total
      | _ =>
          let buffer := firstn np_bufsize a in
          sum_buffers fuel'
            (total + pairwise_sum (List.length buffer) buffer)%f64
            (skipn np_bufsize a)
      end
  end.

Definition np_sum_as_float64 (w : list Z) : F64.t :=
  sum_buffers (List.length w) F64.zero (map F64.of_Z w).

(** [np.average(a, weights=w)] with float64 values and [int64] weights:
    [np.multiply(a, w, dtype=float64).sum() / w.sum(dtype=float64)];
    [ZeroDivisionError] when the weights sum to zero. *)
Definition np_average (a : list F64.t) (weights : list Z) : result F64.t :=
  let scl := np_sum_as_float64 weights in
  if (scl =? F64.zero)%f64 then Raise ZeroDivisionError
  else
    Ok (np_sum (map (fun aw => fst aw * F64.of_Z (snd aw))
                  (combine a weights)) / scl)%f64.

(* ================================================================== *)
(** ** Data model *)

(** geoprop's [Point(lat, lon, alt)]. *)
Record Point : Type := mkPoint {
  lat : F64.t;
  lon : F64.t;
  alt : F64.t
}.

(** geoprop's [Profile]: [distances()] in meters from the origin and
    [elevation()] of the ground at each sample. *)
Record Profile : Type := mkProfile {
  distances : list F64.t;
  elevation : list F64.t
}.

(** A value of the [signal_hist] dictionary: an occurrence count (an
    integer of a 64-bit column), or something that is not a number, a null
    for instance (which the engine replaces by 0). *)
Inductive HistValue : Type :=
| HCount (n : Z)
| HNonNumeric.

(** The last entry of [asserted_pairs] of a [witnesses] edge document, with
    every field present and numeric.  [*_geo_loc] is [[lon, lat]]; gains are
    in tenths of dB; the keys of [signal_hist] are tenths of dBm, given by
    the integer [int(k)] reads from each, in the order of the dictionary. *)
Record AssertedPair : Type := mkAssertedPair {
  beaconer_elevation : F64.t;
  witness_elevation : F64.t;
  beaconer_geo_loc : F64.t * F64.t;
  witness_geo_loc : F64.t * F64.t;
  beaconer_freq : F64.t;
  beaconer_gain : F64.t;
  witness_gain : F64.t;
  beaconer_tx_power : F64.t;
  signal_hist : list (Z * HistValue)
}.

(** The dictionary [{beaconer, witness, asserted_pair}]: a document
    returned by the link query, and a row of the data frame made of these
    documents; [asserted_pair] is [None] when there is no asserted pair. *)
Record Row : Type := mkRow {
  beaconer : string;
  witness : string;
  asserted_pair : option AssertedPair
}.

(** One dictionary appended to [results] by [compute_residuals]. *)
Record ResultRow : Type := mkResultRow {
  beaconer_pubkey : string;
  witness_pubkey : string;
  transmit_power_dBm : F64.t;
  frequency_hz : F64.t;
  measured_rssi : F64.t;
  measured_loss : F64.t;
  samples : Z;
  std_dev : F64.t;
  itm_loss : F64.t;
  itm_loss_profile : option (list F64.t);
  residual : F64.t;
  distance_km : F64.t;
  terrain_profile_distances : list F64.t;
  terrain_profile_elevations : list F64.t;
  tx_antenna_height_m : F64.t;
  rx_antenna_height_m : F64.t;
  tx_antenna_gain_dB : F64.t;
  rx_antenna_gain_dB : F64.t;
  edge_flag : bool
}.

(** *** External collaborators *)

(** The [h3] module: cells are identified by their index string.  The
    three calls are taken at arguments for which they return; an exception
    of theirs would leave [compute_residuals], no handler of the loop
    standing around them. *)
Record H3 : Type := mkH3 {
  latlng_to_cell : F64.t -> F64.t -> Z -> string;
  grid_ring : string -> Z -> list string;
  cell_to_latlng : string -> F64.t * F64.t
}.

(** geoprop's [Tiles], its two calls taken to return; [tiles_profile] is
    [None] when no profile object is produced. *)
Record Tiles : Type := mkTiles {
  tiles_elevation : Point -> F64.t;
  tiles_profile : Point -> Point -> option Profile
}.

(** geoprop's [Itm]: the point-to-point loss and the loss along the path. *)
Record Itm : Type := mkItm {
  itm_p2p : Profile -> F64.t -> result F64.t;
  itm_path : Profile -> F64.t -> result (list F64.t)
}.

(** The database, seen through the one query the engine runs on it: from
    the witness document ids, the beaconer document ids and the limit to the
    documents of the cursor. *)
Record ArangoDb : Type := mkArangoDb {
  aql_execute : list string -> list string -> Z -> list Row
}.

(** polars, seen through the one conversion the engine asks of it on its
    input: [pl.from_dicts(query_results)], read back row by row with
    [rows(named=True)].  polars infers the schema of the frame from the
    documents, so the rows are not the documents: the histogram of a row
    has the keys of the schema, with a null where its document has no such
    key; and polars raises when a document does not fit the schema. *)
Record Polars : Type := mkPolars {
  from_dicts : list Row -> result (list Row)
}.

(** Records the loop of [compute_residuals] writes to the log. *)
Inductive LogRecord : Type :=
| InfoNoAssertedCoordinates (b w : string)
| InfoInvalidAssertionData (b w : string) (exception : string)
| WarningZeroWeights (b w : string)
| InfoComputingLossProfile (b w : string)
| WarningLossProfileError (b w : string) (exception : string)
| WarningPointToPointError (b w : string) (exception : string)
| InfoEdgeFlagged
| InfoModelResidual (b w : string) (residual : F64.t) (n : nat)
    (variance : F64.t).

(* ================================================================== *)
(** ** itm_classifier.py *)

(** The per-location checks of [_validate_model_parameters].  (Each
    message is the text that comes before the formatted value.) *)
Definition validate_location (label : string) (loc : Point) : result unit :=
  if negb ((F64.of_Z (-90) <=? lat loc) && (lat loc <=? F64.of_Z 90))%f64
  then Raise (ValueError ("Invalid latitude for " ++ label)%string)
  else if negb ((F64.of_Z (-180) <=? lon loc)
                && (lon loc <=? F64.of_Z 180))%f64
  then Raise (ValueError ("Invalid longitude for " ++ label)%string)
  else if ((alt loc <? F64.of_Z 0) || (alt loc >? F64.of_Z 50))%f64
  then Raise (ValueError ("Invalid asserted height for " ++ label)%string)
  else Ok tt.

Definition _validate_model_parameters (tx_loc rx_loc : Point)
    (profile : option Profile) (freq_hz : F64.t)
    (signal_hist : list (Z * Z)) : result unit :=
  match validate_location "tx" tx_loc with
  | Raise e => Raise e
  | Ok _ =>
  match validate_location "rx" rx_loc with
  | Raise e => Raise e
  | Ok _ =>
  match profile with
  | None => Raise (ValueError "Terrain profile generation failed")
  | Some p =>
  if (Z.of_nat (List.length (distances p)) <? 2)%Z
  then Raise (ValueError "Terrain profile is too short")
  else if ((freq_hz >=? F64.of_Z 1000000000)
           || (freq_hz <=? F64.of_Z 400000000))%f64
  then Raise (ValueError "Frequency out of expected range")
  else if (Z.of_nat (List.length signal_hist) =? 0)%Z
  then Raise (ValueError "Invalid or empty signal histogram")
  else Ok tt
  end end end.

(** [_fetch_edge_data]: the document ids are the public keys prefixed by
    the collection name. *)
Definition doc_id (pubkey : string) : string :=
  ("hotspots/" ++ pubkey)%string.

(** Line 148: the data frame of the documents, empty when the query
    returned none; the result is given by the rows of the frame. *)
Definition _fetch_edge_data (db : ArangoDb) (pl : Polars)
    (witness_pubkeys : list string) (beaconer_pubkeys : list string)
    (limit : Z) : result (list Row) :=
  let query_results :=
    aql_execute db (map doc_id witness_pubkeys) (map doc_id beaconer_pubkeys)
      limit in
  if (Z.of_nat (List.length query_results) =? 0)%Z then Ok []
  else from_dicts pl query_results.

(** What one iteration of the loop of [compute_residuals] does: [continue]
    (the link is skipped), run to the end of the body (having appended a
    row or not), or leave the function with an exception no handler of the
    body catches. *)
Inductive Step : Type :=
| Continue (log : list LogRecord)
| Completed (appended : option ResultRow) (log : list LogRecord)
| Uncaught (e : exn) (log : list LogRecord).

Section ComputeResiduals.

Variable h3 : H3.
Variable db : ArangoDb.
Variable pl : Polars.
Variable itm_model : Itm.
Variable tiles : Tiles.
Variable min_samples : Z.
Variable min_distance_km : F64.t.
Variable threshold_db : F64.t.
Variable h3_search_radius : Z.
Variable compute_loss_profile : bool.

(** Lines 227-228: the asserted height clamped to what the model takes. *)
Definition clamp_height (elevation : F64.t) : F64.t :=
  py_min2 (py_max2 elevation (F64.of_Z 1)) (F64.of_Z 50).

(** Lines 233-237: the centers of the ring of cells at
    [h3_search_radius] around the asserted cell, at the clamped height. *)
Definition neighborhood (geo_loc : F64.t * F64.t) (height : F64.t)
  : list Point :=
  let cell := latlng_to_cell h3 (snd geo_loc) (fst geo_loc) 8 in
  map (fun c => let coords := cell_to_latlng h3 c in
                mkPoint (fst coords) (snd coords) height)
      (grid_ring h3 cell h3_search_radius).

(** Lines 244-247: the dictionary from integer keys to counts.  A key
    met again keeps its place and takes the new value. *)
Definition count_of (v : HistValue) : Z :=
  match v with HCount n => n | HNonNumeric => 0 end.

Fixpoint dict_set (k v : Z) (d : list (Z * Z)) : list (Z * Z) :=
  match d with
  | [] => [(k, v)]
  | (k', v') :: d' =>
      if (k =? k')%Z then (k, v) :: d' else (k', v') :: dict_set k v d'
  end.

Definition clean_hist (h : list (Z * HistValue)) : list (Z * Z) :=
  fold_left (fun d kv => dict_set (fst kv) (count_of (snd kv)) d) h [].

(** Lines 250-251: the bins in dBm ([k / 10.0] raises [OverflowError] for
    a key beyond the floats) and the counts. *)
Definition bin_of (key : Z) : result F64.t :=
  match py_float key with
  | Raise e => Raise e
  | Ok x => Ok (x / F64.of_Z 10)%f64
  end.

Definition bins_of (h : list (Z * Z)) : result (list F64.t) :=
  map_result (fun kv => bin_of (fst kv)) h.

Definition counts_of (h : list (Z * Z)) : list Z := map snd h.

(** Lines 268-270: weighted mean, weighted variance, standard
    deviation. *)
Definition squared_deviations (bins : list F64.t) (mean : F64.t)
  : list F64.t :=
  map (fun b => ((b - mean) * (b - mean))%f64) bins.

Definition signal_statistics (bins : list F64.t) (counts : list Z)
  : result (F64.t * F64.t * F64.t) :=
  match np_average bins counts with
  | Raise e => Raise e
  | Ok rssi_mean =>
      match np_average (squared_deviations bins rssi_mean) counts with
      | Raise e => Raise e
      | Ok rssi_variance =>
          Ok (rssi_mean, rssi_variance, F64.sqrt rssi_variance)
      end
  end.

(** Lines 290-295. *)
Definition measured_loss_of (rssi_mean : F64.t) (tx_rx_pair : AssertedPair)
  : F64.t :=
  (F64.of_Z (-1)
   * (rssi_mean
      - beaconer_gain tx_rx_pair / F64.of_Z 10
      - beaconer_tx_power tx_rx_pair
      - witness_gain tx_rx_pair / F64.of_Z 10))%f64.

(** Line 301, with the short-circuit evaluation of [and]. *)
Definition edge_condition (counts : list Z) (residual : F64.t)
    (profile : Profile) : result bool :=
  if (int_sum counts >=? min_samples)%Z then
    if (residual <? threshold_db)%f64 then
      match py_last (distances profile) with
      | Raise e => Raise e
      | Ok d => Ok (d / F64.of_Z 1000 >? min_distance_km)%f64
      end
    else Ok false
  else Ok false.

(** Lines 274-288: the model loss, by the path or point to point. Only
    [ValueError] is handled. *)
Inductive LossStep : Type :=
| Loss (itm_loss : F64.t) (loss_profile : option (list F64.t))
    (log : list LogRecord)
| LossSkipped (log : list LogRecord)
| LossUncaught (e : exn) (log : list LogRecord).

Definition model_loss (b w : string) (profile : Profile) (freq_hz : F64.t)
  : LossStep :=
  if compute_loss_profile then
    let started := [InfoComputingLossProfile b w] in
    match itm_path itm_model profile freq_hz with
    | Raise (ValueError m) =>
        LossSkipped (started ++ [WarningLossProfileError b w m])
    | Raise e => LossUncaught e started
    | Ok loss_profile =>
        match py_last loss_profile with
        | Raise (ValueError m) =>
            LossSkipped (started ++ [WarningLossProfileError b w m])
        | Raise e => LossUncaught e started
        | Ok loss => Loss loss (Some loss_profile) started
        end
    end
  else
    match itm_p2p itm_model profile freq_hz with
    | Raise (ValueError m) => LossSkipped [WarningPointToPointError b w m]
    | Raise e => LossUncaught e []
    | Ok loss => Loss loss None []
    end.

(** Lines 213-331: the body of the loop, for one row. *)
Definition evaluate_link (row : Row) : Step :=
  let b := str_strip (beaconer row) "hotspots/" in
  let w := str_strip (witness row) "hotspots/" in
  match asserted_pair row with
  | None => Continue [InfoNoAssertedCoordinates b w]
  | Some tx_rx_pair =>
  let beaconer_antenna_height := clamp_height (beaconer_elevation tx_rx_pair) in
  let witness_antenna_height := clamp_height (witness_elevation tx_rx_pair) in
  let beaconer_neighborhood :=
    neighborhood (beaconer_geo_loc tx_rx_pair) beaconer_antenna_height in
  let witness_neighborhood :=
    neighborhood (witness_geo_loc tx_rx_pair) witness_antenna_height in
  match py_max_key (tiles_elevation tiles) beaconer_neighborhood with
  | Raise e => Uncaught e []
  | Ok tx_loc =>
  match py_max_key (tiles_elevation tiles) witness_neighborhood with
  | Raise e => Uncaught e []
  | Ok rx_loc =>
  let freq_hz := beaconer_freq tx_rx_pair in
  let hist := clean_hist (signal_hist tx_rx_pair) in
  match bins_of hist with
  | Raise e => Uncaught e []
  | Ok bins =>
  let counts := counts_of hist in
  let profile := tiles_profile tiles tx_loc rx_loc in
  match _validate_model_parameters tx_loc rx_loc profile freq_hz hist with
  | Raise (ValueError m) => Continue [InfoInvalidAssertionData b w m]
  | Raise e => Uncaught e []
  | Ok _ =>
  if (int_sum counts =? 0)%Z then Continue [WarningZeroWeights b w]
  else
  match signal_statistics bins counts with
  | Raise e => Uncaught e []
  | Ok (rssi_mean, rssi_variance, rssi_std_dev) =>
  match profile with
  | None => Uncaught AttributeError []
  | Some prof =>
  match model_loss b w prof freq_hz with
  | LossSkipped log => Continue log
  | LossUncaught e log => Uncaught e log
  | Loss loss loss_profile log =>
  let m_loss := measured_loss_of rssi_mean tx_rx_pair in
  let res := (m_loss - loss)%f64 in
  let final := [InfoModelResidual b w res (List.length counts) rssi_variance] in
  match edge_condition counts res prof with
  | Raise e => Uncaught e log
  | Ok false => Completed None (log ++ final)
  | Ok true =>
  match py_last (distances prof) with
  | Raise e => Uncaught e (log ++ [InfoEdgeFlagged])
  | Ok d =>
  Completed
    (Some {| beaconer_pubkey := b;
             witness_pubkey := w;
             transmit_power_dBm := beaconer_tx_power tx_rx_pair;
             frequency_hz := freq_hz;
             measured_rssi := rssi_mean;
             measured_loss := m_loss;
             samples := int_sum counts;
             std_dev := rssi_std_dev;
             itm_loss := loss;
             itm_loss_profile := loss_profile;
             residual := res;
             distance_km := (d / F64.of_Z 1000)%f64;
             terrain_profile_distances := distances prof;
             terrain_profile_elevations := elevation prof;
             tx_antenna_height_m := alt tx_loc;
             rx_antenna_height_m := alt rx_loc;
             tx_antenna_gain_dB := (beaconer_gain tx_rx_pair / F64.of_Z 10)%f64;
             rx_antenna_gain_dB := (witness_gain tx_rx_pair / F64.of_Z 10)%f64;
             edge_flag := true |})
    (log ++ InfoEdgeFlagged :: final)
  end end end end end end end end end end.

(** Lines 210-333: the loop over the rows of the data frame.  An
    uncaught exception leaves [compute_residuals]; the rows gathered so far
    are lost with it. *)
Fixpoint evaluate_rows (rows : list Row) (results : list ResultRow)
    (log : list LogRecord) : list LogRecord * result (list ResultRow) :=
  match rows with
  | [] => (log, Ok results)
  | row :: rest =>
      match evaluate_link row with
      | Continue l => evaluate_rows rest results (log ++ l)
      | Completed None l => evaluate_rows rest results (log ++ l)
      | Completed (Some r) l =>
          evaluate_rows rest (results ++ [r]) (log ++ l)
      | Uncaught e l => (log ++ l, Raise e)
      end
  end.

Variable witness_pubkeys : list string.
Variable beaconer_pubkeys : list string.
Variable max_witnesses : Z.

Definition compute_residuals_logged
  : list LogRecord * result (list ResultRow) :=
  match _fetch_edge_data db pl witness_pubkeys beaconer_pubkeys
          max_witnesses with
  | Raise e => ([], Raise e)
  | Ok edge_data => evaluate_rows edge_data [] []
  end.

(** The data frame [compute_residuals] returns, given by its rows (the
    dictionaries appended to [results], whose columns are of one type each;
    empty when none was appended), or the exception it raises. *)
Definition compute_residuals : result (list ResultRow) :=
  snd compute_residuals_logged.

End ComputeResiduals.

(* ================================================================== *)
(** ** report_card.py *)

(** [np.linspace(start, stop, num)] as numpy computes it: [arange(num)]
    scaled by the step (or divided then scaled when the step underflows to
    zero), shifted by [start], and the last sample overwritten by [stop]. *)
Definition arange (num : nat) : list F64.t :=
  map (fun i => F64.of_Z (Z.of_nat i)) (seq 0 num).

Definition replace_last (l : list F64.t) (x : F64.t) : list F64.t :=
  match l with
  | [] => []
  | _ => removelast l ++ [x]
  end.

Definition linspace (start stop : F64.t) (num : nat) : list F64.t :=
  let div := (Z.of_nat num - 1)%Z in
  let delta := (stop - start)%f64 in
  let y := arange num in
  let y :=
    if (div >? 0)%Z then
      let step := (delta / F64.of_Z div)%f64 in
      if (step =? F64.zero)%f64
      then map (fun v => (v / F64.of_Z div * delta)%f64) y
      else map (fun v => (v * step)%f64) y
    else map (fun v => (v * delta)%f64) y in
  let y := map (fun v => (v + start)%f64) y in
  if (1 <? Z.of_nat num)%Z then replace_last y stop else y.

(** Element-wise operations on arrays of the same length. *)
Definition zip_with (f : F64.t -> F64.t -> F64.t) (a b : list F64.t)
  : list F64.t :=
  map (fun xy => f (fst xy) (snd xy)) (combine a b).

(** Python's true division of two floats. *)
Definition py_div (x y : F64.t) : result F64.t :=
  if F64.is_zero y then Raise ZeroDivisionError else Ok (x / y)%f64.

(** [Axes.plot(x, y)]: matplotlib refuses two series of different
    lengths. *)
Definition plot_check (x y : list F64.t) : result unit :=
  if (List.length x =? List.length y)%nat then Ok tt
  else Raise (ValueError "x and y must have same first dimension").

(** The numeric series and scalars [generate_pdf_report] has computed when
    it has drawn its two plots (the table shows the scalars rounded). *)
Record ReportSeries : Type := mkReportSeries {
  rs_distances_km : list F64.t;
  rs_line : list F64.t;
  rs_wavelength : F64.t;
  rs_fresnel_radius : list F64.t;
  rs_upper : list F64.t;
  rs_lower : list F64.t;
  rs_dx : list F64.t;
  rs_loss_profile : list F64.t;
  rs_erssi : F64.t;
  rs_residual : F64.t
}.

(** The speed of light the report uses, 2.998e8. *)
Definition speed_of_light : F64.t := F64.of_Z 299800000.

(** Lines 45-51: the radius of the first Fresnel zone at every sample. *)
Definition fresnel_radius_at (wavelength D d1 : F64.t) : F64.t :=
  let d2 := (D - d1)%f64 in
  F64.sqrt (wavelength * d1 * d2 / D)%f64.

Definition generate_pdf_report
    (terrain_profile_elevations terrain_profile_distances : list F64.t)
    (tx_antenna_height_m rx_antenna_height_m : F64.t)
    (frequency_hz : F64.t) (itm_loss_profile : list F64.t)
    (tx_power_dBm tx_gain_dB rx_gain_dB measured_rssi : F64.t)
  : result ReportSeries :=
  let distances_km :=
    map (fun d => (d / F64.of_Z 1000)%f64) terrain_profile_distances in
  let elevations := terrain_profile_elevations in
  match py_first elevations with
  | Raise e => Raise e
  | Ok elevation_first =>
  match py_last elevations with
  | Raise e => Raise e
  | Ok elevation_last =>
  let line :=
    linspace (elevation_first + tx_antenna_height_m)%f64
             (elevation_last + rx_antenna_height_m)%f64
             (List.length distances_km) in
  let c := speed_of_light in
  match py_div c frequency_hz with
  | Raise e => Raise e
  | Ok wavelength =>
  match py_last terrain_profile_distances with
  | Raise e => Raise e
  | Ok D =>
  let d1 := terrain_profile_distances in
  let fresnel_radius := map (fresnel_radius_at wavelength D) d1 in
  let upper := zip_with F64.add line fresnel_radius in
  let lower := zip_with F64.sub line fresnel_radius in
  match plot_check distances_km elevations with
  | Raise e => Raise e
  | Ok _ =>
  let dx :=
    map (fun d => (d / F64.of_Z 1000)%f64) (tl terrain_profile_distances) in
  let loss_profile :=
    map (fun l => (F64.of_Z (-1) * l)%f64) itm_loss_profile in
  match py_last itm_loss_profile with
  | Raise e => Raise e
  | Ok loss_last =>
  let erssi := (tx_power_dBm + tx_gain_dB + rx_gain_dB - loss_last)%f64 in
  match plot_check dx loss_profile with
  | Raise e => Raise e
  | Ok _ =>
  match py_last dx with
  | Raise e => Raise e
  | Ok _ =>
  Ok {| rs_distances_km := distances_km;
        rs_line := line;
        rs_wavelength := wavelength;
        rs_fresnel_radius := fresnel_radius;
        rs_upper := upper;
        rs_lower := lower;
        rs_dx := dx;
        rs_loss_profile := loss_profile;
        rs_erssi := erssi;
        rs_residual := (erssi - measured_rssi)%f64 |}
  end end end end end end end end.

(* ================================================================== *)
(** ** classifier_worker.py *)

(** [DataFrame.sort("residual")]: ascending, here by insertion, which keeps
    rows of equal residual in their order. *)
Fixpoint insert_by_residual (r : ResultRow) (l : list ResultRow)
  : list ResultRow :=
  match l with
  | [] => [r]
  | x :: l' =>
      if (residual r <=? residual x)%f64 then r :: l
      else x :: insert_by_residual r l'
  end.

Definition sort_by_residual (df : list ResultRow) : list ResultRow :=
  fold_right insert_by_residual [] df.

(** [group_by("witness_pubkey").first()]: the first row of every group,
    the groups listed here in the order of their first row. *)
Fixpoint group_first (seen : list string) (df : list ResultRow)
  : list ResultRow :=
  match df with
  | [] => []
  | r :: df' =>
      if existsb (String.eqb (witness_pubkey r)) seen
      then group_first seen df'
      else r :: group_first (witness_pubkey r :: seen) df'
  end.

(** Lines 111-116. *)
Definition worst_edges (df : list ResultRow) : list ResultRow :=
  group_first [] (sort_by_residual (filter edge_flag df)).

(** Lines 122-123: the keys under which the report of a selected row is
    requested. *)
Definition report_keys (row : ResultRow) : string * string :=
  (str_strip (witness_pubkey row) "hotspots/",
   str_strip (beaconer_pubkey row) "hotspots/").

(** How a run of [worker] on a batch ends, up to the selection of the rows
    to report: aborted, nothing to write, or the two-column output written
    and the rows selected for a report card. *)
Inductive WorkerRun : Type :=
| Aborted (message : string)
| NothingToWrite
| Written (output_csv : list (string * string)) (selected : list ResultRow).

Section Worker.

Variable h3 : H3.
Variable db : ArangoDb.
Variable pl : Polars.
Variable itm : Itm.
Variable tiles : Tiles.
Variable min_samples : Z.
Variable min_distance_km : F64.t.
Variable threshold_db : F64.t.
Variable h3_search_radius : Z.
Variable max_beaconers : Z.

(** Lines 79-116: any exception of [compute_residuals] aborts the run. *)
Definition worker (witness_pubkeys : list string) : WorkerRun :=
  match compute_residuals h3 db pl itm tiles min_samples min_distance_km
          threshold_db h3_search_radius false witness_pubkeys []
          max_beaconers with
  | Raise _ => Aborted "Failed to compute residuals"
  | Ok df =>
      if (Z.of_nat (List.length df) =? 0)%Z then NothingToWrite
      else
        Written
          (map (fun r => (beaconer_pubkey r, witness_pubkey r))
               (filter edge_flag df))
          (worst_edges df)
  end.

End Worker.

(* ================================================================== *)
(** ** fetch_hotspot_inventory.py *)

(** The [hotspots] collection, seen through the paging query of
    [_yield_hotspot_pubkeys]: [hotspot_page db offset count] is what
    [FOR hs IN hotspots SORT hs._key LIMIT @offset, @count RETURN hs._key]
    returns. *)
Record HotspotDb : Type := mkHotspotDb {
  hotspot_page : Z -> Z -> list string
}.

(** The loop of [_yield_hotspot_pubkeys] from a given [offset] and
    [batch_count]: the batches yielded until the generator stops.  The loop
    is [while True]; [fuel] bounds its iterations and [None] says that the
    bound was reached before the loop ended. *)
Fixpoint yield_loop (fuel : nat) (db : HotspotDb) (batch_size : Z)
    (max_batches : option Z) (offset batch_count : Z)
  : option (list (list string)) :=
  match fuel with
  | O => None
  | S fuel' =>
      if match max_batches with
         | Some m => (batch_count >=? m)%Z
         | None => false
         end
      then Some []
      else
        match hotspot_page db offset batch_size with
        | [] => Some []
        | results =>
            match yield_loop fuel' db batch_size max_batches
                    (offset + batch_size) (batch_count + 1) with
            | Some rest => Some (results :: rest)
            | None => None
            end
        end
  end.

Definition _yield_hotspot_pubkeys (fuel : nat) (db : HotspotDb)
    (batch_size : Z) (max_batches : option Z)
  : option (list (list string)) :=
  yield_loop fuel db batch_size max_batches 0 0.

(** [f"batch_{batch_idx:03d}.csv"]: the index in decimal, padded with
    zeros to three digits. *)
Definition pad3 (digits : string) : string :=
  match String.length digits with
  | 0%nat => "000" ++ digits
  | 1%nat => "00" ++ digits
  | 2%nat => "0" ++ digits
  | _ => digits
  end%string.

Definition batch_file_name (batch_idx : nat) : string :=
  ("batch_" ++ pad3 (NilEmpty.string_of_uint (Nat.to_uint batch_idx))
   ++ ".csv")%string.

(** [save_hotspot_inventory]: the files written, each with its name in
    the output directory and its rows, one public key per row. *)
Definition save_hotspot_inventory (fuel : nat) (db : HotspotDb)
    (batch_size : Z) (max_batches : option Z)
  : option (list (string * list string)) :=
  match _yield_hotspot_pubkeys fuel db batch_size max_batches with
  | None => None
  | Some batches =>
      Some (map (fun ib => (batch_file_name (fst ib), snd ib))
              (combine (seq 0 (List.length batches)) batches))
  end.

(* ================================================================== *)
(** ** Vocabulary of the statements *)

(** The rows an iteration appends to [results]. *)
Definition appended_rows (s : Step) : list ResultRow :=
  match s with
  | Completed (Some r) _ => [r]
  | _ => []
  end.

(** The records an iteration writes to the log. *)
Definition step_log (s : Step) : list LogRecord :=
  match s with
  | Continue l | Completed _ l | Uncaught _ l => l
  end.

(** The refined transmitter and receiver locations of an asserted pair
    (lines 227-240): the ring point of greatest ground elevation. *)
Definition tx_location (h3 : H3) (tiles : Tiles) (h3_search_radius : Z)
    (p : AssertedPair) : result Point :=
  py_max_key (tiles_elevation tiles)
    (neighborhood h3 h3_search_radius (beaconer_geo_loc p)
       (clamp_height (beaconer_elevation p))).

Definition rx_location (h3 : H3) (tiles : Tiles) (h3_search_radius : Z)
    (p : AssertedPair) : result Point :=
  py_max_key (tiles_elevation tiles)
    (neighborhood h3 h3_search_radius (witness_geo_loc p)
       (clamp_height (witness_elevation p))).

(** The bins (dBm) and the counts of the histogram of an asserted pair. *)
Definition pair_bins (p : AssertedPair) : result (list F64.t) :=
  bins_of (clean_hist (signal_hist p)).

Definition pair_counts (p : AssertedPair) : list Z :=
  counts_of (clean_hist (signal_hist p)).

(** The characters of the set given to [strip]. *)
Definition strip_set : string := "hotspots/".

(** Whether a string begins, or ends, with a character of a set. *)
Definition head_in_set (chars : string) (l : list ascii) : bool :=
  match l with
  | [] => false
  | c :: _ => in_chars chars c
  end.

Definition begins_in_set (chars s : string) : bool :=
  head_in_set chars (list_ascii_of_string s).

Definition ends_in_set (chars s : string) : bool :=
  head_in_set chars (rev (list_ascii_of_string s)).

(** The statistics as the specification words them, for a histogram given
    as (tenths of dBm, count): the bins in dBm, the total weight, the
    count-weighted mean and the count-weighted variance
    [sum count_i (bin_i - mean)^2 / sum count_i]. *)
Definition spec_bin (key : Z) : F64.t := (F64.of_Z key / F64.of_Z 10)%f64.

Definition spec_total_weight (h : list (Z * Z)) : F64.t :=
  np_sum_as_float64 (map snd h).

Definition spec_weighted_mean (h : list (Z * Z)) : F64.t :=
  (np_sum (map (fun kv => spec_bin (fst kv) * F64.of_Z (snd kv)) h)
   / spec_total_weight h)%f64.

Definition spec_weighted_variance (h : list (Z * Z)) : F64.t :=
  let mean := spec_weighted_mean h in
  (np_sum (map (fun kv => F64.of_Z (snd kv)
                          * ((spec_bin (fst kv) - mean)
                             * (spec_bin (fst kv) - mean))) h)
   / spec_total_weight h)%f64.

(** The total weight of a histogram: the sum of its counts, as an
    integer. *)
Definition total_weight (counts : list Z) : Z := fold_right Z.add 0 counts.

(** The integers of 64 bits. *)
Definition in_int64 (z : Z) : Prop := - 2 ^ 63 <= z < 2 ^ 63.

(** The measured loss with its terms in the order of the specification:
    [-(rssiMean - witnessGain/10 - beaconerTxPower - beaconerGain/10)]. *)
Definition spec_measured_loss (rssi_mean : F64.t) (p : AssertedPair) : F64.t :=
  (F64.of_Z (-1)
   * (rssi_mean
      - witness_gain p / F64.of_Z 10
      - beaconer_tx_power p
      - beaconer_gain p / F64.of_Z 10))%f64.

(** No residual of a flagged row is NaN. *)
Definition residuals_are_numbers (df : list ResultRow) : Prop :=
  forall r, In r df -> edge_flag r = true -> F64.is_nan (residual r) = false.

(** The order of the rows by residual. *)
Definition residual_le (a b : ResultRow) : Prop :=
  F64.leb (residual a) (residual b) = true.

(** A database that answers the paging query from a fixed collection,
    given as the list of its keys in the order of the sort. *)
Definition serves (db : HotspotDb) (keys : list string) : Prop :=
  forall offset count,
    (0 <= offset)%Z -> (0 <= count)%Z ->
    hotspot_page db offset count
    = firstn (Z.to_nat count) (skipn (Z.to_nat offset) keys).

(** The number a string of decimal digits denotes (0 when it is not
    one). *)
Definition decimal_value (s : string) : nat :=
  match NilEmpty.uint_of_string s with
  | Some u => Nat.of_uint u
  | None => 0%nat
  end.

(** *** A small world to run the engine in *)

Module Demo.

Local Open Scope string_scope.

(** Every cell has a ring of two cells, at 45 and 46 degrees north. *)
Definition h3 : H3 :=
  {| latlng_to_cell := fun _ _ _ => "8828308281fffff";
     grid_ring := fun _ _ => ["north"; "south"];
     cell_to_latlng := fun c =>
       if String.eqb c "north" then (F64.of_Z 46, F64.of_Z (-75))
       else (F64.of_Z 45, F64.of_Z (-75)) |}.

(** The same grid with empty rings. *)
Definition h3_empty_ring : H3 :=
  {| latlng_to_cell := latlng_to_cell h3;
     grid_ring := fun _ _ => [];
     cell_to_latlng := cell_to_latlng h3 |}.

(** Ground rising to the north; a 5 km profile of three samples. *)
Definition profile_5km : Profile :=
  {| distances := [F64.of_Z 0; F64.of_Z 2500; F64.of_Z 5000];
     elevation := [F64.of_Z 100; F64.of_Z 120; F64.of_Z 110] |}.

Definition profile_500m : Profile :=
  {| distances := [F64.of_Z 0; F64.of_Z 250; F64.of_Z 500];
     elevation := [F64.of_Z 100; F64.of_Z 120; F64.of_Z 110] |}.

Definition tiles : Tiles :=
  {| tiles_elevation := fun p => lat p;
     tiles_profile := fun _ _ => Some profile_5km |}.

Definition tiles_500m : Tiles :=
  {| tiles_elevation := fun p => lat p;
     tiles_profile := fun _ _ => Some profile_500m |}.

(** A model predicting 140 dB at the end of the path. *)
Definition itm : Itm :=
  {| itm_p2p := fun _ _ => Ok (F64.of_Z 140);
     itm_path := fun _ _ => Ok [F64.of_Z 100; F64.of_Z 140] |}.

(** A link at 904.1 MHz, 20 dBm, no antenna gain, asserted 10 m above
    ground, seen 20 times at -100 dBm: measured loss 120 dB. *)
Definition pair_with (freq : Z) (hist : list (Z * HistValue))
  : AssertedPair :=
  {| beaconer_elevation := F64.of_Z 10;
     witness_elevation := F64.of_Z 10;
     beaconer_geo_loc := (F64.of_Z (-75), F64.of_Z 45);
     witness_geo_loc := (F64.of_Z (-75), F64.of_Z 45);
     beaconer_freq := F64.of_Z freq;
     beaconer_gain := F64.of_Z 0;
     witness_gain := F64.of_Z 0;
     beaconer_tx_power := F64.of_Z 20;
     signal_hist := hist |}.

Definition pair : AssertedPair := pair_with 904100000 [(-1000, HCount 20)].

(** The same link with two bins of 2^62 samples each: 2^63 samples in
    all. *)
Definition pair_wrapped : AssertedPair :=
  pair_with 904100000
    [(-1000, HCount (2 ^ 62)); (-990, HCount (2 ^ 62))].

(** A link seen 20 times at -63.9 dBm, sent at 0 dBm with gains of 0.1 dB
    (beaconer) and 0.2 dB (witness). *)
Definition pair_gains : AssertedPair :=
  {| beaconer_elevation := F64.of_Z 10;
     witness_elevation := F64.of_Z 10;
     beaconer_geo_loc := (F64.of_Z (-75), F64.of_Z 45);
     witness_geo_loc := (F64.of_Z (-75), F64.of_Z 45);
     beaconer_freq := F64.of_Z 904100000;
     beaconer_gain := F64.of_Z 1;
     witness_gain := F64.of_Z 2;
     beaconer_tx_power := F64.of_Z 0;
     signal_hist := [(-639, HCount 20)] |}.

Definition row_of (p : AssertedPair) : Row :=
  {| beaconer := "hotspots/112beaconer";
     witness := "hotspots/112witness";
     asserted_pair := Some p |}.

Definition row : Row := row_of pair.

(** A grid with a hole: the cell of latitude 0 has an empty ring. *)
Definition h3_hole : H3 :=
  {| latlng_to_cell := fun lat _ _ =>
       if F64.is_zero lat then "hole" else "8828308281fffff";
     grid_ring := fun c _ =>
       if String.eqb c "hole" then [] else ["north"; "south"];
     cell_to_latlng := cell_to_latlng h3 |}.

Definition pair_in_hole : AssertedPair :=
  {| beaconer_elevation := F64.of_Z 10;
     witness_elevation := F64.of_Z 10;
     beaconer_geo_loc := (F64.of_Z 0, F64.of_Z 0);
     witness_geo_loc := (F64.of_Z (-75), F64.of_Z 45);
     beaconer_freq := F64.of_Z 904100000;
     beaconer_gain := F64.of_Z 0;
     witness_gain := F64.of_Z 0;
     beaconer_tx_power := F64.of_Z 20;
     signal_hist := [(-1000, HCount 20)] |}.

(** Links with an empty histogram, and with counts that sum to zero. *)
Definition pair_empty_hist : AssertedPair := pair_with 904100000 [].
Definition pair_zero_weight : AssertedPair :=
  pair_with 904100000 [(-1000, HCount 0); (-990, HNonNumeric)].

(** The histograms of the statistics examples. *)
Definition hist_two_bins : list (Z * Z) := [(-850, 5); (-800, 5)].
Definition hist_one_bin_exact : list (Z * Z) := [(-850, 5)].
(** Two flagged rows of one witness, with residuals -20 and -25, and one of
    another witness. *)
Definition flagged (b w : string) (res : Z) : ResultRow :=
  {| beaconer_pubkey := b;
     witness_pubkey := w;
     transmit_power_dBm := F64.of_Z 20;
     frequency_hz := F64.of_Z 904100000;
     measured_rssi := F64.of_Z (-100);
     measured_loss := F64.of_Z 120;
     samples := 20;
     std_dev := F64.zero;
     itm_loss := F64.of_Z (120 - res);
     itm_loss_profile := None;
     residual := F64.of_Z res;
     distance_km := F64.of_Z 5;
     terrain_profile_distances := distances profile_5km;
     terrain_profile_elevations := elevation profile_5km;
     tx_antenna_height_m := F64.of_Z 10;
     rx_antenna_height_m := F64.of_Z 10;
     tx_antenna_gain_dB := F64.zero;
     rx_antenna_gain_dB := F64.zero;
     edge_flag := true |}.

Definition frame : list ResultRow :=
  [flagged "b1" "w1" (-20); flagged "b3" "w2" (-40);
   flagged "b2" "w1" (-25)].

(** The report of the example link: the 5 km profile, antennas at 10 m,
    904.1 MHz, a loss of 140 dB at the end of the path. *)
Definition report_at (frequency_hz : F64.t) : result ReportSeries :=
  generate_pdf_report (elevation profile_5km) (distances profile_5km)
    (F64.of_Z 10) (F64.of_Z 10) frequency_hz
    [F64.of_Z 100; F64.of_Z 140] (F64.of_Z 20) F64.zero F64.zero
    (F64.of_Z (-100)).

Definition report : result ReportSeries := report_at (F64.of_Z 904100000).

(** A row without asserted pair, and a model that fails. *)
Definition row_no_pair : Row :=
  {| beaconer := "hotspots/112beaconer";
     witness := "hotspots/112witness";
     asserted_pair := None |}.

Definition itm_failing : Itm :=
  {| itm_p2p := fun _ _ => Raise (ValueError "ITM failed");
     itm_path := fun _ _ => Raise (ValueError "ITM failed") |}.

(** A collection of five hotspots. *)
Definition hotspot_keys : list string := ["11a"; "11b"; "11c"; "11d"; "11e"].

Definition hotspots : HotspotDb :=
  {| hotspot_page := fun offset count =>
       firstn (Z.to_nat count) (skipn (Z.to_nat offset) hotspot_keys) |}.

Definition db_of (documents : list Row) : ArangoDb :=
  {| aql_execute := fun _ _ _ => documents |}.

(** A frame builder after polars, for documents whose fields are all
    present: the histogram of every row gets the keys met in the first
    hundred documents, in the order they are met, with a null where the
    document has no such key. *)
Definition add_keys (keys : list Z) (h : list (Z * HistValue)) : list Z :=
  fold_left (fun ks kv =>
               if existsb (Z.eqb (fst kv)) ks then ks
               else (ks ++ [fst kv])%list)
            h keys.

Definition hist_schema (documents : list Row) : list Z :=
  fold_left (fun ks d =>
               match asserted_pair d with
               | Some p => add_keys ks (signal_hist p)
               | None => ks
               end)
            (firstn 100 documents) [].

Definition hist_value (k : Z) (h : list (Z * HistValue)) : HistValue :=
  match find (fun kv => (fst kv =? k)%Z) h with
  | Some kv => snd kv
  | None => HNonNumeric
  end.

Definition conform (keys : list Z) (d : Row) : Row :=
  match asserted_pair d with
  | None => d
  | Some p =>
      {| beaconer := beaconer d;
         witness := witness d;
         asserted_pair :=
           Some {| beaconer_elevation := beaconer_elevation p;
                   witness_elevation := witness_elevation p;
                   beaconer_geo_loc := beaconer_geo_loc p;
                   witness_geo_loc := witness_geo_loc p;
                   beaconer_freq := beaconer_freq p;
                   beaconer_gain := beaconer_gain p;
                   witness_gain := witness_gain p;
                   beaconer_tx_power := beaconer_tx_power p;
                   signal_hist :=
                     map (fun k => (k, hist_value k (signal_hist p))) keys |}
      |}
  end.

Definition polars : Polars :=
  {| from_dicts := fun documents =>
       Ok (map (conform (hist_schema documents)) documents) |}.

(** The thresholds of the end-to-end example: at least 10 samples, a
    residual below -15 dB, more than 1 km. *)
Definition min_samples : Z := 10.
Definition min_distance_km : F64.t := F64.of_Z 1.
Definition threshold_db : F64.t := F64.of_Z (-15).

Definition evaluate (h : H3) (t : Tiles) (r : Row) : Step :=
  evaluate_link h itm t min_samples min_distance_km threshold_db 1 false r.

Definition rows_of (h : H3) (t : Tiles) (r : Row) : list ResultRow :=
  appended_rows (evaluate h t r).

Definition run (h : H3) (t : Tiles) (documents : list Row)
  : result (list ResultRow) :=
  compute_residuals h (db_of documents) polars itm t min_samples
    min_distance_km threshold_db 1 false ["112witness"] [] 250.

End Demo.

(* ================================================================== *)
(** * Properties *)

(** ** Facts about binary64 comparisons and zeros *)

Ltac cmp_cases :=
  repeat match goal with
  | H : context [Pos.compare_cont Eq ?a ?b] |- _ =>
      change (Pos.compare_cont Eq a b) with (Pos.compare a b) in H
  | |- context [Pos.compare_cont Eq ?a ?b] =>
      change (Pos.compare_cont Eq a b) with (Pos.compare a b)
  end;
  repeat match goal with
  | H : context [Z.compare ?a ?b] |- _ => destruct (Z.compare_spec a b)
  | |- context [Z.compare ?a ?b] => destruct (Z.compare_spec a b)
  | H : context [Pos.compare ?a ?b] |- _ => destruct (Pos.compare_spec a b)
  | |- context [Pos.compare ?a ?b] => destruct (Pos.compare_spec a b)
  end; simpl in *; try discriminate; try reflexivity; try lia.

Module F64Facts.

Lemma compare_antisym x y :
  SFcompare y x = option_map CompOpp (SFcompare x y).
Proof.
  destruct x as [[]|[]| |[] mx ex], y as [[]|[]| |[] my ey]; simpl;
    try reflexivity; cmp_cases.
Qed.

Lemma compare_lt_trans x y z :
  SFcompare x y = Some Lt -> SFcompare y z = Some Lt ->
  SFcompare x z = Some Lt.
Proof.
  destruct x as [[]|[]| |[] mx ex], y as [[]|[]| |[] my ey],
    z as [[]|[]| |[] mz ez]; simpl; intros H1 H2;
    try discriminate; try reflexivity; cmp_cases.
Qed.

Lemma compare_eq_l x y z :
  SFcompare x y = Some Eq -> SFcompare x z = SFcompare y z.
Proof.
  destruct x as [[]|[]| |[] mx ex], y as [[]|[]| |[] my ey],
    z as [[]|[]| |[] mz ez]; simpl; intros H1;
    try discriminate; try reflexivity; cmp_cases.
Qed.

Lemma compare_eq_r x y z :
  SFcompare y z = Some Eq -> SFcompare x y = SFcompare x z.
Proof.
  destruct x as [[]|[]| |[] mx ex], y as [[]|[]| |[] my ey],
    z as [[]|[]| |[] mz ez]; simpl; intros H1;
    try discriminate; try reflexivity; cmp_cases.
Qed.

Lemma compare_some x y :
  F64.is_nan x = false -> F64.is_nan y = false ->
  exists c, SFcompare x y = Some c.
Proof.
  destruct x as [[]|[]| |[] mx ex], y as [[]|[]| |[] my ey]; simpl;
    intros; try discriminate; eauto.
Qed.

Lemma gtb_ltb x y : F64.gtb x y = F64.ltb y x.
Proof.
  unfold F64.gtb, F64.ltb, SFltb. rewrite (compare_antisym x y).
  destruct (SFcompare x y) as [[]|]; reflexivity.
Qed.

Lemma geb_leb x y : F64.geb x y = F64.leb y x.
Proof.
  unfold F64.geb, F64.leb, SFleb. rewrite (compare_antisym x y).
  destruct (SFcompare x y) as [[]|]; reflexivity.
Qed.

Lemma ltb_not_nan x y :
  F64.ltb x y = true -> F64.is_nan x = false /\ F64.is_nan y = false.
Proof.
  destruct x as [[]|[]| |[] mx ex], y as [[]|[]| |[] my ey];
    cbv [F64.ltb SFltb SFcompare F64.is_nan]; intros; try discriminate;
    auto.
Qed.

Lemma ltb_trans x y z :
  F64.ltb x y = true -> F64.ltb y z = true -> F64.ltb x z = true.
Proof.
  unfold F64.ltb, SFltb. intros H1 H2.
  destruct (SFcompare x y) as [[]|] eqn:E1; try discriminate.
  destruct (SFcompare y z) as [[]|] eqn:E2; try discriminate.
  now rewrite (compare_lt_trans _ _ _ E1 E2).
Qed.

Lemma leb_trans x y z :
  F64.leb x y = true -> F64.leb y z = true -> F64.leb x z = true.
Proof.
  unfold F64.leb, SFleb. intros H1 H2.
  destruct (SFcompare x y) as [[]|] eqn:E1; try discriminate;
    destruct (SFcompare y z) as [[]|] eqn:E2; try discriminate.
  - now rewrite (compare_eq_l _ _ _ E1), E2.
  - now rewrite (compare_eq_l _ _ _ E1), E2.
  - now rewrite <- (compare_eq_r _ _ _ E2), E1.
  - now rewrite (compare_lt_trans _ _ _ E1 E2).
Qed.

Lemma leb_total x y :
  F64.is_nan x = false -> F64.is_nan y = false ->
  F64.leb x y = true \/ F64.leb y x = true.
Proof.
  intros Hx Hy. unfold F64.leb, SFleb. rewrite (compare_antisym x y).
  destruct (compare_some x y Hx Hy) as [[] ->]; simpl; auto.
Qed.

Lemma ltb_leb x y : F64.ltb x y = true -> F64.leb x y = true.
Proof.
  unfold F64.ltb, F64.leb, SFltb, SFleb.
  destruct (SFcompare x y) as [[]|]; auto.
Qed.

Lemma ltb_false_leb x y :
  F64.is_nan x = false -> F64.is_nan y = false ->
  F64.ltb x y = false -> F64.leb y x = true.
Proof.
  intros Hx Hy. unfold F64.ltb, F64.leb, SFltb, SFleb.
  rewrite (compare_antisym x y).
  destruct (compare_some x y Hx Hy) as [[] ->]; simpl; auto.
Qed.

Lemma leb_negb_ltb x y :
  F64.is_nan x = false -> F64.is_nan y = false ->
  F64.leb x y = negb (F64.ltb y x).
Proof.
  intros Hx Hy. unfold F64.ltb, F64.leb, SFltb, SFleb.
  rewrite (compare_antisym x y).
  destruct (compare_some x y Hx Hy) as [[] ->]; reflexivity.
Qed.

(** *** Zeros *)

Lemma sub_eq_zero x y :
  F64.is_finite x = true -> F64.eqb x y = true ->
  F64.is_zero (F64.sub x y) = true.
Proof.
  destruct x as [[]|[]| |[] mx ex], y as [[]|[]| |[] my ey];
    cbv [F64.is_finite F64.eqb SFeqb SFcompare]; intros Hf He;
    try discriminate; try reflexivity;
    (assert (ex = ey /\ mx = my) as [-> ->] by (split; cmp_cases));
    unfold F64.sub, SFsub; rewrite Z.min_id;
    unfold shl_align; rewrite Z.sub_diag; cbn [fst cond_Zopp];
    repeat rewrite Z.sub_diag; reflexivity.
Qed.

Lemma eqb_refl x : F64.is_nan x = false -> F64.eqb x x = true.
Proof.
  destruct x as [[]|[]| |[] mx ex]; try discriminate;
    cbv [F64.eqb SFeqb SFcompare]; try reflexivity; intros _;
    rewrite Z.compare_refl;
    change (Pos.compare_cont Eq mx mx) with (Pos.compare mx mx);
    now rewrite Pos.compare_refl.
Qed.

Lemma mul_zero_l x y :
  F64.is_zero x = true -> F64.is_finite y = true ->
  F64.is_zero (F64.mul x y) = true.
Proof.
  destruct x as [[]|[]| |[] mx ex], y as [[]|[]| |[] my ey]; simpl;
    intros; try discriminate; reflexivity.
Qed.

Lemma mul_zero_r x y :
  F64.is_finite x = true -> F64.is_zero y = true ->
  F64.is_zero (F64.mul x y) = true.
Proof.
  destruct x as [[]|[]| |[] mx ex], y as [[]|[]| |[] my ey]; simpl;
    intros; try discriminate; reflexivity.
Qed.

Lemma div_zero_l x y :
  F64.is_zero x = true -> F64.is_nan y = false -> F64.is_zero y = false ->
  F64.is_zero (F64.div x y) = true.
Proof.
  destruct x as [[]|[]| |[] mx ex], y as [[]|[]| |[] my ey]; simpl;
    intros; try discriminate; reflexivity.
Qed.

Lemma sqrt_zero x : F64.is_zero x = true -> F64.is_zero (F64.sqrt x) = true.
Proof.
  destruct x as [[]|[]| |[] mx ex]; simpl; intros; try discriminate;
    reflexivity.
Qed.

Lemma is_zero_eqb x : F64.is_zero x = true -> F64.eqb x F64.zero = true.
Proof.
  destruct x as [[]|[]| |[] mx ex]; simpl; intros; try discriminate;
    reflexivity.
Qed.

Lemma is_zero_finite x : F64.is_zero x = true -> F64.is_finite x = true.
Proof.
  destruct x as [[]|[]| |[] mx ex]; simpl; intros; try discriminate;
    reflexivity.
Qed.

End F64Facts.

(* ================================================================== *)
(** ** Facts shared by the claims *)

(** *** Sums *)

Lemma wrap64_id z : in_int64 z -> wrap64 z = z.
Proof.
  unfold in_int64, wrap64. intros H.
  rewrite Z.mod_small by lia. lia.
Qed.

Lemma wrap64_add_l x y : wrap64 (wrap64 x + y) = wrap64 (x + y).
Proof.
  unfold wrap64.
  replace ((x + 2 ^ 63) mod 2 ^ 64 - 2 ^ 63 + y + 2 ^ 63)
    with ((x + 2 ^ 63) mod 2 ^ 64 + y) by lia.
  rewrite Zplus_mod_idemp_l.
  replace (x + 2 ^ 63 + y) with (x + y + 2 ^ 63) by lia. reflexivity.
Qed.

Lemma int_sum_from a : forall acc,
  fold_left (fun s x => wrap64 (s + x)) a (wrap64 acc)
  = wrap64 (acc + total_weight a).
Proof.
  induction a as [|x a IH]; intros acc; simpl.
  - now rewrite Z.add_0_r.
  - rewrite wrap64_add_l, IH. f_equal. lia.
Qed.

(** The 64-bit sum is the total, wrapped once. *)
Lemma int_sum_total_weight a : int_sum a = wrap64 (total_weight a).
Proof.
  unfold int_sum. change 0 with (wrap64 0) at 1. now rewrite int_sum_from.
Qed.

Lemma neg_zero_add x : (neg_zero + x)%f64 = x.
Proof. destruct x as [[]|[]| |[] m e]; reflexivity. Qed.

(** The length of the buffer is fuel enough for [pairwise_sum]: with that
    much or more, the result does not depend on the fuel. *)
Lemma pairwise_sum_fuel : forall fuel1 fuel2 a,
  (List.length a <= fuel1)%nat -> (List.length a <= fuel2)%nat ->
  pairwise_sum fuel1 a = pairwise_sum fuel2 a.
Proof.
  induction fuel1 as [|fuel1 IH]; intros fuel2 a H1 H2.
  - destruct a; [|simpl in H1; lia]. destruct fuel2; reflexivity.
  - destruct fuel2 as [|fuel2].
    + destruct a; [|simpl in H2; lia]. reflexivity.
    + cbn [pairwise_sum].
      destruct (List.length a <? 8)%nat eqn:E8; [reflexivity|].
      destruct (List.length a <=? 128)%nat eqn:E128; [reflexivity|].
      apply Nat.leb_gt in E128.
      set (n := List.length a) in *.
      set (n2 := (n / 2 - (n / 2) mod 8)%nat).
      assert (n2 <= n / 2)%nat as Hn2 by (unfold n2; lia).
      assert (n / 2 < n)%nat as Hhalf by (apply Nat.div_lt; lia).
      assert (0 < n2)%nat as Hpos.
      { unfold n2. assert (64 <= n / 2)%nat.
        { apply Nat.div_le_lower_bound; lia. }
        pose proof (Nat.mod_upper_bound (n / 2) 8). lia. }
      f_equal; apply IH; rewrite ?length_firstn, ?length_skipn; fold n; lia.
Qed.

Lemma np_sum_single x : np_sum [x] = (F64.zero + x)%f64.
Proof.
  unfold np_sum. cbn [List.length pairwise_sum Nat.ltb Nat.leb fold_left].
  now rewrite neg_zero_add.
Qed.

Lemma np_sum_as_float64_single c :
  np_sum_as_float64 [c] = (F64.zero + F64.of_Z c)%f64.
Proof.
  unfold np_sum_as_float64. cbn [List.length map sum_buffers].
  change (firstn np_bufsize [F64.of_Z c]) with [F64.of_Z c].
  cbn [List.length pairwise_sum Nat.ltb Nat.leb fold_left].
  now rewrite neg_zero_add.
Qed.

(** *** Sequences *)

Lemma py_last_app {A : Type} (l : list A) (x : A) : py_last (l ++ [x]) = Ok x.
Proof.
  induction l as [|a l IH]; [reflexivity|].
  simpl. rewrite IH. destruct l; reflexivity.
Qed.

Lemma py_last_ok_of_length {A : Type} (l : list A) :
  (0 < List.length l)%nat -> exists x, py_last l = Ok x.
Proof.
  induction l as [|a l IH]; simpl; [lia|]. intros _.
  destruct l as [|b l]; [eauto|]. apply IH. simpl. lia.
Qed.

Lemma max_from_In {A : Type} (key : A -> F64.t) (l : list A) :
  forall best k, max_from key best k l = best \/ In (max_from key best k l) l.
Proof.
  induction l as [|x l IH]; intros best k; simpl; [now left|].
  destruct (F64.gtb (key x) k).
  - destruct (IH x (key x)) as [-> | H]; auto.
  - destruct (IH best k) as [-> | H]; auto.
Qed.

Lemma py_max_key_In {A : Type} (key : A -> F64.t) (l : list A) (x : A) :
  py_max_key key l = Ok x -> In x l.
Proof.
  destruct l as [|a l]; [discriminate|]. intros [= <-].
  destruct (max_from_In key l a (key a)) as [-> | H]; [now left | now right].
Qed.

Lemma neighborhood_alt h3 radius geo height p :
  In p (neighborhood h3 radius geo height) -> alt p = height.
Proof.
  unfold neighborhood. rewrite in_map_iff. intros (c & <- & _). reflexivity.
Qed.

Lemma neighborhood_empty h3 radius geo height :
  neighborhood h3 radius geo height = [] <->
  grid_ring h3 (latlng_to_cell h3 (snd geo) (fst geo) 8) radius = [].
Proof.
  unfold neighborhood. split.
  - intros H. now apply map_eq_nil in H.
  - intros ->. reflexivity.
Qed.

(** The clamp of lines 227-228 and the height check of line 54. *)
Lemma clamp_height_cases e :
  clamp_height e = F64.of_Z 1 \/ clamp_height e = F64.of_Z 50 \/
  (clamp_height e = e /\ F64.ltb e (F64.of_Z 1) = false
   /\ F64.ltb (F64.of_Z 50) e = false).
Proof.
  unfold clamp_height, py_max2, py_min2. rewrite F64Facts.gtb_ltb.
  destruct (F64.ltb e (F64.of_Z 1)) eqn:A.
  - left. reflexivity.
  - destruct (F64.ltb (F64.of_Z 50) e) eqn:B; auto.
Qed.

Lemma clamp_height_passes e :
  ((clamp_height e <? F64.of_Z 0) || (clamp_height e >? F64.of_Z 50))%f64
  = false.
Proof.
  rewrite F64Facts.gtb_ltb.
  destruct (clamp_height_cases e) as [-> | [-> | (-> & A & B)]];
    [reflexivity | reflexivity |].
  rewrite B, orb_false_r.
  destruct (F64.ltb e (F64.of_Z 0)) eqn:C; [|reflexivity].
  assert (F64.ltb (F64.of_Z 0) (F64.of_Z 1) = true) as D by reflexivity.
  rewrite (F64Facts.ltb_trans _ _ _ C D) in A. discriminate.
Qed.

Lemma clamp_height_range e :
  F64.is_nan e = false ->
  ((F64.of_Z 1 <=? clamp_height e) && (clamp_height e <=? F64.of_Z 50))%f64
  = true.
Proof.
  intros Hn.
  destruct (clamp_height_cases e) as [-> | [-> | (-> & A & B)]];
    [reflexivity | reflexivity |].
  rewrite (F64Facts.ltb_false_leb e (F64.of_Z 1) Hn eq_refl A).
  rewrite (F64Facts.ltb_false_leb (F64.of_Z 50) e eq_refl Hn B). reflexivity.
Qed.

Lemma validate_location_height label loc m :
  ((alt loc <? F64.of_Z 0) || (alt loc >? F64.of_Z 50))%f64 = false ->
  validate_location label loc = Raise (ValueError m) ->
  m = ("Invalid latitude for " ++ label)%string
  \/ m = ("Invalid longitude for " ++ label)%string.
Proof.
  intros H. unfold validate_location.
  destruct (negb _); [intros [= <-]; auto|].
  destruct (negb _); [intros [= <-]; auto|].
  rewrite H. discriminate.
Qed.

Lemma validate_location_exn label loc e :
  validate_location label loc = Raise e -> exists m, e = ValueError m.
Proof.
  unfold validate_location.
  repeat (match goal with |- context [if ?c then _ else _] => destruct c end);
    intros [= <-]; eauto.
Qed.

(** Every exception of [_validate_model_parameters] is a [ValueError]. *)
Lemma validate_exn tx rx profile freq hist e :
  _validate_model_parameters tx rx profile freq hist = Raise e ->
  exists m, e = ValueError m.
Proof.
  unfold _validate_model_parameters.
  destruct (validate_location "tx" tx) eqn:Etx;
    [|intros [= <-]; eapply validate_location_exn; eauto].
  destruct (validate_location "rx" rx) eqn:Erx;
    [|intros [= <-]; eapply validate_location_exn; eauto].
  destruct profile as [p|]; [|intros [= <-]; eauto].
  repeat (match goal with |- context [if ?c then _ else _] => destruct c end);
    intros [= <-]; eauto.
Qed.

Lemma validate_height_message tx rx profile freq hist m label :
  ((alt tx <? F64.of_Z 0) || (alt tx >? F64.of_Z 50))%f64 = false ->
  ((alt rx <? F64.of_Z 0) || (alt rx >? F64.of_Z 50))%f64 = false ->
  _validate_model_parameters tx rx profile freq hist = Raise (ValueError m) ->
  m <> ("Invalid asserted height for " ++ label)%string.
Proof.
  intros Htx Hrx. unfold _validate_model_parameters.
  destruct (validate_location "tx" tx) eqn:Etx.
  2:{ intros [= ->].
      destruct (validate_location_height _ _ _ Htx Etx) as [-> | ->];
        simpl; discriminate. }
  destruct (validate_location "rx" rx) eqn:Erx.
  2:{ intros [= ->].
      destruct (validate_location_height _ _ _ Hrx Erx) as [-> | ->];
        simpl; discriminate. }
  destruct profile as [p|]; [|intros [= <-]; simpl; discriminate].
  repeat (match goal with |- context [if ?c then _ else _] => destruct c end);
    intros [= <-]; simpl; discriminate.
Qed.

Section LinkFacts.

Variable h3 : H3.
Variable itm_model : Itm.
Variable tiles : Tiles.
Variable min_samples : Z.
Variable min_distance_km : F64.t.
Variable threshold_db : F64.t.
Variable h3_search_radius : Z.
Variable compute_loss_profile : bool.

Let eval_link : Row -> Step :=
  evaluate_link h3 itm_model tiles min_samples min_distance_km
    threshold_db h3_search_radius compute_loss_profile.

Let eval_rows :=
  evaluate_rows h3 itm_model tiles min_samples min_distance_km
    threshold_db h3_search_radius compute_loss_profile.

Let residuals_of (db : ArangoDb) (pl : Polars) (w b : list string) (n : Z)
  : result (list ResultRow) :=
  compute_residuals h3 db pl itm_model tiles min_samples min_distance_km
    threshold_db h3_search_radius compute_loss_profile w b n.

Lemma tx_location_alt p tx :
  tx_location h3 tiles h3_search_radius p = Ok tx ->
  alt tx = clamp_height (beaconer_elevation p).
Proof.
  intros H. apply py_max_key_In in H.
  now apply neighborhood_alt in H.
Qed.

Lemma rx_location_alt p rx :
  rx_location h3 tiles h3_search_radius p = Ok rx ->
  alt rx = clamp_height (witness_elevation p).
Proof.
  intros H. apply py_max_key_In in H.
  now apply neighborhood_alt in H.
Qed.

Lemma model_loss_log b w prof freq :
  forall r,
    In r (match model_loss itm_model compute_loss_profile b w prof freq
          with
          | Loss _ _ l | LossSkipped l | LossUncaught _ l => l
          end) ->
    r = InfoComputingLossProfile b w
    \/ (exists m, r = WarningLossProfileError b w m)
    \/ (exists m, r = WarningPointToPointError b w m).
Proof.
  intros r. unfold model_loss.
  destruct compute_loss_profile.
  - destruct (itm_path itm_model prof freq) as [lp|[]];
      [destruct (py_last lp) as [x|[]]|..];
      simpl; intuition (subst; eauto).
  - destruct (itm_p2p itm_model prof freq) as [x|[]]; simpl;
      intuition (subst; eauto).
Qed.

(** The results of the loop are the rows appended by the iterations, in
    order. *)
Lemma evaluate_rows_ok rows : forall acc log log' results,
  eval_rows rows acc log = (log', Ok results) ->
  results = acc ++ flat_map (fun r => appended_rows (eval_link r)) rows.
Proof.
  induction rows as [|row rows IH]; intros acc log log' results; simpl.
  - intros [= _ <-]. now rewrite app_nil_r.
  - fold eval_link. destruct (eval_link row) as [l|[r|] l|e l]; simpl.
    + apply IH.
    + intros H. apply IH in H. now rewrite <- app_assoc in H.
    + apply IH.
    + discriminate.
Qed.

(** The log does not influence what the loop returns. *)
Lemma evaluate_rows_log rows : forall acc log log',
  snd (eval_rows rows acc log) = snd (eval_rows rows acc log').
Proof.
  induction rows as [|row rows IH]; intros acc log log'; simpl;
    [reflexivity|].
  fold eval_link. destruct (eval_link row) as [l|[r|] l|e l]; simpl;
    auto.
Qed.

(** The loop over a frame is the loop over its first rows, continued
    over the rest unless an exception left the first part. *)
Lemma evaluate_rows_app pre post : forall acc log,
  eval_rows (pre ++ post) acc log
  = match eval_rows pre acc log with
    | (log', Ok results) => eval_rows post results log'
    | (log', Raise e) => (log', Raise e)
    end.
Proof.
  induction pre as [|p pre IH]; intros acc log; simpl; [reflexivity|].
  fold eval_link. destruct (eval_link p) as [l|[r|] l|e l]; simpl; auto.
Qed.

(** A row whose iteration ends in [continue] changes nothing to what the
    loop returns: the rows before and after it are processed as if it
    were not in the frame. *)
Lemma evaluate_rows_continue pre row post l : forall acc log,
  eval_link row = Continue l ->
  snd (eval_rows (pre ++ row :: post) acc log)
  = snd (eval_rows (pre ++ post) acc log).
Proof.
  intros acc log H. rewrite !evaluate_rows_app.
  destruct (eval_rows pre acc log) as [log' [results|e]]; [|reflexivity].
  simpl. fold eval_link. rewrite H. apply evaluate_rows_log.
Qed.

(** An uncaught exception in one iteration leaves the loop with that
    exception when the iterations before it ran to their end. *)
Lemma evaluate_rows_uncaught pre row post e l : forall acc log,
  eval_link row = Uncaught e l ->
  (forall r, In r pre -> forall e' l', eval_link r <> Uncaught e' l') ->
  snd (eval_rows (pre ++ row :: post) acc log) = Raise e.
Proof.
  induction pre as [|p pre IH]; intros acc log H Hpre; simpl.
  - fold eval_link. now rewrite H.
  - fold eval_link.
    destruct (eval_link p) as [l0|[r|] l0|e0 l0] eqn:Ep;
      try (apply IH; [exact H | intros r' Hr'; apply Hpre; now right]).
    exfalso. eapply (Hpre p); [now left | exact Ep].
Qed.

(** [compute_residuals] is the loop over the rows of the data frame. *)
Lemma compute_residuals_frame db pl w b n edge_data :
  _fetch_edge_data db pl w b n = Ok edge_data ->
  residuals_of db pl w b n = snd (eval_rows edge_data [] []).
Proof.
  intros H. unfold residuals_of, compute_residuals, compute_residuals_logged.
  now rewrite H.
Qed.

(** A data frame that is returned holds the rows appended for the rows of
    the frame of links, in order. *)
Lemma compute_residuals_ok db pl w b n results :
  residuals_of db pl w b n = Ok results ->
  exists edge_data,
    _fetch_edge_data db pl w b n = Ok edge_data
    /\ results = flat_map (fun r => appended_rows (eval_link r)) edge_data.
Proof.
  unfold residuals_of, compute_residuals, compute_residuals_logged.
  destruct (_fetch_edge_data db pl w b n) as [edge_data|e];
    [|discriminate].
  intros H. exists edge_data. split; [reflexivity|].
  destruct (evaluate_rows _ _ _ _ _ _ _ _ edge_data [] []) as [log' res] eqn:E.
  simpl in H. subst res. apply evaluate_rows_ok in E. exact E.
Qed.

Lemma appended_rows_single row r :
  In r (appended_rows (eval_link row)) -> appended_rows (eval_link row) = [r].
Proof.
  unfold appended_rows.
  destruct (eval_link row) as [|[]|]; simpl; try contradiction.
  intros [->|[]]. reflexivity.
Qed.

(** Every row of the data frame was appended by the iteration of one of
    the rows of the frame of links. *)
Lemma results_origin db pl w b n results r :
  residuals_of db pl w b n = Ok results ->
  In r results ->
  exists edge_data row,
    _fetch_edge_data db pl w b n = Ok edge_data
    /\ In row edge_data
    /\ appended_rows (eval_link row) = [r].
Proof.
  intros H Hr. apply compute_residuals_ok in H.
  destruct H as (edge_data & Hf & ->).
  apply in_flat_map in Hr. destruct Hr as (row & Hrow & Hr).
  exists edge_data, row. split; [exact Hf|]. split; [exact Hrow|].
  now apply appended_rows_single.
Qed.

(** The body of the loop for a link that reaches the decision rule. *)
Lemma evaluate_link_reached row p tx rx bins prof mean var sd loss lp lg :
  asserted_pair row = Some p ->
  tx_location h3 tiles h3_search_radius p = Ok tx ->
  rx_location h3 tiles h3_search_radius p = Ok rx ->
  pair_bins p = Ok bins ->
  tiles_profile tiles tx rx = Some prof ->
  _validate_model_parameters tx rx (Some prof) (beaconer_freq p)
    (clean_hist (signal_hist p)) = Ok tt ->
  int_sum (pair_counts p) <> 0 ->
  signal_statistics bins (pair_counts p) = Ok (mean, var, sd) ->
  model_loss itm_model compute_loss_profile
    (str_strip (beaconer row) strip_set) (str_strip (witness row) strip_set)
    prof (beaconer_freq p) = Loss loss lp lg ->
  eval_link row
  = let b := str_strip (beaconer row) strip_set in
    let w := str_strip (witness row) strip_set in
    let m_loss := measured_loss_of mean p in
    let res := (m_loss - loss)%f64 in
    let final :=
      [InfoModelResidual b w res (List.length (pair_counts p)) var] in
    match edge_condition min_samples min_distance_km threshold_db
            (pair_counts p) res prof with
    | Raise e => Uncaught e lg
    | Ok false => Completed None (lg ++ final)
    | Ok true =>
        match py_last (distances prof) with
        | Raise e => Uncaught e (lg ++ [InfoEdgeFlagged])
        | Ok d =>
            Completed
              (Some {| beaconer_pubkey := b;
                       witness_pubkey := w;
                       transmit_power_dBm := beaconer_tx_power p;
                       frequency_hz := beaconer_freq p;
                       measured_rssi := mean;
                       measured_loss := m_loss;
                       samples := int_sum (pair_counts p);
                       std_dev := sd;
                       itm_loss := loss;
                       itm_loss_profile := lp;
                       residual := res;
                       distance_km := (d / F64.of_Z 1000)%f64;
                       terrain_profile_distances := distances prof;
                       terrain_profile_elevations := elevation prof;
                       tx_antenna_height_m := alt tx;
                       rx_antenna_height_m := alt rx;
                       tx_antenna_gain_dB :=
                         (beaconer_gain p / F64.of_Z 10)%f64;
                       rx_antenna_gain_dB :=
                         (witness_gain p / F64.of_Z 10)%f64;
                       edge_flag := true |})
              (lg ++ InfoEdgeFlagged :: final)
        end
    end.
Proof.
  intros Hp Htx Hrx Hbins Hprof Hval Hsum Hstat Hloss.
  unfold eval_link, evaluate_link. rewrite Hp.
  unfold tx_location in Htx. unfold rx_location in Hrx.
  unfold pair_counts, pair_bins, strip_set in *.
  rewrite Htx, Hrx, Hbins, Hprof, Hval.
  apply Z.eqb_neq in Hsum. rewrite Hsum, Hstat, Hloss. reflexivity.
Qed.

(** Conversely, an appended row comes from a link that went through
    every step of the body, and carries the values computed there. *)
Lemma evaluate_link_appended row r :
  appended_rows (eval_link row) = [r] ->
  exists p tx rx bins prof mean var sd loss lp lg d,
    asserted_pair row = Some p
    /\ tx_location h3 tiles h3_search_radius p = Ok tx
    /\ rx_location h3 tiles h3_search_radius p = Ok rx
    /\ pair_bins p = Ok bins
    /\ tiles_profile tiles tx rx = Some prof
    /\ _validate_model_parameters tx rx (Some prof) (beaconer_freq p)
         (clean_hist (signal_hist p)) = Ok tt
    /\ int_sum (pair_counts p) <> 0
    /\ signal_statistics bins (pair_counts p) = Ok (mean, var, sd)
    /\ model_loss itm_model compute_loss_profile
         (str_strip (beaconer row) strip_set)
         (str_strip (witness row) strip_set)
         prof (beaconer_freq p) = Loss loss lp lg
    /\ edge_condition min_samples min_distance_km threshold_db
         (pair_counts p) (measured_loss_of mean p - loss)%f64 prof
       = Ok true
    /\ py_last (distances prof) = Ok d
    /\ r = {| beaconer_pubkey := str_strip (beaconer row) strip_set;
              witness_pubkey := str_strip (witness row) strip_set;
              transmit_power_dBm := beaconer_tx_power p;
              frequency_hz := beaconer_freq p;
              measured_rssi := mean;
              measured_loss := measured_loss_of mean p;
              samples := int_sum (pair_counts p);
              std_dev := sd;
              itm_loss := loss;
              itm_loss_profile := lp;
              residual := (measured_loss_of mean p - loss)%f64;
              distance_km := (d / F64.of_Z 1000)%f64;
              terrain_profile_distances := distances prof;
              terrain_profile_elevations := elevation prof;
              tx_antenna_height_m := alt tx;
              rx_antenna_height_m := alt rx;
              tx_antenna_gain_dB := (beaconer_gain p / F64.of_Z 10)%f64;
              rx_antenna_gain_dB := (witness_gain p / F64.of_Z 10)%f64;
              edge_flag := true |}.
Proof.
  unfold eval_link, evaluate_link, tx_location, rx_location, pair_counts,
    pair_bins, strip_set.
  destruct (asserted_pair row) as [p|]; [|discriminate].
  destruct (py_max_key _ _) as [tx|] eqn:Htx; [|discriminate].
  destruct (py_max_key (tiles_elevation tiles) (neighborhood _ _
    (witness_geo_loc p) _)) as [rx|] eqn:Hrx; [|discriminate].
  destruct (bins_of _) as [bins|] eqn:Hbins; [|discriminate].
  destruct (_validate_model_parameters _ _ _ _ _) as [[]|[]] eqn:Hval;
    try discriminate.
  destruct (int_sum _ =? 0)%Z eqn:Hsum; [discriminate|].
  destruct (signal_statistics _ _) as [[[mean var] sd]|] eqn:Hstat;
    [|discriminate].
  destruct (tiles_profile tiles tx rx) as [prof|] eqn:Hprof;
    [|discriminate].
  destruct (model_loss _ _ _ _ _ _) as [loss lp lg| |] eqn:Hloss;
    try discriminate.
  destruct (edge_condition _ _ _ _ _ _) as [[]|] eqn:Hedge;
    try discriminate.
  destruct (py_last (distances prof)) as [d|] eqn:Hd; [|discriminate].
  simpl. intros [= <-].
  exists p, tx, rx, bins, prof, mean, var, sd, loss, lp, lg, d.
  apply Z.eqb_neq in Hsum. repeat split; auto.
Qed.

Lemma validate_profile_length tx rx prof freq hist :
  _validate_model_parameters tx rx (Some prof) freq hist = Ok tt ->
  (2 <= List.length (distances prof))%nat.
Proof.
  unfold _validate_model_parameters.
  destruct (validate_location "tx" tx); [|discriminate].
  destruct (validate_location "rx" rx); [|discriminate].
  destruct (Z.of_nat (List.length (distances prof)) <? 2)%Z eqn:E;
    [discriminate|].
  intros _. apply Z.ltb_ge in E. lia.
Qed.

(** *** The decision rule *)

(** C1 (amended).  The data frame [compute_residuals] returns holds
    exactly the rows appended by the iterations of its loop over the frame
    of links, each with the edge flag set.  For a link that passes
    validation and whose model loss is computed (so its total weight is not
    zero and its statistics exist), the iteration appends the row of the
    link, with the edge flag set, if and only if the three conditions hold
    together: total weight at least [min_samples], residual below
    [threshold_db], and last profile distance divided by 1000 above
    [min_distance_km]; when one of them fails nothing is appended.  The
    total weight is the sum of the counts in 64-bit arithmetic: the sum of
    the counts wrapped around, hence the sum itself whenever that fits in 64
    bits. *)
Theorem C1_edge_iff_three_conditions :
  (forall db pl witness_pubkeys beaconer_pubkeys max_witnesses results,
      compute_residuals h3 db pl itm_model tiles min_samples min_distance_km
        threshold_db h3_search_radius compute_loss_profile witness_pubkeys
        beaconer_pubkeys max_witnesses = Ok results ->
      exists edge_data,
        _fetch_edge_data db pl witness_pubkeys beaconer_pubkeys max_witnesses
        = Ok edge_data
        /\ results
           = flat_map (fun row => appended_rows (eval_link row)) edge_data
        /\ Forall (fun r => edge_flag r = true) results)
  /\ (forall row p tx rx bins prof mean var sd loss lp lg,
      asserted_pair row = Some p ->
      tx_location h3 tiles h3_search_radius p = Ok tx ->
      rx_location h3 tiles h3_search_radius p = Ok rx ->
      pair_bins p = Ok bins ->
      tiles_profile tiles tx rx = Some prof ->
      _validate_model_parameters tx rx (Some prof) (beaconer_freq p)
        (clean_hist (signal_hist p)) = Ok tt ->
      int_sum (pair_counts p) <> 0 ->
      signal_statistics bins (pair_counts p) = Ok (mean, var, sd) ->
      model_loss itm_model compute_loss_profile
        (str_strip (beaconer row) strip_set)
        (str_strip (witness row) strip_set)
        prof (beaconer_freq p) = Loss loss lp lg ->
      exists d,
        py_last (distances prof) = Ok d
        /\ let res := (measured_loss_of mean p - loss)%f64 in
           let distance := (d / F64.of_Z 1000)%f64 in
           let all_three :=
             (int_sum (pair_counts p) >=? min_samples)%Z
             && (res <? threshold_db)%f64
             && (distance >? min_distance_km)%f64 in
           (all_three = true <->
            exists r, appended_rows (eval_link row) = [r]
                      /\ edge_flag r = true
                      /\ beaconer_pubkey r
                         = str_strip (beaconer row) strip_set
                      /\ witness_pubkey r
                         = str_strip (witness row) strip_set
                      /\ samples r = int_sum (pair_counts p)
                      /\ residual r = res
                      /\ distance_km r = distance)
           /\ (all_three = false ->
               appended_rows (eval_link row) = []
               /\ exists l, eval_link row = Completed None l))
  /\ (forall counts,
      int_sum counts = wrap64 (total_weight counts)
      /\ (in_int64 (total_weight counts) ->
          int_sum counts = total_weight counts)).
Proof.
  split; [|split].
  - intros db pl wp bp mw results H.
    destruct (compute_residuals_ok _ _ _ _ _ _ H) as (edge_data & Hf & ->).
    exists edge_data. split; [exact Hf|]. split; [reflexivity|].
    apply Forall_forall. intros r Hr. apply in_flat_map in Hr.
    destruct Hr as (row & _ & Hr). apply appended_rows_single in Hr.
    apply evaluate_link_appended in Hr.
    destruct Hr as (p & tx & rx & bins & prof & mean & var & sd & loss & lp
                    & lg & d & _ & _ & _ & _ & _ & _ & _ & _ & _ & _ & _
                    & ->).
    reflexivity.
  - intros row p tx rx bins prof mean var sd loss lp lg
      Hp Htx Hrx Hbins Hprof Hval Hsum Hstat Hloss.
    destruct (py_last_ok_of_length (distances prof)) as [d Hd].
    { apply validate_profile_length in Hval. lia. }
    exists d. split; [exact Hd|].
    rewrite (evaluate_link_reached _ _ _ _ _ _ _ _ _ _ _ _
               Hp Htx Hrx Hbins Hprof Hval Hsum Hstat Hloss).
    cbv zeta. unfold edge_condition. rewrite Hd.
    destruct (int_sum (pair_counts p) >=? min_samples)%Z; simpl.
    2:{ split; [split; [discriminate | intros (r & [=] & _)]|].
        intros _. split; eauto. }
    destruct (F64.ltb _ threshold_db); simpl.
    2:{ split; [split; [discriminate | intros (r & [=] & _)]|].
        intros _. split; eauto. }
    destruct (F64.gtb _ min_distance_km); simpl.
    2:{ split; [split; [discriminate | intros (r & [=] & _)]|].
        intros _. split; eauto. }
    split; [|discriminate].
    split; [intros _|reflexivity].
    eexists. split; [reflexivity|]. simpl. repeat split.
  - intros counts. split; [apply int_sum_total_weight|].
    intros H. rewrite int_sum_total_weight. now apply wrap64_id.
Qed.

(** *** The residual *)

Lemma signal_statistics_mean bins counts mean var sd :
  signal_statistics bins counts = Ok (mean, var, sd) ->
  np_average bins counts = Ok mean
  /\ np_average (squared_deviations bins mean) counts = Ok var
  /\ sd = F64.sqrt var.
Proof.
  unfold signal_statistics.
  destruct (np_average bins counts) as [m|] eqn:Em; [|discriminate].
  destruct (np_average (squared_deviations bins m) counts) as [v|] eqn:Ev;
    [|discriminate].
  intros [= <- <- <-]. auto.
Qed.

(** C2 (amended).  Every row of the data frame satisfies
    [residual = measured_loss - itm_loss] and
    [measured_loss = -1.0 * (measured_rssi - tx_gain_dB - tx_power -
    rx_gain_dB)], the three terms being subtracted in this order: the gain
    of the beaconer, the transmit power, the gain of the witness.  The two
    gains are the gains of the asserted pair (tenths of dB) divided by 10,
    the power is its transmit power and [measured_rssi] is the weighted
    mean of its histogram; nothing else enters.  The same value is what the
    iteration logs as the residual of every link it evaluates to the end,
    flagged or not. *)
Theorem C2_residual_is_measured_minus_model :
  (forall db pl witness_pubkeys beaconer_pubkeys max_witnesses results r,
      compute_residuals h3 db pl itm_model tiles min_samples min_distance_km
        threshold_db h3_search_radius compute_loss_profile witness_pubkeys
        beaconer_pubkeys max_witnesses = Ok results ->
      In r results ->
      residual r = (measured_loss r - itm_loss r)%f64
      /\ measured_loss r
         = (F64.of_Z (-1)
            * (measured_rssi r - tx_antenna_gain_dB r - transmit_power_dBm r
               - rx_antenna_gain_dB r))%f64
      /\ exists edge_data row p bins,
          _fetch_edge_data db pl witness_pubkeys beaconer_pubkeys
            max_witnesses = Ok edge_data
          /\ In row edge_data
          /\ asserted_pair row = Some p
          /\ tx_antenna_gain_dB r = (beaconer_gain p / F64.of_Z 10)%f64
          /\ rx_antenna_gain_dB r = (witness_gain p / F64.of_Z 10)%f64
          /\ transmit_power_dBm r = beaconer_tx_power p
          /\ pair_bins p = Ok bins
          /\ np_average bins (pair_counts p) = Ok (measured_rssi r))
  /\ (forall row p tx rx bins prof mean var sd loss lp lg,
      asserted_pair row = Some p ->
      tx_location h3 tiles h3_search_radius p = Ok tx ->
      rx_location h3 tiles h3_search_radius p = Ok rx ->
      pair_bins p = Ok bins ->
      tiles_profile tiles tx rx = Some prof ->
      _validate_model_parameters tx rx (Some prof) (beaconer_freq p)
        (clean_hist (signal_hist p)) = Ok tt ->
      int_sum (pair_counts p) <> 0 ->
      signal_statistics bins (pair_counts p) = Ok (mean, var, sd) ->
      model_loss itm_model compute_loss_profile
        (str_strip (beaconer row) strip_set)
        (str_strip (witness row) strip_set)
        prof (beaconer_freq p) = Loss loss lp lg ->
      exists appended l,
        eval_link row
        = Completed appended
            (l ++ [InfoModelResidual (str_strip (beaconer row) strip_set)
                     (str_strip (witness row) strip_set)
                     (F64.of_Z (-1)
                      * (mean - beaconer_gain p / F64.of_Z 10
                         - beaconer_tx_power p
                         - witness_gain p / F64.of_Z 10) - loss)%f64
                     (List.length (pair_counts p)) var])).
Proof.
  split.
  - intros db pl wp bp mw results r H Hr.
    destruct (results_origin _ _ _ _ _ _ _ H Hr)
      as (edge_data & row & Hf & Hrow & Ea).
    apply evaluate_link_appended in Ea.
    destruct Ea as (p & tx & rx & bins & prof & mean & var & sd & loss & lp
                    & lg & d & Hp & _ & _ & Hbins & _ & _ & _ & Hstat & _
                    & _ & _ & ->).
    simpl. repeat split.
    exists edge_data, row, p, bins. repeat split; auto.
    now apply signal_statistics_mean in Hstat.
  - intros row p tx rx bins prof mean var sd loss lp lg
      Hp Htx Hrx Hbins Hprof Hval Hsum Hstat Hloss.
    destruct (py_last_ok_of_length (distances prof)) as [d Hd].
    { apply validate_profile_length in Hval. lia. }
    rewrite (evaluate_link_reached _ _ _ _ _ _ _ _ _ _ _ _
               Hp Htx Hrx Hbins Hprof Hval Hsum Hstat Hloss).
    cbv zeta. unfold edge_condition, measured_loss_of. rewrite Hd.
    destruct (int_sum (pair_counts p) >=? min_samples)%Z;
      [destruct (F64.ltb _ threshold_db);
       [destruct (F64.gtb _ min_distance_km)|]|].
    + eexists _, (lg ++ [InfoEdgeFlagged]). rewrite <- app_assoc.
      reflexivity.
    + eexists _, lg. reflexivity.
    + eexists _, lg. reflexivity.
    + eexists _, lg. reflexivity.
Qed.

(** *** Validation of the frequency *)

Lemma frequency_check freq :
  F64.is_nan freq = false ->
  ((freq >=? F64.of_Z 1000000000) || (freq <=? F64.of_Z 400000000))%f64
  = negb ((F64.of_Z 400000000 <? freq) && (freq <? F64.of_Z 1000000000))%f64.
Proof.
  intros Hn. rewrite F64Facts.geb_leb.
  rewrite (F64Facts.leb_negb_ltb (F64.of_Z 1000000000) freq eq_refl Hn).
  rewrite (F64Facts.leb_negb_ltb freq (F64.of_Z 400000000) Hn eq_refl).
  destruct (F64.ltb freq _), (F64.ltb _ freq); reflexivity.
Qed.

(** With a frequency that is not a number neither comparison holds. *)
Lemma frequency_check_nan freq :
  F64.is_nan freq = true ->
  ((freq >=? F64.of_Z 1000000000) || (freq <=? F64.of_Z 400000000))%f64
  = false
  /\ ((F64.of_Z 400000000 <? freq) && (freq <? F64.of_Z 1000000000))%f64
     = false.
Proof. destruct freq; try discriminate. intros _. split; reflexivity. Qed.

Lemma validate_after_locations tx rx prof freq hist :
  validate_location "tx" tx = Ok tt ->
  validate_location "rx" rx = Ok tt ->
  (2 <= List.length (distances prof))%nat ->
  _validate_model_parameters tx rx (Some prof) freq hist
  = if ((freq >=? F64.of_Z 1000000000)
        || (freq <=? F64.of_Z 400000000))%f64
    then Raise (ValueError "Frequency out of expected range")
    else if (Z.of_nat (List.length hist) =? 0)%Z
         then Raise (ValueError "Invalid or empty signal histogram")
         else Ok tt.
Proof.
  intros Htx Hrx Hlen. unfold _validate_model_parameters.
  rewrite Htx, Hrx.
  destruct (Z.of_nat (List.length (distances prof)) <? 2)%Z eqn:E;
    [apply Z.ltb_lt in E; lia | reflexivity].
Qed.

(** C5 (amended).  Once the locations and the profile are valid and the
    histogram is not empty, [_validate_model_parameters] rejects a
    frequency exactly when [freq >= 1000e6 or freq <= 400e6]: a frequency
    that is a number is accepted exactly when it lies strictly between
    400 MHz and 1000 MHz, and a frequency that is not a number (NaN), for
    which both comparisons are false, is accepted as well.  A rejected
    frequency raises the frequency error, which makes the loop skip the
    link.  399e6 and 1000e6 are rejected, 401e6 and 999e6 accepted. *)
Theorem C5_frequency_open_interval :
  (forall tx rx prof freq hist,
      validate_location "tx" tx = Ok tt ->
      validate_location "rx" rx = Ok tt ->
      (2 <= List.length (distances prof))%nat ->
      hist <> [] ->
      let inside :=
        ((F64.of_Z 400000000 <? freq) && (freq <? F64.of_Z 1000000000))%f64 in
      (_validate_model_parameters tx rx (Some prof) freq hist = Ok tt
       <-> inside = true \/ F64.is_nan freq = true)
      /\ (_validate_model_parameters tx rx (Some prof) freq hist
          = Raise (ValueError "Frequency out of expected range")
          <-> inside = false /\ F64.is_nan freq = false))
  /\ (forall tx rx prof hist,
      validate_location "tx" tx = Ok tt ->
      validate_location "rx" rx = Ok tt ->
      (2 <= List.length (distances prof))%nat ->
      hist <> [] ->
      _validate_model_parameters tx rx (Some prof) (F64.of_Z 399000000) hist
      = Raise (ValueError "Frequency out of expected range")
      /\ _validate_model_parameters tx rx (Some prof) (F64.of_Z 1000000000)
           hist
         = Raise (ValueError "Frequency out of expected range")
      /\ _validate_model_parameters tx rx (Some prof) (F64.of_Z 401000000)
           hist = Ok tt
      /\ _validate_model_parameters tx rx (Some prof) (F64.of_Z 999000000)
           hist = Ok tt)
  /\ (forall row p tx rx bins m,
      asserted_pair row = Some p ->
      tx_location h3 tiles h3_search_radius p = Ok tx ->
      rx_location h3 tiles h3_search_radius p = Ok rx ->
      pair_bins p = Ok bins ->
      _validate_model_parameters tx rx (tiles_profile tiles tx rx)
        (beaconer_freq p) (clean_hist (signal_hist p))
      = Raise (ValueError m) ->
      eval_link row
      = Continue [InfoInvalidAssertionData
                    (str_strip (beaconer row) strip_set)
                    (str_strip (witness row) strip_set) m]
      /\ appended_rows (eval_link row) = []).
Proof.
  assert (forall hist : list (Z * Z), hist <> [] ->
            (Z.of_nat (List.length hist) =? 0)%Z = false) as Hne.
  { intros [|x hist] H; [congruence | reflexivity]. }
  split; [|split].
  - intros tx rx prof freq hist Htx Hrx Hlen Hh inside.
    rewrite (validate_after_locations _ _ _ _ _ Htx Hrx Hlen), (Hne _ Hh).
    destruct (F64.is_nan freq) eqn:Hn.
    + destruct (frequency_check_nan _ Hn) as [-> Hin]. fold inside in Hin.
      rewrite Hin. split; split; auto; try discriminate.
      intros [_ H]; discriminate.
    + rewrite (frequency_check _ Hn). fold inside.
      destruct inside; simpl; split; split; auto; try discriminate.
      * intros [H _]; discriminate.
      * intros [H|H]; discriminate.
  - intros tx rx prof hist Htx Hrx Hlen Hh.
    rewrite !(validate_after_locations _ _ _ _ _ Htx Hrx Hlen).
    rewrite (Hne _ Hh). repeat split; reflexivity.
  - intros row p tx rx bins m Hp Htx Hrx Hbins Hval.
    unfold eval_link, evaluate_link. rewrite Hp.
    unfold tx_location in Htx. unfold rx_location in Hrx.
    unfold pair_bins in Hbins.
    rewrite Htx, Hrx, Hbins, Hval. split; reflexivity.
Qed.

(** *** Empty histograms *)

Lemma validate_empty_hist tx rx profile freq :
  _validate_model_parameters tx rx profile freq [] <> Ok tt.
Proof.
  unfold _validate_model_parameters.
  destruct (validate_location "tx" tx); [|discriminate].
  destruct (validate_location "rx" rx); [|discriminate].
  destruct profile as [prof|]; [|discriminate].
  destruct (_ <? 2)%Z; [discriminate|].
  destruct (_ || _)%bool; discriminate.
Qed.

Lemma validate_hist_empty_message tx rx profile freq hist' :
  hist' <> [] ->
  _validate_model_parameters tx rx profile freq hist' = Ok tt ->
  _validate_model_parameters tx rx profile freq []
  = Raise (ValueError "Invalid or empty signal histogram").
Proof.
  unfold _validate_model_parameters. intros Hne' H.
  destruct (validate_location "tx" tx); [|discriminate].
  destruct (validate_location "rx" rx); [|discriminate].
  destruct profile as [prof|]; [|discriminate].
  destruct (_ <? 2)%Z; [discriminate|].
  destruct (_ || _)%bool; [discriminate|]. reflexivity.
Qed.

(** C8 (amended).  A link whose histogram has no entry, or whose counts
    sum to zero, is skipped once its two locations are refined and its bins
    computed: the iteration ends in [continue] with one log record and
    appends no row, and the loop returns for the frame what it returns for
    the frame without that link.  Only the empty histogram is rejected by
    an error, the [ValueError] "Invalid or empty signal histogram" of the
    validation (when the rest of the link is valid); a histogram with
    entries whose counts sum to zero passes the validation and raises
    nothing: the check that follows the validation skips it with a
    warning. *)
Theorem C8_empty_histogram_skipped :
  forall row p tx rx bins,
    asserted_pair row = Some p ->
    tx_location h3 tiles h3_search_radius p = Ok tx ->
    rx_location h3 tiles h3_search_radius p = Ok rx ->
    pair_bins p = Ok bins ->
    signal_hist p = [] \/ int_sum (pair_counts p) = 0 ->
    (exists record, eval_link row = Continue [record])
    /\ appended_rows (eval_link row) = []
    /\ (forall db db' pl pl' witness_pubkeys beaconer_pubkeys max_witnesses
           pre post,
          _fetch_edge_data db pl witness_pubkeys beaconer_pubkeys
            max_witnesses = Ok (pre ++ row :: post) ->
          _fetch_edge_data db' pl' witness_pubkeys beaconer_pubkeys
            max_witnesses = Ok (pre ++ post) ->
          compute_residuals h3 db pl itm_model tiles min_samples
            min_distance_km threshold_db h3_search_radius
            compute_loss_profile witness_pubkeys beaconer_pubkeys
            max_witnesses
          = compute_residuals h3 db' pl' itm_model tiles min_samples
              min_distance_km threshold_db h3_search_radius
              compute_loss_profile witness_pubkeys beaconer_pubkeys
              max_witnesses)
    /\ (signal_hist p = [] ->
        (exists hist', hist' <> []
           /\ _validate_model_parameters tx rx (tiles_profile tiles tx rx)
                (beaconer_freq p) hist' = Ok tt) ->
        eval_link row
        = Continue [InfoInvalidAssertionData
                      (str_strip (beaconer row) strip_set)
                      (str_strip (witness row) strip_set)
                      "Invalid or empty signal histogram"])
    /\ (int_sum (pair_counts p) = 0 ->
        _validate_model_parameters tx rx (tiles_profile tiles tx rx)
          (beaconer_freq p) (clean_hist (signal_hist p)) = Ok tt ->
        eval_link row
        = Continue [WarningZeroWeights (str_strip (beaconer row) strip_set)
                      (str_strip (witness row) strip_set)]
        /\ forall m,
             ~ In (InfoInvalidAssertionData
                     (str_strip (beaconer row) strip_set)
                     (str_strip (witness row) strip_set) m)
                  (step_log (eval_link row))).
Proof.
  intros row p tx rx bins Hp Htx Hrx Hbins Hempty.
  assert (eval_link row
          = match _validate_model_parameters tx rx (tiles_profile tiles tx rx)
                    (beaconer_freq p) (clean_hist (signal_hist p)) with
            | Raise (ValueError m) =>
                Continue [InfoInvalidAssertionData
                            (str_strip (beaconer row) strip_set)
                            (str_strip (witness row) strip_set) m]
            | Raise e => Uncaught e []
            | Ok _ =>
                if (int_sum (pair_counts p) =? 0)%Z
                then Continue [WarningZeroWeights
                                 (str_strip (beaconer row) strip_set)
                                 (str_strip (witness row) strip_set)]
                else eval_link row
            end) as Hstep.
  { unfold eval_link, evaluate_link. rewrite Hp.
    unfold tx_location in Htx. unfold rx_location in Hrx.
    unfold pair_bins in Hbins.
    rewrite Htx, Hrx, Hbins. unfold pair_counts, strip_set.
    destruct (_validate_model_parameters _ _ _ _ _) as [[]|[]];
      try reflexivity.
    destruct (int_sum _ =? 0)%Z; reflexivity. }
  assert (exists record, eval_link row = Continue [record]) as Hskip.
  { rewrite Hstep.
    destruct (_validate_model_parameters _ _ _ _ _) as [[]|e] eqn:Hval.
    - destruct Hempty as [He|He].
      + exfalso. rewrite He in Hval.
        change (clean_hist []) with (@nil (Z * Z)) in Hval.
        exact (validate_empty_hist _ _ _ _ Hval).
      + rewrite He. simpl. eauto.
    - destruct (validate_exn _ _ _ _ _ _ Hval) as [m ->]. eauto. }
  destruct Hskip as [record Hcont].
  split; [eauto|]. split; [rewrite Hcont; reflexivity|].
  split; [|split].
  - intros db db' pl pl' wp bp mw pre post Hdb Hdb'.
    fold (residuals_of db pl wp bp mw). fold (residuals_of db' pl' wp bp mw).
    rewrite (compute_residuals_frame _ _ _ _ _ _ Hdb),
      (compute_residuals_frame _ _ _ _ _ _ Hdb').
    apply (evaluate_rows_continue pre row post [record]). exact Hcont.
  - intros He (hist' & Hne & Hval). rewrite Hstep, He.
    change (clean_hist []) with (@nil (Z * Z)).
    rewrite (validate_hist_empty_message _ _ _ _ _ Hne Hval). reflexivity.
  - intros Hz Hval.
    assert (eval_link row
            = Continue [WarningZeroWeights
                          (str_strip (beaconer row) strip_set)
                          (str_strip (witness row) strip_set)]) as E.
    { rewrite Hstep, Hval, Hz. reflexivity. }
    split; [exact E|]. intros m. rewrite E. simpl.
    intros [H|[]]. discriminate.
Qed.

(** *** Empty rings *)

(** When the ring of the beaconer or of the witness is empty, [max] raises
    [ValueError] outside every handler of the loop body: the iteration
    leaves [compute_residuals] with that exception, whatever the other rows
    of the frame are (as long as the rows before ran without exception). *)
Lemma empty_ring_uncaught :
  forall row p,
    asserted_pair row = Some p ->
    grid_ring h3
      (latlng_to_cell h3 (snd (beaconer_geo_loc p)) (fst (beaconer_geo_loc p))
         8) h3_search_radius = []
    \/ grid_ring h3
         (latlng_to_cell h3 (snd (witness_geo_loc p))
            (fst (witness_geo_loc p)) 8) h3_search_radius = [] ->
    eval_link row
    = Uncaught (ValueError "max() arg is an empty sequence") []
    /\ (forall db pl witness_pubkeys beaconer_pubkeys max_witnesses pre post,
          _fetch_edge_data db pl witness_pubkeys beaconer_pubkeys
            max_witnesses = Ok (pre ++ row :: post) ->
          (forall r, In r pre -> forall e l, eval_link r <> Uncaught e l) ->
          compute_residuals h3 db pl itm_model tiles min_samples
            min_distance_km threshold_db h3_search_radius
            compute_loss_profile witness_pubkeys beaconer_pubkeys
            max_witnesses
          = Raise (ValueError "max() arg is an empty sequence")).
Proof.
  intros row p Hp Hring.
  assert (eval_link row
          = Uncaught (ValueError "max() arg is an empty sequence") [])
    as Hstep.
  { unfold eval_link, evaluate_link. rewrite Hp.
    destruct Hring as [H|H].
    - apply neighborhood_empty with (height :=
        clamp_height (beaconer_elevation p)) in H.
      rewrite H. reflexivity.
    - apply neighborhood_empty with (height :=
        clamp_height (witness_elevation p)) in H.
      rewrite H.
      destruct (py_max_key _ _) as [tx|e] eqn:Htx; [reflexivity|].
      destruct (neighborhood _ _ (beaconer_geo_loc p) _); [|discriminate].
      injection Htx as <-. reflexivity. }
  split; [exact Hstep|].
  intros db pl wp bp mw pre post Hdb Hpre.
  fold (residuals_of db pl wp bp mw).
  rewrite (compute_residuals_frame _ _ _ _ _ _ Hdb).
  eapply evaluate_rows_uncaught; eauto.
Qed.

(** *** Antenna heights *)

Lemma model_loss_no_invalid b w prof freq b' w' m :
  ~ In (InfoInvalidAssertionData b' w' m)
      (match model_loss itm_model compute_loss_profile b w prof freq with
       | Loss _ _ l | LossSkipped l | LossUncaught _ l => l
       end).
Proof.
  intros H. apply model_loss_log in H.
  destruct H as [H|[[x H]|[x H]]]; discriminate.
Qed.

(** Only the validation handler writes an "invalid assertion data" record,
    with the message of the [ValueError] the validation raised for the two
    refined locations. *)
Lemma invalid_record_origin row b w m :
  In (InfoInvalidAssertionData b w m) (step_log (eval_link row)) ->
  exists p tx rx,
    asserted_pair row = Some p
    /\ tx_location h3 tiles h3_search_radius p = Ok tx
    /\ rx_location h3 tiles h3_search_radius p = Ok rx
    /\ _validate_model_parameters tx rx (tiles_profile tiles tx rx)
         (beaconer_freq p) (clean_hist (signal_hist p))
       = Raise (ValueError m).
Proof.
  unfold eval_link, evaluate_link, tx_location, rx_location.
  destruct (asserted_pair row) as [p|];
    [|simpl; intros [H|[]]; discriminate].
  destruct (py_max_key _ _) as [tx|] eqn:Htx; [|intros []].
  destruct (py_max_key (tiles_elevation tiles) (neighborhood _ _
    (witness_geo_loc p) _)) as [rx|] eqn:Hrx; [|intros []].
  destruct (bins_of _) as [bins|]; [|intros []].
  destruct (_validate_model_parameters _ _ _ _ _) as [[]|[]] eqn:Hval;
    [| |intros H; exact (False_ind _ H)..].
  2:{ simpl. intros [[= _ _ ->]|[]]. exists p, tx, rx. auto. }
  destruct (int_sum _ =? 0)%Z; [simpl; intros [H|[]]; discriminate|].
  destruct (signal_statistics _ _) as [[[mean var] sd]|]; [|intros []].
  destruct (tiles_profile tiles tx rx) as [prof|]; [|intros []].
  pose proof (model_loss_no_invalid (str_strip (beaconer row) "hotspots/")
                (str_strip (witness row) "hotspots/") prof (beaconer_freq p)
                b w m) as Hno.
  destruct (model_loss _ _ _ _ _ _) as [loss lp lg|lg|e lg];
    [|intros H; contradiction | intros H; contradiction].
  destruct (edge_condition _ _ _ _ _ _) as [[]|];
    [|simpl|intros H; contradiction].
  - destruct (py_last (distances prof)); simpl; intros H;
      apply in_app_or in H; destruct H as [H|H]; try contradiction;
      simpl in H; intuition discriminate.
  - intros H. apply in_app_or in H. destruct H as [H|H]; try contradiction.
    simpl in H. intuition discriminate.
Qed.

(** C9.  Both asserted heights are clamped before refinement: the clamped
    height of a number lies in [1, 50], and for every value (NaN included)
    it passes the check [alt < 0 or alt > 50]; every point of the candidate
    ring, hence the refined location, carries exactly the clamped height.
    So the validation never raises "Invalid asserted height", and no link
    is ever rejected for its height. *)
Theorem C9_height_check_unreachable :
  (forall e, F64.is_nan e = false ->
      ((F64.of_Z 1 <=? clamp_height e)
       && (clamp_height e <=? F64.of_Z 50))%f64 = true)
  /\ (forall e,
      ((clamp_height e <? F64.of_Z 0)
       || (clamp_height e >? F64.of_Z 50))%f64 = false)
  /\ (forall p pt,
      (In pt (neighborhood h3 h3_search_radius (beaconer_geo_loc p)
                (clamp_height (beaconer_elevation p))) ->
       alt pt = clamp_height (beaconer_elevation p))
      /\ (In pt (neighborhood h3 h3_search_radius (witness_geo_loc p)
                   (clamp_height (witness_elevation p))) ->
          alt pt = clamp_height (witness_elevation p)))
  /\ (forall p tx rx profile m label,
      tx_location h3 tiles h3_search_radius p = Ok tx ->
      rx_location h3 tiles h3_search_radius p = Ok rx ->
      _validate_model_parameters tx rx profile (beaconer_freq p)
        (clean_hist (signal_hist p)) = Raise (ValueError m) ->
      m <> ("Invalid asserted height for " ++ label)%string)
  /\ (forall row b w label,
      ~ In (InfoInvalidAssertionData b w
              ("Invalid asserted height for " ++ label)%string)
          (step_log (eval_link row))).
Proof.
  assert (forall p tx rx profile m label,
             tx_location h3 tiles h3_search_radius p = Ok tx ->
             rx_location h3 tiles h3_search_radius p = Ok rx ->
             _validate_model_parameters tx rx profile (beaconer_freq p)
               (clean_hist (signal_hist p)) = Raise (ValueError m) ->
             m <> ("Invalid asserted height for " ++ label)%string) as Hval.
  { intros p tx rx profile m label Htx Hrx.
    apply validate_height_message.
    - rewrite (tx_location_alt _ _ Htx). apply clamp_height_passes.
    - rewrite (rx_location_alt _ _ Hrx). apply clamp_height_passes. }
  repeat split.
  - apply clamp_height_range; assumption.
  - apply clamp_height_passes.
  - apply neighborhood_alt.
  - apply neighborhood_alt.
  - exact Hval.
  - intros row b w label H. apply invalid_record_origin in H.
    destruct H as (p & tx & rx & _ & Htx & Hrx & H).
    exact (Hval _ _ _ _ _ label Htx Hrx H eq_refl).
Qed.

(** *** Identifiers *)

(** The two identifiers of a row of the data frame are the stripped
    document ids of the row of the frame of links it was computed from. *)
Lemma result_identifiers db pl witness_pubkeys beaconer_pubkeys max_witnesses
    results r :
  compute_residuals h3 db pl itm_model tiles min_samples min_distance_km
    threshold_db h3_search_radius compute_loss_profile witness_pubkeys
    beaconer_pubkeys max_witnesses = Ok results ->
  In r results ->
  exists edge_data row,
    _fetch_edge_data db pl witness_pubkeys beaconer_pubkeys max_witnesses
    = Ok edge_data
    /\ In row edge_data
    /\ beaconer_pubkey r = str_strip (beaconer row) strip_set
    /\ witness_pubkey r = str_strip (witness row) strip_set.
Proof.
  intros H Hr.
  destruct (results_origin _ _ _ _ _ _ _ H Hr)
    as (edge_data & row & Hf & Hrow & Ea).
  apply evaluate_link_appended in Ea.
  destruct Ea as (p & tx & rx & bins & prof & mean & var & sd & loss & lp
                  & lg & d & _ & _ & _ & _ & _ & _ & _ & _ & _ & _ & _
                  & ->).
  exists edge_data, row. auto.
Qed.

End LinkFacts.

(** The end-to-end example: 20 samples, residual -20 dB against a threshold
    of -15 dB, 5 km against a minimum of 1 km: an edge; the same link over
    0.5 km is not. *)
Lemma C1_edge_iff_three_conditions_witness :
  (exists r,
      appended_rows (Demo.evaluate Demo.h3 Demo.tiles Demo.row) = [r]
      /\ edge_flag r = true
      /\ samples r = 20
      /\ residual r = F64.of_Z (-20)
      /\ distance_km r = F64.of_Z 5)
  /\ appended_rows (Demo.evaluate Demo.h3 Demo.tiles_500m Demo.row) = [].
Proof.
  pose (tx := mkPoint (F64.of_Z 46) (F64.of_Z (-75)) (F64.of_Z 10)).
  split.
  - destruct (proj1 (proj2 (C1_edge_iff_three_conditions Demo.h3 Demo.itm
                       Demo.tiles Demo.min_samples Demo.min_distance_km
                       Demo.threshold_db 1 false)) Demo.row Demo.pair tx tx
                [F64.of_Z (-100)] Demo.profile_5km (F64.of_Z (-100))
                F64.zero F64.zero (F64.of_Z 140) None [])
      as (d & Hd & Hiff & _);
      [reflexivity | vm_compute; reflexivity | vm_compute; reflexivity
      | vm_compute; reflexivity | vm_compute; reflexivity
      | vm_compute; reflexivity | vm_compute; discriminate
      | vm_compute; reflexivity | vm_compute; reflexivity |].
    vm_compute in Hd. injection Hd as <-.
    destruct (proj1 Hiff) as (r & Hr & Hflag & _ & _ & Hs & Hres & Hdist);
      [vm_compute; reflexivity|].
    exists r. repeat split; [exact Hr | exact Hflag | exact Hs | |].
    + rewrite Hres. vm_compute. reflexivity.
    + rewrite Hdist. vm_compute. reflexivity.
  - destruct (proj1 (proj2 (C1_edge_iff_three_conditions Demo.h3 Demo.itm
                       Demo.tiles_500m Demo.min_samples Demo.min_distance_km
                       Demo.threshold_db 1 false)) Demo.row Demo.pair tx tx
                [F64.of_Z (-100)] Demo.profile_500m (F64.of_Z (-100))
                F64.zero F64.zero (F64.of_Z 140) None [])
      as (d & Hd & _ & Hno);
      [reflexivity | vm_compute; reflexivity | vm_compute; reflexivity
      | vm_compute; reflexivity | vm_compute; reflexivity
      | vm_compute; reflexivity | vm_compute; discriminate
      | vm_compute; reflexivity | vm_compute; reflexivity |].
    vm_compute in Hd. injection Hd as <-.
    apply Hno. vm_compute. reflexivity.
Defined.

(** The link with two bins of 2^62 samples each, at -100 and -99 dBm: its
    total weight is 2^63, above the 10 samples asked for, its residual
    (-20.5 dB) is below the threshold and its 5 km are above the minimum;
    but the counts are added in 64 bits, the sum is -2^63, and the link is
    not flagged. *)
Lemma C1_total_weight_wraps :
  total_weight (pair_counts Demo.pair_wrapped) = 2 ^ 63
  /\ int_sum (pair_counts Demo.pair_wrapped) = - 2 ^ 63
  /\ appended_rows
       (Demo.evaluate Demo.h3 Demo.tiles (Demo.row_of Demo.pair_wrapped))
     = []
  /\ ~ (forall row p tx rx bins prof mean var sd loss lp lg d,
          asserted_pair row = Some p ->
          tx_location Demo.h3 Demo.tiles 1 p = Ok tx ->
          rx_location Demo.h3 Demo.tiles 1 p = Ok rx ->
          pair_bins p = Ok bins ->
          tiles_profile Demo.tiles tx rx = Some prof ->
          _validate_model_parameters tx rx (Some prof) (beaconer_freq p)
            (clean_hist (signal_hist p)) = Ok tt ->
          signal_statistics bins (pair_counts p) = Ok (mean, var, sd) ->
          model_loss Demo.itm false
            (str_strip (beaconer row) strip_set)
            (str_strip (witness row) strip_set)
            prof (beaconer_freq p) = Loss loss lp lg ->
          py_last (distances prof) = Ok d ->
          ((total_weight (pair_counts p) >=? Demo.min_samples)%Z
           && (measured_loss_of mean p - loss <? Demo.threshold_db)%f64
           && (d / F64.of_Z 1000 >? Demo.min_distance_km)%f64) = true ->
          exists r,
            appended_rows (Demo.evaluate Demo.h3 Demo.tiles row) = [r]).
Proof.
  pose (tx := mkPoint (F64.of_Z 46) (F64.of_Z (-75)) (F64.of_Z 10)).
  assert (appended_rows
            (Demo.evaluate Demo.h3 Demo.tiles (Demo.row_of Demo.pair_wrapped))
          = []) as Hnone by (vm_compute; reflexivity).
  split; [vm_compute; reflexivity|]. split; [vm_compute; reflexivity|].
  split; [exact Hnone|].
  intros H.
  destruct (H (Demo.row_of Demo.pair_wrapped) Demo.pair_wrapped tx tx
              [F64.of_Z (-100); F64.of_Z (-99)] Demo.profile_5km
              (F64.frac (-199) 2) (F64.frac 1 4) (F64.frac 1 2)
              (F64.of_Z 140) None [] (F64.of_Z 5000)) as (r & Hr);
    try (vm_compute; reflexivity).
  rewrite Hnone in Hr. discriminate.
Qed.

(** The row of the end-to-end example: measured loss 120 dB, model loss
    140 dB, residual -20 dB. *)
Lemma C2_residual_is_measured_minus_model_witness :
  exists r,
    Demo.run Demo.h3 Demo.tiles [Demo.row] = Ok [r]
    /\ residual r = (measured_loss r - itm_loss r)%f64
    /\ measured_loss r = F64.of_Z 120
    /\ itm_loss r = F64.of_Z 140
    /\ residual r = F64.of_Z (-20).
Proof.
  eexists. split; [vm_compute; reflexivity|].
  split; [|repeat split; vm_compute; reflexivity].
  eapply (proj1 (C2_residual_is_measured_minus_model Demo.h3 Demo.itm
                   Demo.tiles Demo.min_samples Demo.min_distance_km
                   Demo.threshold_db 1 false)
            (Demo.db_of [Demo.row]) Demo.polars ["112witness"%string] [] 250).
  - vm_compute. reflexivity.
  - left. reflexivity.
Defined.

(** The link seen at -63.9 dBm, sent at 0 dBm, with gains of 0.1 dB
    (beaconer) and 0.2 dB (witness): subtracting the gain of the beaconer
    first, as the code does, gives a measured loss of 64.2 dB and a
    residual of -75.8 dB; subtracting the gain of the witness first, as the
    claim writes the formula, gives 64.19999999999999 and
    -75.80000000000001. *)
Lemma C2_order_of_terms_matters :
  (exists r,
      appended_rows
        (Demo.evaluate Demo.h3 Demo.tiles (Demo.row_of Demo.pair_gains))
      = [r]
      /\ measured_rssi r = F64.frac (-639) 10
      /\ measured_loss r = measured_loss_of (measured_rssi r) Demo.pair_gains
      /\ measured_loss r = F64.frac 642 10
      /\ spec_measured_loss (measured_rssi r) Demo.pair_gains
         = S754_finite false 4517673376206028 (-46)
      /\ measured_loss r
         <> spec_measured_loss (measured_rssi r) Demo.pair_gains
      /\ residual r = F64.frac (-758) 10
      /\ (spec_measured_loss (measured_rssi r) Demo.pair_gains - itm_loss r)%f64
         = S754_finite true 5333950808666932 (-46)
      /\ residual r
         <> (spec_measured_loss (measured_rssi r) Demo.pair_gains
             - itm_loss r)%f64)
  /\ ~ (forall row p r,
          asserted_pair row = Some p ->
          appended_rows (Demo.evaluate Demo.h3 Demo.tiles row) = [r] ->
          residual r
          = (spec_measured_loss (measured_rssi r) p - itm_loss r)%f64).
Proof.
  destruct (appended_rows
              (Demo.evaluate Demo.h3 Demo.tiles (Demo.row_of Demo.pair_gains)))
    as [|r0 [|]] eqn:E; try (vm_compute in E; discriminate).
  assert (residual r0
          <> (spec_measured_loss (measured_rssi r0) Demo.pair_gains
              - itm_loss r0)%f64) as Hres.
  { vm_compute in E. injection E as <-. vm_compute. discriminate. }
  split.
  - exists r0. split; [reflexivity|].
    vm_compute in E. injection E as <-.
    repeat split; try (vm_compute; reflexivity);
      vm_compute; discriminate.
  - intros H. apply Hres. apply (H (Demo.row_of Demo.pair_gains)).
    + reflexivity.
    + exact E.
Qed.

(** 904.1 MHz is accepted, 1000 MHz is not, and neither is 400 MHz. *)
Lemma C5_frequency_open_interval_witness :
  let tx := mkPoint (F64.of_Z 46) (F64.of_Z (-75)) (F64.of_Z 10) in
  _validate_model_parameters tx tx (Some Demo.profile_5km)
    (F64.of_Z 904100000) [(-1000, 20)] = Ok tt
  /\ _validate_model_parameters tx tx (Some Demo.profile_5km)
       (F64.of_Z 1000000000) [(-1000, 20)]
     = Raise (ValueError "Frequency out of expected range")
  /\ _validate_model_parameters tx tx (Some Demo.profile_5km)
       (F64.of_Z 400000000) [(-1000, 20)]
     = Raise (ValueError "Frequency out of expected range").
Proof.
  intros tx.
  pose proof (proj1 (C5_frequency_open_interval Demo.h3 Demo.itm Demo.tiles
                       Demo.min_samples Demo.min_distance_km
                       Demo.threshold_db 1 false)) as H.
  assert (validate_location "tx" tx = Ok tt) as Htx by reflexivity.
  assert (validate_location "rx" tx = Ok tt) as Hrx by reflexivity.
  assert (2 <= List.length (distances Demo.profile_5km))%nat as Hlen
    by (simpl; lia).
  assert ([(-1000, 20)] <> @nil (Z * Z)) as Hh by discriminate.
  split; [|split].
  - apply (proj1 (H tx tx Demo.profile_5km (F64.of_Z 904100000)
                    [(-1000, 20)] Htx Hrx Hlen Hh)).
    left. reflexivity.
  - apply (proj2 (H tx tx Demo.profile_5km (F64.of_Z 1000000000)
                    [(-1000, 20)] Htx Hrx Hlen Hh)).
    split; reflexivity.
  - apply (proj2 (H tx tx Demo.profile_5km (F64.of_Z 400000000)
                    [(-1000, 20)] Htx Hrx Hlen Hh)).
    split; reflexivity.
Defined.

(** A frequency that is not a number does not lie between 400 MHz and
    1000 MHz, and the validation accepts it: neither [freq >= 1000e6] nor
    [freq <= 400e6] holds. *)
Lemma C5_nan_frequency_accepted :
  _validate_model_parameters
    (mkPoint (F64.of_Z 46) (F64.of_Z (-75)) (F64.of_Z 10))
    (mkPoint (F64.of_Z 46) (F64.of_Z (-75)) (F64.of_Z 10))
    (Some Demo.profile_5km) S754_nan [(-1000, 20)] = Ok tt
  /\ ((F64.of_Z 400000000 <? S754_nan)
      && (S754_nan <? F64.of_Z 1000000000))%f64 = false
  /\ ~ (forall tx rx prof freq hist,
          validate_location "tx" tx = Ok tt ->
          validate_location "rx" rx = Ok tt ->
          (2 <= List.length (distances prof))%nat ->
          hist <> [] ->
          (_validate_model_parameters tx rx (Some prof) freq hist = Ok tt
           <-> ((F64.of_Z 400000000 <? freq)
                && (freq <? F64.of_Z 1000000000))%f64 = true)).
Proof.
  split; [reflexivity|]. split; [reflexivity|].
  intros H.
  pose (tx := mkPoint (F64.of_Z 46) (F64.of_Z (-75)) (F64.of_Z 10)).
  assert (validate_location "tx" tx = Ok tt) as Htx by reflexivity.
  assert (validate_location "rx" tx = Ok tt) as Hrx by reflexivity.
  assert (2 <= List.length (distances Demo.profile_5km))%nat as Hlen
    by (simpl; lia).
  assert ([(-1000, 20)] <> @nil (Z * Z)) as Hh by discriminate.
  pose proof (proj1 (H tx tx Demo.profile_5km S754_nan [(-1000, 20)]
                       Htx Hrx Hlen Hh) eq_refl) as E.
  discriminate E.
Qed.

(** In the frame, a link with an empty histogram is skipped by the
    validation error and a link whose counts sum to zero by the warning;
    a batch of three documents whose second has no bin (so that its row
    of the frame has the bin of the others, with a null) returns what the
    batch of the two others returns. *)
Lemma C8_empty_histogram_skipped_witness :
  Demo.evaluate Demo.h3 Demo.tiles (Demo.row_of Demo.pair_empty_hist)
  = Continue [InfoInvalidAssertionData "112beaconer" "112witne"
                "Invalid or empty signal histogram"]
  /\ Demo.evaluate Demo.h3 Demo.tiles (Demo.row_of Demo.pair_zero_weight)
     = Continue [WarningZeroWeights "112beaconer" "112witne"]
  /\ Demo.run Demo.h3 Demo.tiles
       [Demo.row; Demo.row_of Demo.pair_empty_hist; Demo.row]
     = Demo.run Demo.h3 Demo.tiles [Demo.row; Demo.row].
Proof.
  pose (tx := mkPoint (F64.of_Z 46) (F64.of_Z (-75)) (F64.of_Z 10)).
  split; [|split].
  - apply (C8_empty_histogram_skipped Demo.h3 Demo.itm Demo.tiles
             Demo.min_samples Demo.min_distance_km Demo.threshold_db 1 false
             (Demo.row_of Demo.pair_empty_hist) Demo.pair_empty_hist tx tx
             []);
      try reflexivity; [left; reflexivity|].
    exists [(-1000, 20)]. split; [discriminate | reflexivity].
  - apply (C8_empty_histogram_skipped Demo.h3 Demo.itm Demo.tiles
             Demo.min_samples Demo.min_distance_km Demo.threshold_db 1 false
             (Demo.row_of Demo.pair_zero_weight) Demo.pair_zero_weight tx tx
             [F64.of_Z (-100); F64.of_Z (-99)]);
      try reflexivity. right; reflexivity.
  - apply (C8_empty_histogram_skipped Demo.h3 Demo.itm Demo.tiles
             Demo.min_samples Demo.min_distance_km Demo.threshold_db 1 false
             (Demo.row_of (Demo.pair_with 904100000 [(-1000, HNonNumeric)]))
             (Demo.pair_with 904100000 [(-1000, HNonNumeric)]) tx tx
             [F64.of_Z (-100)]
             eq_refl eq_refl eq_refl eq_refl (or_intror eq_refl))
      with (pre := [Demo.row]) (post := [Demo.row]); reflexivity.
Defined.

(** The link whose counts sum to zero raises nothing: the validation
    accepts its histogram, which has entries, and the iteration ends in the
    warning of the check that follows, not in the handler of an error. *)
Lemma C8_zero_weight_raises_nothing :
  int_sum (pair_counts Demo.pair_zero_weight) = 0
  /\ _validate_model_parameters
       (mkPoint (F64.of_Z 46) (F64.of_Z (-75)) (F64.of_Z 10))
       (mkPoint (F64.of_Z 46) (F64.of_Z (-75)) (F64.of_Z 10))
       (Some Demo.profile_5km) (beaconer_freq Demo.pair_zero_weight)
       (clean_hist (signal_hist Demo.pair_zero_weight)) = Ok tt
  /\ Demo.evaluate Demo.h3 Demo.tiles (Demo.row_of Demo.pair_zero_weight)
     = Continue [WarningZeroWeights "112beaconer" "112witne"]
  /\ ~ (forall row p,
          asserted_pair row = Some p ->
          int_sum (pair_counts p) = 0 ->
          exists m,
            Demo.evaluate Demo.h3 Demo.tiles row
            = Continue [InfoInvalidAssertionData
                          (str_strip (beaconer row) strip_set)
                          (str_strip (witness row) strip_set) m]).
Proof.
  assert (Demo.evaluate Demo.h3 Demo.tiles (Demo.row_of Demo.pair_zero_weight)
          = Continue [WarningZeroWeights "112beaconer" "112witne"]) as E
    by (vm_compute; reflexivity).
  split; [reflexivity|]. split; [vm_compute; reflexivity|].
  split; [exact E|].
  intros H.
  destruct (H (Demo.row_of Demo.pair_zero_weight) Demo.pair_zero_weight
              eq_refl eq_refl) as (m & Hm).
  rewrite E in Hm. discriminate.
Qed.

(** The clamp at 0, 75 and 25 meters gives 1, 50 and 25, and a link
    asserted at 75 meters is evaluated at 50 meters rather than rejected. *)
Lemma C9_height_check_unreachable_witness :
  clamp_height (F64.of_Z 0) = F64.of_Z 1
  /\ clamp_height (F64.of_Z 75) = F64.of_Z 50
  /\ clamp_height (F64.of_Z 25) = F64.of_Z 25
  /\ ((F64.of_Z 1 <=? clamp_height (F64.of_Z 75))
      && (clamp_height (F64.of_Z 75) <=? F64.of_Z 50))%f64 = true
  /\ ~ In (InfoInvalidAssertionData "112beaconer" "112witne"
             "Invalid asserted height for tx")
         (step_log (Demo.evaluate Demo.h3 Demo.tiles Demo.row)).
Proof.
  repeat split; try reflexivity.
  apply (proj2 (proj2 (proj2 (proj2
           (C9_height_check_unreachable Demo.h3 Demo.itm Demo.tiles
              Demo.min_samples Demo.min_distance_km Demo.threshold_db 1
              false)))) Demo.row "112beaconer"%string "112witne"%string
           "tx"%string).
Defined.

(* ================================================================== *)
(** ** The empty ring *)

(** C3 (amended).  When the ring of the beaconer or of the witness of a
    link is empty, [max] raises [ValueError] outside every handler of the
    loop body.  There is no [GeometryError] and the link is not skipped:
    the exception leaves [compute_residuals], the rows gathered from the
    links before it are lost, the links after it are never evaluated, and
    [worker] aborts the run.  (The ring is not resolved to an arbitrary
    point either.) *)
Theorem C3_empty_ring_aborts_batch :
  forall h3 db pl itm tiles min_samples min_distance_km threshold_db
    h3_search_radius max_beaconers witness_pubkeys pre row post p,
    _fetch_edge_data db pl witness_pubkeys [] max_beaconers
    = Ok (pre ++ row :: post) ->
    (forall r, In r pre -> forall e l,
        evaluate_link h3 itm tiles min_samples min_distance_km threshold_db
          h3_search_radius false r <> Uncaught e l) ->
    asserted_pair row = Some p ->
    grid_ring h3
      (latlng_to_cell h3 (snd (beaconer_geo_loc p)) (fst (beaconer_geo_loc p))
         8) h3_search_radius = []
    \/ grid_ring h3
         (latlng_to_cell h3 (snd (witness_geo_loc p))
            (fst (witness_geo_loc p)) 8) h3_search_radius = [] ->
    evaluate_link h3 itm tiles min_samples min_distance_km threshold_db
      h3_search_radius false row
    = Uncaught (ValueError "max() arg is an empty sequence") []
    /\ compute_residuals h3 db pl itm tiles min_samples min_distance_km
         threshold_db h3_search_radius false witness_pubkeys []
         max_beaconers
       = Raise (ValueError "max() arg is an empty sequence")
    /\ worker h3 db pl itm tiles min_samples min_distance_km threshold_db
         h3_search_radius max_beaconers witness_pubkeys
       = Aborted "Failed to compute residuals".
Proof.
  intros h3 db pl itm tiles ms md thr radius mb wp pre row post p
    Hdb Hpre Hp Hring.
  destruct (empty_ring_uncaught h3 itm tiles ms md thr radius false row p
              Hp Hring) as [Hstep Hbatch].
  specialize (Hbatch db pl wp [] mb pre post Hdb Hpre).
  repeat split; [exact Hstep | exact Hbatch |].
  unfold worker. rewrite Hbatch. reflexivity.
Qed.

(** A batch of three links whose second one lies in a cell with an empty
    ring: the run is aborted, although the two other links are edges that
    the same run without the second link writes out. *)
Lemma C3_empty_ring_aborts_batch_witness :
  worker Demo.h3_hole
    (Demo.db_of [Demo.row; Demo.row_of Demo.pair_in_hole; Demo.row])
    Demo.polars Demo.itm Demo.tiles Demo.min_samples Demo.min_distance_km
    Demo.threshold_db 1 250 ["112witness"%string]
  = Aborted "Failed to compute residuals"
  /\ worker Demo.h3_hole (Demo.db_of [Demo.row; Demo.row]) Demo.polars
       Demo.itm Demo.tiles Demo.min_samples Demo.min_distance_km
       Demo.threshold_db 1 250 ["112witness"%string]
     = Written [("112beaconer", "112witne"); ("112beaconer", "112witne")]%string
         (worst_edges
            (flat_map (Demo.rows_of Demo.h3_hole Demo.tiles)
               [Demo.row; Demo.row])).
Proof.
  split; [|vm_compute; reflexivity].
  apply (C3_empty_ring_aborts_batch Demo.h3_hole
           (Demo.db_of [Demo.row; Demo.row_of Demo.pair_in_hole; Demo.row])
           Demo.polars Demo.itm Demo.tiles Demo.min_samples
           Demo.min_distance_km Demo.threshold_db 1 250
           ["112witness"%string]
           [Demo.row] (Demo.row_of Demo.pair_in_hole) [Demo.row]
           Demo.pair_in_hole).
  - vm_compute. reflexivity.
  - intros r [<-|[]] e l. vm_compute. discriminate.
  - reflexivity.
  - left. reflexivity.
Defined.

(** The claim does not hold of a link whose ring is empty: its iteration
    does not end in [continue], it raises; and the batch that holds it
    returns nothing, where the batch without it returns two rows. *)
Lemma C3_empty_ring_is_not_skipped :
  Demo.evaluate Demo.h3_hole Demo.tiles (Demo.row_of Demo.pair_in_hole)
  = Uncaught (ValueError "max() arg is an empty sequence") []
  /\ Demo.run Demo.h3_hole Demo.tiles
       [Demo.row; Demo.row_of Demo.pair_in_hole; Demo.row]
     = Raise (ValueError "max() arg is an empty sequence")
  /\ Demo.run Demo.h3_hole Demo.tiles [Demo.row; Demo.row]
     = Ok (flat_map (Demo.rows_of Demo.h3_hole Demo.tiles)
             [Demo.row; Demo.row])
  /\ ~ (forall h3 row p,
          asserted_pair row = Some p ->
          grid_ring h3
            (latlng_to_cell h3 (snd (beaconer_geo_loc p))
               (fst (beaconer_geo_loc p)) 8) 1 = [] ->
          exists log, Demo.evaluate h3 Demo.tiles row = Continue log).
Proof.
  assert (Demo.evaluate Demo.h3_hole Demo.tiles
            (Demo.row_of Demo.pair_in_hole)
          = Uncaught (ValueError "max() arg is an empty sequence") []) as E
    by (vm_compute; reflexivity).
  split; [exact E|]. split; [vm_compute; reflexivity|].
  split; [vm_compute; reflexivity|].
  intros H.
  destruct (H Demo.h3_hole (Demo.row_of Demo.pair_in_hole) Demo.pair_in_hole
              eq_refl eq_refl) as (log & Hlog).
  rewrite E in Hlog. discriminate.
Qed.

(* ================================================================== *)
(** ** Identifiers: [str.strip] *)

Section Strip.

Variable chars : string.

Let in_set (c : ascii) : Prop := in_chars chars c = true.

Lemma lstrip_list_split l :
  exists pre, l = pre ++ lstrip_list chars l /\ Forall in_set pre.
Proof.
  induction l as [|c l (pre & IH & Hpre)]; [exists []; split; auto|].
  simpl. destruct (in_chars chars c) eqn:E.
  - exists (c :: pre). split; [simpl; congruence | constructor; auto].
  - exists []. split; auto.
Qed.

Lemma lstrip_list_head l : head_in_set chars (lstrip_list chars l) = false.
Proof.
  induction l as [|c l IH]; [reflexivity|].
  simpl. destruct (in_chars chars c) eqn:E; [exact IH | simpl; exact E].
Qed.

Lemma lstrip_list_id l : head_in_set chars l = false -> lstrip_list chars l = l.
Proof. destruct l as [|c l]; simpl; [auto | intros ->; reflexivity]. Qed.

Lemma lstrip_list_app pre l :
  Forall in_set pre -> lstrip_list chars (pre ++ l) = lstrip_list chars l.
Proof.
  induction 1 as [|c pre Hc _ IH]; [reflexivity|].
  simpl. unfold in_set in Hc. rewrite Hc. exact IH.
Qed.

Lemma lstrip_list_length l :
  (List.length (lstrip_list chars l) <= List.length l)%nat.
Proof.
  destruct (lstrip_list_split l) as (pre & H & _).
  rewrite H at 2. rewrite length_app. lia.
Qed.

Lemma lstrip_list_shorter l :
  head_in_set chars l = true ->
  (List.length (lstrip_list chars l) < List.length l)%nat.
Proof.
  destruct l as [|c l]; simpl; [discriminate|]. intros ->.
  pose proof (lstrip_list_length l). lia.
Qed.

Lemma rstrip_list_split l :
  exists post, l = rstrip_list chars l ++ post /\ Forall in_set post.
Proof.
  unfold rstrip_list.
  destruct (lstrip_list_split (rev l)) as (pre & H & Hpre).
  exists (rev pre). split.
  - rewrite <- rev_app_distr, <- H. now rewrite rev_involutive.
  - apply Forall_rev. exact Hpre.
Qed.

Lemma rstrip_list_last l :
  head_in_set chars (rev (rstrip_list chars l)) = false.
Proof.
  unfold rstrip_list. rewrite rev_involutive. apply lstrip_list_head.
Qed.

Lemma rstrip_list_id l :
  head_in_set chars (rev l) = false -> rstrip_list chars l = l.
Proof.
  intros H. unfold rstrip_list. rewrite (lstrip_list_id _ H).
  apply rev_involutive.
Qed.

Lemma rstrip_list_length l :
  (List.length (rstrip_list chars l) <= List.length l)%nat.
Proof.
  unfold rstrip_list. rewrite length_rev.
  pose proof (lstrip_list_length (rev l)). rewrite length_rev in H. exact H.
Qed.

Lemma rstrip_list_shorter l :
  head_in_set chars (rev l) = true ->
  (List.length (rstrip_list chars l) < List.length l)%nat.
Proof.
  intros H. unfold rstrip_list. rewrite length_rev.
  pose proof (lstrip_list_shorter _ H) as H1. rewrite length_rev in H1.
  exact H1.
Qed.

(** Stripping on the right keeps the first character. *)
Lemma rstrip_list_head l :
  head_in_set chars l = false ->
  head_in_set chars (rstrip_list chars l) = false.
Proof.
  intros H. destruct (rstrip_list_split l) as (post & Hl & _).
  destruct (rstrip_list chars l) as [|c r]; [reflexivity|].
  rewrite Hl in H. exact H.
Qed.

(** A suffix that is not empty ends like the whole list. *)
Lemma head_rev_suffix pre l :
  l <> [] -> head_in_set chars (rev (pre ++ l)) = head_in_set chars (rev l).
Proof.
  intros Hl. rewrite rev_app_distr.
  destruct (rev l) as [|c r] eqn:E; [|reflexivity].
  exfalso. apply Hl. rewrite <- (rev_involutive l), E. reflexivity.
Qed.

Lemma strip_list_shorter l :
  head_in_set chars l = true \/ head_in_set chars (rev l) = true ->
  (List.length (rstrip_list chars (lstrip_list chars l)) < List.length l)%nat.
Proof.
  intros [H|H].
  - pose proof (lstrip_list_shorter _ H).
    pose proof (rstrip_list_length (lstrip_list chars l)). lia.
  - destruct (lstrip_list_split l) as (pre & Hl & _).
    destruct (lstrip_list chars l) as [|c x] eqn:E.
    + destruct l; [discriminate | simpl; lia].
    + rewrite Hl in H. rewrite head_rev_suffix in H by discriminate.
      pose proof (rstrip_list_shorter _ H).
      pose proof (lstrip_list_length l). rewrite E in *. lia.
Qed.

(** [strip] cuts the string in three: stripped characters, the result,
    stripped characters; the result neither begins nor ends with a
    character of the set. *)
Lemma str_strip_spec s :
  exists pre post,
    list_ascii_of_string s
    = pre ++ list_ascii_of_string (str_strip s chars) ++ post
    /\ Forall in_set pre /\ Forall in_set post
    /\ begins_in_set chars (str_strip s chars) = false
    /\ ends_in_set chars (str_strip s chars) = false.
Proof.
  unfold str_strip, begins_in_set, ends_in_set.
  rewrite list_ascii_of_string_of_list_ascii.
  destruct (lstrip_list_split (list_ascii_of_string s)) as (pre & H1 & Hpre).
  destruct (rstrip_list_split (lstrip_list chars (list_ascii_of_string s)))
    as (post & H2 & Hpost).
  exists pre, post. repeat split; auto.
  - rewrite <- H2. exact H1.
  - apply rstrip_list_head, lstrip_list_head.
  - apply rstrip_list_last.
Qed.

Lemma str_strip_idempotent s :
  str_strip (str_strip s chars) chars = str_strip s chars.
Proof.
  destruct (str_strip_spec s) as (_ & _ & _ & _ & _ & Hb & He).
  unfold begins_in_set, ends_in_set in *.
  unfold str_strip at 1.
  rewrite (lstrip_list_id _ Hb), (rstrip_list_id _ He).
  apply string_of_list_ascii_of_string.
Qed.

End Strip.

Lemma strip_doc_id pubkey :
  str_strip (doc_id pubkey) "hotspots/"
  = string_of_list_ascii
      (rstrip_list "hotspots/"
         (lstrip_list "hotspots/" (list_ascii_of_string pubkey))).
Proof. reflexivity. Qed.

(** C10.  The identifiers of every row of the data frame are the document
    ids of a row of the frame of links passed through [strip("hotspots/")],
    which removes every leading and every trailing character of the set
    {h, o, t, s, p, /} and not the prefix "hotspots/" alone: applied to the
    document id of a public key it strips the key itself.  A key that
    begins or ends with one of these characters is therefore reported
    changed ("112witness" as "112witne"); a key that does neither is
    reported as it is.  Stripping again, as [worker] does, changes
    nothing. *)
Theorem C10_identifiers_are_stripped :
  (forall h3 db pl itm_model tiles min_samples min_distance_km threshold_db
     h3_search_radius compute_loss_profile witness_pubkeys beaconer_pubkeys
     max_witnesses results r,
      compute_residuals h3 db pl itm_model tiles min_samples min_distance_km
        threshold_db h3_search_radius compute_loss_profile witness_pubkeys
        beaconer_pubkeys max_witnesses = Ok results ->
      In r results ->
      (exists edge_data row,
          _fetch_edge_data db pl witness_pubkeys beaconer_pubkeys
            max_witnesses = Ok edge_data
          /\ In row edge_data
          /\ beaconer_pubkey r = str_strip (beaconer row) "hotspots/"
          /\ witness_pubkey r = str_strip (witness row) "hotspots/")
      /\ report_keys r = (witness_pubkey r, beaconer_pubkey r))
  /\ (forall s,
      exists pre post,
        list_ascii_of_string s
        = pre ++ list_ascii_of_string (str_strip s "hotspots/") ++ post
        /\ Forall (fun c => In c (list_ascii_of_string "hotspots/")) pre
        /\ Forall (fun c => In c (list_ascii_of_string "hotspots/")) post
        /\ begins_in_set "hotspots/" (str_strip s "hotspots/") = false
        /\ ends_in_set "hotspots/" (str_strip s "hotspots/") = false)
  /\ (forall pubkey,
      begins_in_set "hotspots/" pubkey = true
      \/ ends_in_set "hotspots/" pubkey = true ->
      str_strip (doc_id pubkey) "hotspots/" <> pubkey)
  /\ (forall pubkey,
      begins_in_set "hotspots/" pubkey = false ->
      ends_in_set "hotspots/" pubkey = false ->
      str_strip (doc_id pubkey) "hotspots/" = pubkey)
  /\ str_strip (doc_id "112witness") "hotspots/" = "112witne"%string.
Proof.
  assert (forall c, in_chars "hotspots/" c = true ->
                    In c (list_ascii_of_string "hotspots/")) as Hin.
  { intros c H. unfold in_chars in H. apply existsb_exists in H.
    destruct H as (x & Hx & E). apply Ascii.eqb_eq in E. now subst. }
  split; [|split; [|split; [|split]]].
  - intros h3 db pl itm tiles ms md thr radius clp wp bp mw results r H Hr.
    destruct (result_identifiers _ _ _ _ _ _ _ _ _ _ _ _ _ _ _ H Hr)
      as (edge_data & row & Hf & Hrow & Hb & Hw).
    split; [exists edge_data, row; auto|].
    unfold report_keys. unfold strip_set in *.
    rewrite Hb, Hw, !str_strip_idempotent. reflexivity.
  - intros s. destruct (str_strip_spec "hotspots/" s)
      as (pre & post & H & Hpre & Hpost & Hb & He).
    exists pre, post. repeat split; auto.
    + eapply Forall_impl; [|exact Hpre]. exact Hin.
    + eapply Forall_impl; [|exact Hpost]. exact Hin.
  - intros pubkey H. rewrite strip_doc_id. intros E.
    apply (f_equal list_ascii_of_string) in E.
    rewrite list_ascii_of_string_of_list_ascii in E.
    pose proof (strip_list_shorter "hotspots/" _ H) as Hlt.
    rewrite E in Hlt. lia.
  - intros pubkey Hb He. rewrite strip_doc_id.
    unfold begins_in_set, ends_in_set in *.
    rewrite (lstrip_list_id _ _ Hb), (rstrip_list_id _ _ He).
    apply string_of_list_ascii_of_string.
  - reflexivity.
Qed.

(** The key "112witness" ends with an "s" and is reported as "112witne";
    the key "112beaconer" is reported as it is. *)
Lemma C10_identifiers_are_stripped_witness :
  str_strip (doc_id "112witness") "hotspots/" <> "112witness"%string
  /\ str_strip (doc_id "112beaconer") "hotspots/" = "112beaconer"%string.
Proof.
  split.
  - apply (proj1 (proj2 (proj2 C10_identifiers_are_stripped))).
    right. reflexivity.
  - apply (proj1 (proj2 (proj2 (proj2 C10_identifiers_are_stripped))));
      reflexivity.
Defined.

(* ================================================================== *)
(** ** Statistics of the histogram *)

Lemma f64_mul_comm x y : F64.mul x y = F64.mul y x.
Proof.
  destruct x as [[]|[]| |[] mx ex], y as [[]|[]| |[] my ey];
    try reflexivity; unfold F64.mul, SFmul;
    rewrite (Pos.mul_comm mx my), (Z.add_comm ex ey); reflexivity.
Qed.

Lemma f64_eqb_sym x y : F64.eqb x y = F64.eqb y x.
Proof.
  unfold F64.eqb, SFeqb. rewrite (F64Facts.compare_antisym y x).
  destruct (SFcompare y x) as [[]|]; reflexivity.
Qed.

Lemma f64_add_zero_l w :
  F64.is_finite w = true ->
  F64.is_finite (F64.add F64.zero w) = true
  /\ F64.is_zero (F64.add F64.zero w) = F64.is_zero w.
Proof. destruct w as [[]|[]| |[] m e]; try discriminate; auto. Qed.

(** A mean that compares equal to a finite bin was computed with a finite
    weight. *)
Lemma single_bin_weight_finite b w :
  F64.is_finite b = true ->
  F64.eqb ((F64.zero + b * w) / (F64.zero + w))%f64 b = true ->
  F64.is_finite w = true.
Proof.
  destruct w as [[]|[]| |[] mw ew]; try reflexivity;
    destruct b as [[]|[]| |[] mb eb]; try discriminate.
Qed.

Lemma combine_map_map {A B C : Type} (f : A -> B) (g : A -> C) (l : list A) :
  combine (map f l) (map g l) = map (fun x => (f x, g x)) l.
Proof. induction l as [|x l IH]; simpl; [reflexivity | now rewrite IH]. Qed.

(** The bins that are computed are the keys divided by 10. *)
Lemma bins_of_spec h : forall bins,
  bins_of h = Ok bins -> bins = map (fun kv => spec_bin (fst kv)) h.
Proof.
  unfold bins_of. induction h as [|[k c] h IH]; intros bins; simpl.
  - now intros [= <-].
  - unfold bin_of at 1, py_float. cbn [fst].
    destruct (F64.is_finite (F64.of_Z k)); [|discriminate].
    destruct (map_result _ h) as [bs|]; [|discriminate].
    intros [= <-]. now rewrite (IH bs eq_refl).
Qed.

(** The two averages of [signal_statistics] are the mean and the variance
    of the specification. *)
Lemma np_average_mean h :
  np_average (map (fun kv => spec_bin (fst kv)) h) (counts_of h)
  = if (spec_total_weight h =? F64.zero)%f64 then Raise ZeroDivisionError
    else Ok (spec_weighted_mean h).
Proof.
  unfold np_average, counts_of, spec_weighted_mean, spec_total_weight.
  rewrite combine_map_map, map_map. reflexivity.
Qed.

Lemma np_average_variance h :
  np_average
    (squared_deviations (map (fun kv => spec_bin (fst kv)) h)
       (spec_weighted_mean h))
    (counts_of h)
  = if (spec_total_weight h =? F64.zero)%f64 then Raise ZeroDivisionError
    else Ok (spec_weighted_variance h).
Proof.
  unfold np_average, squared_deviations, counts_of,
    spec_weighted_variance, spec_total_weight.
  rewrite map_map, combine_map_map, map_map. cbn [fst snd].
  rewrite (map_ext
             (fun x : Z * Z =>
                ((spec_bin (fst x) - spec_weighted_mean h)
                 * (spec_bin (fst x) - spec_weighted_mean h)
                 * F64.of_Z (snd x))%f64)
             (fun kv : Z * Z =>
                (F64.of_Z (snd kv)
                 * ((spec_bin (fst kv) - spec_weighted_mean h)
                    * (spec_bin (fst kv) - spec_weighted_mean h)))%f64))
    by (intros kv; apply f64_mul_comm).
  reflexivity.
Qed.

Lemma signal_statistics_spec h bins mean var sd :
  bins_of h = Ok bins ->
  signal_statistics bins (counts_of h) = Ok (mean, var, sd) ->
  mean = spec_weighted_mean h
  /\ var = spec_weighted_variance h
  /\ sd = F64.sqrt var.
Proof.
  intros Hb H. apply bins_of_spec in Hb. subst bins.
  apply signal_statistics_mean in H. destruct H as (Hm & Hv & Hs).
  rewrite np_average_mean in Hm.
  destruct (F64.eqb (spec_total_weight h) F64.zero) eqn:E; [discriminate|].
  injection Hm as <-. rewrite np_average_variance, E in Hv.
  injection Hv as <-. auto.
Qed.

Lemma single_bin_zero b w :
  F64.is_finite b = true ->
  (F64.zero + w =? F64.zero)%f64 = false ->
  ((F64.zero + b * w) / (F64.zero + w) =? b)%f64 = true ->
  F64.is_zero
    ((F64.zero
      + w * ((b - (F64.zero + b * w) / (F64.zero + w))
             * (b - (F64.zero + b * w) / (F64.zero + w))))
     / (F64.zero + w))%f64 = true.
Proof.
  intros Hb Hscl Hmean.
  pose proof (single_bin_weight_finite b w Hb Hmean) as Hw.
  generalize dependent ((F64.zero + b * w) / (F64.zero + w))%f64.
  intros mean Hmean.
  destruct (f64_add_zero_l w Hw) as [Hfin Hz].
  assert (F64.is_zero (b - mean)%f64 = true) as Hd.
  { apply F64Facts.sub_eq_zero; [exact Hb|].
    rewrite f64_eqb_sym. exact Hmean. }
  assert (F64.is_zero (w * ((b - mean) * (b - mean)))%f64 = true) as Hn.
  { apply F64Facts.mul_zero_r; [exact Hw|].
    apply F64Facts.mul_zero_l; [exact Hd|].
    now apply F64Facts.is_zero_finite. }
  apply F64Facts.div_zero_l.
  - rewrite (proj2 (f64_add_zero_l _ (F64Facts.is_zero_finite _ Hn))).
    exact Hn.
  - destruct (F64.add F64.zero w) as [[]|[]| |[] m e]; try discriminate;
      reflexivity.
  - destruct (F64.is_zero (F64.add F64.zero w)) eqn:E; [|reflexivity].
    apply F64Facts.is_zero_eqb in E. congruence.
Qed.

Lemma single_bin_variance k c :
  F64.is_finite (spec_bin k) = true ->
  (spec_total_weight [(k, c)] =? F64.zero)%f64 = false ->
  (spec_weighted_mean [(k, c)] =? spec_bin k)%f64 = true ->
  F64.is_zero (spec_weighted_variance [(k, c)]) = true.
Proof.
  unfold spec_weighted_variance, spec_weighted_mean, spec_total_weight.
  cbn [map fst snd].
  rewrite !np_sum_single, np_sum_as_float64_single.
  apply single_bin_zero.
Qed.

(** C4 (amended).  The bins are the keys divided by 10, and
    [signal_statistics] returns the count-weighted mean, the count-weighted
    variance [sum count_i (bin_i - mean)^2 / sum count_i] and its square
    root, the sums being those of numpy; these are the measured RSSI and
    the standard deviation of every row of the data frame.  The histogram
    {-850: 5, -800: 5} gives -82.5, 6.25 and 2.5.  A histogram of one bin
    gives a variance equal to 0 whenever its weighted mean
    (bin * count) / count compares equal to the bin, as for {-850: 5}; the
    general case is left to the rounding of that mean. *)
Theorem C4_weighted_statistics :
  (forall h bins mean var sd,
      bins_of h = Ok bins ->
      signal_statistics bins (counts_of h) = Ok (mean, var, sd) ->
      bins = map (fun kv => spec_bin (fst kv)) h
      /\ mean = spec_weighted_mean h
      /\ var = spec_weighted_variance h
      /\ sd = F64.sqrt var)
  /\ (forall h3 db pl itm_model tiles min_samples min_distance_km
        threshold_db h3_search_radius compute_loss_profile witness_pubkeys
        beaconer_pubkeys max_witnesses results r,
      compute_residuals h3 db pl itm_model tiles min_samples min_distance_km
        threshold_db h3_search_radius compute_loss_profile witness_pubkeys
        beaconer_pubkeys max_witnesses = Ok results ->
      In r results ->
      exists edge_data row p,
        _fetch_edge_data db pl witness_pubkeys beaconer_pubkeys max_witnesses
        = Ok edge_data
        /\ In row edge_data
        /\ asserted_pair row = Some p
        /\ measured_rssi r = spec_weighted_mean (clean_hist (signal_hist p))
        /\ std_dev r
           = F64.sqrt (spec_weighted_variance (clean_hist (signal_hist p))))
  /\ (bins_of Demo.hist_two_bins = Ok [F64.of_Z (-85); F64.of_Z (-80)]
      /\ signal_statistics [F64.of_Z (-85); F64.of_Z (-80)]
           (counts_of Demo.hist_two_bins)
         = Ok (F64.frac (-165) 2, F64.frac 25 4, F64.frac 5 2))
  /\ (forall k c bins mean var sd,
      bins_of [(k, c)] = Ok bins ->
      signal_statistics bins (counts_of [(k, c)]) = Ok (mean, var, sd) ->
      F64.is_finite (spec_bin k) = true ->
      (mean =? spec_bin k)%f64 = true ->
      (var =? F64.zero)%f64 = true)
  /\ (exists mean sd,
      bins_of Demo.hist_one_bin_exact = Ok [F64.of_Z (-85)]
      /\ signal_statistics [F64.of_Z (-85)]
           (counts_of Demo.hist_one_bin_exact) = Ok (mean, F64.zero, sd)).
Proof.
  split; [|split; [|split; [|split]]].
  - intros h bins mean var sd Hb H.
    split; [now apply bins_of_spec|].
    now apply (signal_statistics_spec h bins).
  - intros h3 db pl itm tiles ms md thr radius clp wp bp mw results r H Hr.
    destruct (results_origin _ _ _ _ _ _ _ _ _ _ _ _ _ _ _ H Hr)
      as (edge_data & row & Hf & Hrow & Ea).
    apply evaluate_link_appended in Ea.
    destruct Ea as (p & tx & rx & bins & prof & mean & var & sd & loss & lp
                    & lg & d & Hp & _ & _ & Hbins & _ & _ & _ & Hstat & _
                    & _ & _ & ->).
    apply (signal_statistics_spec _ _ _ _ _ Hbins) in Hstat.
    destruct Hstat as (-> & -> & ->).
    exists edge_data, row, p. simpl. auto.
  - split; vm_compute; reflexivity.
  - intros k c bins mean var sd Hbins H Hb Hmean.
    pose proof (bins_of_spec _ _ Hbins) as Hbs.
    pose proof H as H'. rewrite Hbs in H'.
    apply signal_statistics_mean in H'.
    destruct H' as (Hm & _ & _). rewrite np_average_mean in Hm.
    destruct (F64.eqb (spec_total_weight [(k, c)]) F64.zero) eqn:E;
      [discriminate|].
    apply (signal_statistics_spec _ _ _ _ _ Hbins) in H.
    destruct H as (-> & -> & _).
    apply F64Facts.is_zero_eqb. apply single_bin_variance; assumption.
  - eexists _, _. split; vm_compute; reflexivity.
Qed.

(** The histogram {-850: 5}: its mean is the bin, its variance is 0. *)
Lemma C4_weighted_statistics_witness :
  bins_of [(-850, 5)] = Ok [F64.of_Z (-85)]
  /\ signal_statistics [F64.of_Z (-85)] (counts_of [(-850, 5)])
     = Ok (F64.of_Z (-85), F64.zero, F64.zero)
  /\ F64.is_finite (spec_bin (-850)) = true
  /\ (F64.of_Z (-85) =? spec_bin (-850))%f64 = true
  /\ (F64.zero =? F64.zero)%f64 = true.
Proof.
  assert (bins_of [(-850, 5)] = Ok [F64.of_Z (-85)]) as B
    by (vm_compute; reflexivity).
  assert (signal_statistics [F64.of_Z (-85)] (counts_of [(-850, 5)])
          = Ok (F64.of_Z (-85), F64.zero, F64.zero)) as E
    by (vm_compute; reflexivity).
  assert (F64.is_finite (spec_bin (-850)) = true) as Hb
    by (vm_compute; reflexivity).
  assert ((F64.of_Z (-85) =? spec_bin (-850))%f64 = true) as Hm
    by (vm_compute; reflexivity).
  split; [exact B|]. split; [exact E|]. split; [exact Hb|].
  split; [exact Hm|].
  exact (proj1 (proj2 (proj2 (proj2 C4_weighted_statistics)))
           (-850) 5 [F64.of_Z (-85)] (F64.of_Z (-85)) F64.zero F64.zero
           B E Hb Hm).
Defined.

(** The histogram {-1279: 3}: the mean (-127.9 * 3) / 3 rounds to the
    float next to -127.9, and the variance is 2^-92, not 0. *)
Lemma C4_single_bin_variance_not_zero :
  ~ (forall k c bins mean var sd,
        bins_of [(k, c)] = Ok bins ->
        signal_statistics bins (counts_of [(k, c)]) = Ok (mean, var, sd) ->
        (var =? F64.zero)%f64 = true).
Proof.
  intros H.
  assert (bins_of [(-1279, 3)] = Ok [F64.frac (-1279) 10]) as B
    by (vm_compute; reflexivity).
  assert (signal_statistics [F64.frac (-1279) 10] (counts_of [(-1279, 3)])
          = Ok (S754_finite true 9000162380323227 (-46),
                S754_finite false 4503599627370496 (-144),
                S754_finite false 4503599627370496 (-98))) as E
    by (vm_compute; reflexivity).
  pose proof (H _ _ _ _ _ _ B E) as Hz. vm_compute in Hz. discriminate.
Qed.

(* ================================================================== *)
(** ** The selection of the worst edge per witness *)

Lemma insert_by_residual_In r l x :
  In x (insert_by_residual r l) <-> x = r \/ In x l.
Proof.
  induction l as [|y l IH]; simpl; [intuition|].
  destruct (F64.leb (residual r) (residual y)); simpl; [intuition|].
  rewrite IH. intuition.
Qed.

Lemma sort_by_residual_In df x : In x (sort_by_residual df) <-> In x df.
Proof.
  induction df as [|r df IH]; simpl; [reflexivity|].
  rewrite insert_by_residual_In, IH. intuition.
Qed.

Lemma insert_by_residual_sorted r l :
  F64.is_nan (residual r) = false ->
  Forall (fun x => F64.is_nan (residual x) = false) l ->
  StronglySorted residual_le l ->
  StronglySorted residual_le (insert_by_residual r l).
Proof.
  intros Hr Hl Hs. induction Hs as [|y l Hs IH Hy]; simpl.
  - constructor; constructor.
  - inversion Hl as [|? ? Hny Hnl]; subst.
    destruct (F64.leb (residual r) (residual y)) eqn:E.
    + constructor; [constructor; assumption|].
      constructor; [exact E|].
      eapply Forall_impl; [|exact Hy]. intros z Hz.
      unfold residual_le in *. eapply F64Facts.leb_trans; eauto.
    + constructor; [apply IH; assumption|].
      apply Forall_forall. intros z Hz.
      apply (proj1 (insert_by_residual_In _ _ _)) in Hz.
      destruct Hz as [->|Hz].
      * unfold residual_le.
        destruct (F64Facts.leb_total _ _ Hr Hny) as [H|H]; [congruence|exact H].
      * rewrite Forall_forall in Hy. apply Hy. exact Hz.
Qed.

Lemma sort_by_residual_sorted df :
  Forall (fun x => F64.is_nan (residual x) = false) df ->
  StronglySorted residual_le (sort_by_residual df).
Proof.
  induction 1 as [|r df Hr Hdf IH]; simpl; [constructor|].
  apply insert_by_residual_sorted; [exact Hr | | exact IH].
  apply Forall_forall. intros x Hx. apply (proj1 (sort_by_residual_In _ _)) in Hx.
  rewrite Forall_forall in Hdf. apply Hdf. exact Hx.
Qed.

Lemma group_first_In seen df x : In x (group_first seen df) -> In x df.
Proof.
  revert seen. induction df as [|r df IH]; intros seen; simpl; [auto|].
  destruct (existsb _ seen); simpl; [eauto|].
  intros [->|H]; eauto.
Qed.

Lemma existsb_eqb_In w seen :
  existsb (String.eqb w) seen = true <-> In w seen.
Proof.
  rewrite existsb_exists. split.
  - intros (x & Hx & E). apply String.eqb_eq in E. now subst.
  - intros H. exists w. split; [exact H | apply String.eqb_refl].
Qed.

(** A witness already seen gets no row. *)
Lemma group_first_seen seen df w :
  In w seen ->
  filter (fun x => String.eqb (witness_pubkey x) w) (group_first seen df) = [].
Proof.
  revert seen. induction df as [|r df IH]; intros seen Hw; simpl; [reflexivity|].
  destruct (existsb _ seen) eqn:E; [apply IH; exact Hw|].
  simpl. destruct (String.eqb (witness_pubkey r) w) eqn:Er.
  - apply String.eqb_eq in Er. subst w.
    apply existsb_eqb_In in Hw. congruence.
  - apply IH. now right.
Qed.

(** A witness not seen yet gets exactly one row: the first of the frame
    that carries it. *)
Lemma group_first_unique seen df w :
  ~ In w seen ->
  (exists r, In r df /\ witness_pubkey r = w) ->
  exists l1 s l2,
    df = l1 ++ s :: l2
    /\ witness_pubkey s = w
    /\ (forall x, In x l1 -> witness_pubkey x <> w)
    /\ filter (fun x => String.eqb (witness_pubkey x) w) (group_first seen df)
       = [s].
Proof.
  revert seen. induction df as [|r df IH]; intros seen Hw (x & Hx & Hxw).
  - contradiction.
  - simpl. destruct (String.eqb (witness_pubkey r) w) eqn:Er.
    + apply String.eqb_eq in Er.
      exists [], r, df. split; [reflexivity|]. split; [exact Er|].
      split; [intros ? []|].
      destruct (existsb _ seen) eqn:E.
      * apply existsb_eqb_In in E. rewrite Er in E. contradiction.
      * simpl. rewrite <- Er at 1. rewrite String.eqb_refl.
        f_equal. apply group_first_seen. left. exact Er.
    + assert (exists r', In r' df /\ witness_pubkey r' = w) as Hex.
      { destruct Hx as [->|Hx]; [|eauto].
        rewrite Hxw, String.eqb_refl in Er. discriminate. }
      apply String.eqb_neq in Er.
      destruct (existsb _ seen) eqn:E.
      * destruct (IH seen Hw Hex) as (l1 & s & l2 & -> & Hs & Hl1 & Hf).
        exists (r :: l1), s, l2. split; [reflexivity|]. split; [exact Hs|].
        split; [intros y [->|Hy]; auto | exact Hf].
      * assert (~ In w (witness_pubkey r :: seen)) as Hw'.
        { intros [H|H]; [congruence | contradiction]. }
        destruct (IH _ Hw' Hex) as (l1 & s & l2 & -> & Hs & Hl1 & Hf).
        exists (r :: l1), s, l2. split; [reflexivity|]. split; [exact Hs|].
        split; [intros y [->|Hy]; auto|].
        simpl. apply String.eqb_neq in Er. rewrite Er. exact Hf.
Qed.

Lemma StronglySorted_app_head {A} (R : A -> A -> Prop) l1 s l2 :
  StronglySorted R (l1 ++ s :: l2) -> Forall (R s) l2.
Proof.
  induction l1 as [|a l1 IH]; simpl; intros H; inversion H; subst; auto.
Qed.

(** C6.  From a data frame whose flagged residuals are numbers, the
    selection keeps, for every witness that has a flagged row, exactly one
    row: a flagged row of that witness whose residual is less than or equal
    to the residual of every flagged row of the witness; it keeps nothing
    else.  Of two flagged rows of one witness with residuals -20 and -25,
    in either order, the row with -25 is the one selected. *)
Theorem C6_worst_edge_per_witness :
  (forall df,
      residuals_are_numbers df ->
      (forall s, In s (worst_edges df) -> In s df /\ edge_flag s = true)
      /\ (forall w,
          (exists r, In r df /\ edge_flag r = true /\ witness_pubkey r = w) ->
          exists s,
            filter (fun x => String.eqb (witness_pubkey x) w) (worst_edges df)
            = [s]
            /\ In s df /\ edge_flag s = true /\ witness_pubkey s = w
            /\ forall r, In r df -> edge_flag r = true ->
                         witness_pubkey r = w ->
                         F64.leb (residual s) (residual r) = true))
  /\ (forall r1 r2,
      edge_flag r1 = true -> edge_flag r2 = true ->
      witness_pubkey r1 = witness_pubkey r2 ->
      residual r1 = F64.of_Z (-20) -> residual r2 = F64.of_Z (-25) ->
      worst_edges [r1; r2] = [r2] /\ worst_edges [r2; r1] = [r2]).
Proof.
  split.
  - intros df Hnum. unfold worst_edges.
    assert (Forall (fun x => F64.is_nan (residual x) = false)
              (filter edge_flag df)) as Hnan.
    { apply Forall_forall. intros x Hx. apply filter_In in Hx.
      destruct Hx as [Hx Hf]. exact (Hnum x Hx Hf). }
    pose proof (sort_by_residual_sorted _ Hnan) as Hsorted.
    assert (forall x, In x (sort_by_residual (filter edge_flag df)) ->
                      In x df /\ edge_flag x = true) as Hin.
    { intros x Hx. apply (proj1 (sort_by_residual_In _ _)) in Hx.
      apply filter_In in Hx. exact Hx. }
    split.
    + intros s Hs. apply group_first_In in Hs. auto.
    + intros w (r & Hr & Hf & Hw).
      destruct (group_first_unique [] (sort_by_residual (filter edge_flag df))
                  w) as (l1 & s & l2 & Hsplit & Hs & Hl1 & Hfilter).
      { intros []. }
      { exists r. split; [|exact Hw].
        apply (proj2 (sort_by_residual_In _ _)).
        apply filter_In. auto. }
      exists s. split; [exact Hfilter|].
      assert (In s (sort_by_residual (filter edge_flag df))) as Hs_in.
      { rewrite Hsplit. apply in_or_app. right. now left. }
      destruct (Hin s Hs_in) as [Hs_df Hs_flag].
      split; [exact Hs_df|]. split; [exact Hs_flag|]. split; [exact Hs|].
      intros r' Hr' Hf' Hw'.
      assert (In r' (sort_by_residual (filter edge_flag df))) as Hr_in.
      { apply (proj2 (sort_by_residual_In _ _)). apply filter_In. auto. }
      rewrite Hsplit in Hr_in, Hsorted.
      apply in_app_or in Hr_in. destruct Hr_in as [H|[H|H]].
      * exfalso. exact (Hl1 r' H Hw').
      * subst r'.
        destruct (F64Facts.leb_total _ _ (Hnum s Hs_df Hs_flag)
                    (Hnum s Hs_df Hs_flag)); assumption.
      * apply StronglySorted_app_head in Hsorted.
        rewrite Forall_forall in Hsorted. exact (Hsorted r' H).
  - intros r1 r2 H1 H2 Hw Hr1 Hr2. unfold worst_edges. simpl.
    rewrite H1, H2. simpl. rewrite Hr1, Hr2.
    change (F64.leb (F64.of_Z (-20)) (F64.of_Z (-25))) with false.
    change (F64.leb (F64.of_Z (-25)) (F64.of_Z (-20))) with true.
    simpl. rewrite Hw, String.eqb_refl. simpl. auto.
Qed.

(** The frame of three flagged rows, two of witness w1 with residuals -20
    and -25 and one of witness w2: one row per witness, the one of w1 with
    -25. *)
Lemma C6_worst_edge_per_witness_witness :
  residuals_are_numbers Demo.frame
  /\ worst_edges Demo.frame
     = [Demo.flagged "b3" "w2" (-40); Demo.flagged "b2" "w1" (-25)]
  /\ exists s,
      filter (fun x => String.eqb (witness_pubkey x) "w1")
        (worst_edges Demo.frame) = [s]
      /\ residual s = F64.of_Z (-25).
Proof.
  assert (residuals_are_numbers Demo.frame) as Hnum.
  { intros r [<-|[<-|[<-|[]]]] _; reflexivity. }
  split; [exact Hnum|]. split; [vm_compute; reflexivity|].
  destruct (proj2 (proj1 C6_worst_edge_per_witness Demo.frame Hnum) "w1"%string)
    as (s & Hs & _).
  { exists (Demo.flagged "b1" "w1" (-20)). split; [now left|].
    split; reflexivity. }
  exists s. split; [exact Hs|].
  assert (filter (fun x => String.eqb (witness_pubkey x) "w1")
            (worst_edges Demo.frame) = [Demo.flagged "b2" "w1" (-25)]) as E
    by (vm_compute; reflexivity).
  rewrite E in Hs. injection Hs as <-. reflexivity.
Defined.

(* ================================================================== *)
(** ** The Fresnel zone of the report *)

Lemma py_last_map {A B : Type} (f : A -> B) (l : list A) :
  py_last (map f l)
  = match py_last l with Ok x => Ok (f x) | Raise e => Raise e end.
Proof.
  induction l as [|a l IH]; [reflexivity|].
  destruct l as [|b l]; [reflexivity|]. exact IH.
Qed.

Lemma f64_finite_not_nan x : F64.is_finite x = true -> F64.is_nan x = false.
Proof. destruct x as [[]|[]| |[] m e]; simpl; auto; discriminate. Qed.

Lemma f64_sub_zero_r x z :
  F64.is_finite x = true -> F64.is_zero z = true ->
  F64.is_finite (F64.sub x z) = true.
Proof.
  destruct x as [[]|[]| |[] m e], z as [[]|[]| |[] mz ez]; simpl;
    intros; try discriminate; reflexivity.
Qed.

(** At the last sample [d1 = D], so [d2 = D - D] is zero and so is the
    radius, as long as [wavelength * D] does not overflow. *)
Lemma fresnel_radius_last wavelength D :
  F64.is_finite D = true -> F64.is_zero D = false ->
  F64.is_finite (wavelength * D)%f64 = true ->
  F64.is_zero (fresnel_radius_at wavelength D D) = true.
Proof.
  intros HD HD0 Hp. unfold fresnel_radius_at.
  apply F64Facts.sqrt_zero, F64Facts.div_zero_l;
    [|apply f64_finite_not_nan; exact HD | exact HD0].
  apply F64Facts.mul_zero_r; [exact Hp|].
  apply F64Facts.sub_eq_zero; [exact HD|].
  apply F64Facts.eqb_refl, f64_finite_not_nan, HD.
Qed.

(** At a sample at distance zero the radius is zero. *)
Lemma fresnel_radius_first wavelength D d0 :
  F64.is_finite wavelength = true ->
  F64.is_finite D = true -> F64.is_zero D = false ->
  F64.is_zero d0 = true ->
  F64.is_zero (fresnel_radius_at wavelength D d0) = true.
Proof.
  intros Hw HD HD0 Hd. unfold fresnel_radius_at.
  apply F64Facts.sqrt_zero, F64Facts.div_zero_l;
    [|apply f64_finite_not_nan; exact HD | exact HD0].
  apply F64Facts.mul_zero_l.
  - apply F64Facts.mul_zero_r; assumption.
  - apply f64_sub_zero_r; assumption.
Qed.

Lemma length_replace_last l x :
  List.length (replace_last l x) = List.length l.
Proof.
  destruct l as [|a l]; [reflexivity|].
  unfold replace_last. rewrite length_app.
  assert (a :: l <> []) as H by discriminate.
  pose proof (app_removelast_last a H) as E.
  apply (f_equal (@List.length _)) in E. rewrite length_app in E.
  simpl in *. lia.
Qed.

Lemma length_linspace start stop num :
  List.length (linspace start stop num) = num.
Proof.
  unfold linspace, arange.
  repeat match goal with
         | |- context [if ?c then _ else _] => destruct c
         end;
    rewrite ?length_replace_last, !length_map, length_seq; reflexivity.
Qed.

Lemma py_last_replace_last l x :
  l <> [] -> py_last (replace_last l x) = Ok x.
Proof.
  destruct l as [|a l]; [congruence|]. intros _.
  unfold replace_last. apply py_last_app.
Qed.

Lemma plot_check_ok x y : plot_check x y = Ok tt -> List.length x = List.length y.
Proof.
  unfold plot_check.
  destruct (List.length x =? List.length y)%nat eqn:E; [|discriminate].
  intros _. now apply Nat.eqb_eq.
Qed.

Lemma length_zip_with f a b :
  List.length a = List.length b ->
  List.length (zip_with f a b) = List.length a.
Proof.
  intros H. unfold zip_with. rewrite length_map, length_combine. lia.
Qed.

Lemma nth_error_zip_with f : forall a b i x y,
  nth_error a i = Some x -> nth_error b i = Some y ->
  nth_error (zip_with f a b) i = Some (f x y).
Proof.
  unfold zip_with.
  induction a as [|a0 a IH]; intros [|b0 b] [|i] x y; simpl;
    try discriminate.
  - now intros [= ->] [= ->].
  - apply IH.
Qed.

Lemma generate_pdf_report_inv elevs dists txh rxh freq lp P tg rg mr rep :
  generate_pdf_report elevs dists txh rxh freq lp P tg rg mr = Ok rep ->
  exists e0 e1 wavelength D loss,
    py_first elevs = Ok e0 /\ py_last elevs = Ok e1
    /\ py_div speed_of_light freq = Ok wavelength
    /\ py_last dists = Ok D
    /\ List.length dists = List.length elevs
    /\ py_last lp = Ok loss
    /\ List.length (tl dists) = List.length lp
    /\ rep = {| rs_distances_km :=
                  map (fun d => (d / F64.of_Z 1000)%f64) dists;
                rs_line := linspace (e0 + txh)%f64 (e1 + rxh)%f64
                             (List.length
                                (map (fun d => (d / F64.of_Z 1000)%f64)
                                   dists));
                rs_wavelength := wavelength;
                rs_fresnel_radius :=
                  map (fresnel_radius_at wavelength D) dists;
                rs_upper :=
                  zip_with F64.add
                    (linspace (e0 + txh)%f64 (e1 + rxh)%f64
                       (List.length
                          (map (fun d => (d / F64.of_Z 1000)%f64) dists)))
                    (map (fresnel_radius_at wavelength D) dists);
                rs_lower :=
                  zip_with F64.sub
                    (linspace (e0 + txh)%f64 (e1 + rxh)%f64
                       (List.length
                          (map (fun d => (d / F64.of_Z 1000)%f64) dists)))
                    (map (fresnel_radius_at wavelength D) dists);
                rs_dx := map (fun d => (d / F64.of_Z 1000)%f64) (tl dists);
                rs_loss_profile :=
                  map (fun l => (F64.of_Z (-1) * l)%f64) lp;
                rs_erssi := (P + tg + rg - loss)%f64;
                rs_residual := (P + tg + rg - loss - mr)%f64 |}.
Proof.
  unfold generate_pdf_report.
  destruct (py_first elevs) as [e0|] eqn:E0; [|discriminate].
  destruct (py_last elevs) as [e1|] eqn:E1; [|discriminate].
  destruct (py_div speed_of_light freq) as [wl|] eqn:Ew; [|discriminate].
  destruct (py_last dists) as [D|] eqn:ED; [|discriminate].
  destruct (plot_check _ elevs) as [[]|] eqn:Ep1; [|discriminate].
  destruct (py_last lp) as [loss|] eqn:El; [|discriminate].
  destruct (plot_check (map _ (tl dists)) _) as [[]|] eqn:Ep2;
    [|discriminate].
  destruct (py_last (map _ (tl dists))) as [dxl|] eqn:Edx; [|discriminate].
  intros [= <-]. exists e0, e1, wl, D, loss.
  apply plot_check_ok in Ep1, Ep2.
  rewrite length_map in Ep1. rewrite !length_map in Ep2.
  repeat split; auto.
Qed.

(** C7 (amended).  In a report that is produced, with [D] the last profile
    distance and [wavelength = 2.998e8 / frequency_hz], the radius at the
    sample at distance [d1] is [sqrt (wavelength * d1 * (D - d1) / D)], and
    at every sample the upper bound is the line plus the radius and the
    lower bound the line minus the radius; the four series have one value
    per sample.  The radius at the last sample is 0 when [D] is finite and
    not zero and [wavelength * D] is finite (does not overflow); the radius
    at the first sample is 0 when the profile starts at distance 0, the
    wavelength is finite and [D] is finite and not zero.  (With a
    wavelength that is not a finite number the radius is not a number at
    either end.) *)
Theorem C7_fresnel_zone :
  forall elevs dists txh rxh freq lp P tg rg mr rep,
    generate_pdf_report elevs dists txh rxh freq lp P tg rg mr = Ok rep ->
    exists D,
      py_last dists = Ok D
      /\ rs_wavelength rep = (F64.of_Z 299800000 / freq)%f64
      /\ List.length (rs_fresnel_radius rep) = List.length dists
      /\ List.length (rs_line rep) = List.length dists
      /\ List.length (rs_upper rep) = List.length dists
      /\ List.length (rs_lower rep) = List.length dists
      /\ (forall i d1,
          nth_error dists i = Some d1 ->
          nth_error (rs_fresnel_radius rep) i
          = Some (F64.sqrt (rs_wavelength rep * d1 * (D - d1) / D)%f64))
      /\ (forall i l r,
          nth_error (rs_line rep) i = Some l ->
          nth_error (rs_fresnel_radius rep) i = Some r ->
          nth_error (rs_upper rep) i = Some (l + r)%f64
          /\ nth_error (rs_lower rep) i = Some (l - r)%f64)
      /\ (F64.is_finite D = true -> F64.is_zero D = false ->
          F64.is_finite (rs_wavelength rep * D)%f64 = true ->
          exists r, py_last (rs_fresnel_radius rep) = Ok r
                    /\ (r =? F64.zero)%f64 = true)
      /\ (forall d0,
          py_first dists = Ok d0 -> F64.is_zero d0 = true ->
          F64.is_finite (rs_wavelength rep) = true ->
          F64.is_finite D = true -> F64.is_zero D = false ->
          exists r, py_first (rs_fresnel_radius rep) = Ok r
                    /\ (r =? F64.zero)%f64 = true).
Proof.
  intros elevs dists txh rxh freq lp P tg rg mr rep H.
  apply generate_pdf_report_inv in H.
  destruct H as (e0 & e1 & wl & D & loss & He0 & He1 & Hw & HD & Hlen
                 & Hl & Hdx & ->).
  exists D. cbn [rs_wavelength rs_fresnel_radius rs_line rs_upper rs_lower].
  assert (List.length
            (linspace (e0 + txh)%f64 (e1 + rxh)%f64
               (List.length (map (fun d => (d / F64.of_Z 1000)%f64) dists)))
          = List.length (map (fresnel_radius_at wl D) dists)) as Hsame.
  { now rewrite length_linspace, !length_map. }
  split; [exact HD|]. split.
  { unfold py_div in Hw. destruct (F64.is_zero freq); [discriminate|].
    now injection Hw as <-. }
  split; [apply length_map|].
  split; [now rewrite length_linspace, length_map|].
  split; [now rewrite (length_zip_with _ _ _ Hsame), length_linspace,
            length_map|].
  split; [now rewrite (length_zip_with _ _ _ Hsame), length_linspace,
            length_map|].
  split.
  { intros i d1 Hi. rewrite nth_error_map, Hi. reflexivity. }
  split.
  { intros i l r Hline Hr.
    split; now apply nth_error_zip_with. }
  split.
  - intros HfD HD0 Hp. exists (fresnel_radius_at wl D D). split.
    + rewrite py_last_map, HD. reflexivity.
    + apply F64Facts.is_zero_eqb, fresnel_radius_last; assumption.
  - intros d0 Hd0 Hz Hfw HfD HD0. exists (fresnel_radius_at wl D d0). split.
    + destruct dists as [|d dists]; [discriminate|].
      injection Hd0 as ->. reflexivity.
    + apply F64Facts.is_zero_eqb, fresnel_radius_first; assumption.
Qed.

(** The report of the example link: the radius is 0 at the first sample
    (distance 0) and at the last one (5000 m). *)
Lemma C7_fresnel_zone_witness :
  exists rep first last,
    Demo.report = Ok rep
    /\ py_first (rs_fresnel_radius rep) = Ok first
    /\ py_last (rs_fresnel_radius rep) = Ok last
    /\ (first =? F64.zero)%f64 = true
    /\ (last =? F64.zero)%f64 = true.
Proof.
  destruct Demo.report as [rep|e] eqn:E; [|vm_compute in E; discriminate].
  unfold Demo.report, Demo.report_at in E.
  destruct (C7_fresnel_zone _ _ _ _ _ _ _ _ _ _ _ E)
    as (D & HD & Hwl & _ & _ & _ & _ & _ & _ & Hlast & Hfirst).
  assert (D = F64.of_Z 5000) as ->.
  { vm_compute in HD. injection HD as <-. vm_compute. reflexivity. }
  rewrite Hwl in Hlast, Hfirst.
  destruct Hlast as (last & Hl & Hlz); [vm_compute; reflexivity..|].
  destruct (Hfirst F64.zero) as (first & Hf & Hfz);
    [vm_compute; reflexivity..|].
  exists rep, first, last. auto.
Defined.

(** The report of the example link at a frequency that is not a number:
    the wavelength is not a number, and neither is the radius, at the first
    sample and at the last as at every other. *)
Lemma C7_radius_with_nan_wavelength :
  (exists rep,
      Demo.report_at S754_nan = Ok rep
      /\ rs_wavelength rep = S754_nan
      /\ py_first (rs_fresnel_radius rep) = Ok S754_nan
      /\ py_last (rs_fresnel_radius rep) = Ok S754_nan)
  /\ (S754_nan =? F64.zero)%f64 = false
  /\ ~ (forall elevs dists txh rxh freq lp P tg rg mr rep,
          generate_pdf_report elevs dists txh rxh freq lp P tg rg mr
          = Ok rep ->
          exists r, py_last (rs_fresnel_radius rep) = Ok r
                    /\ (r =? F64.zero)%f64 = true).
Proof.
  destruct (Demo.report_at S754_nan) as [rep|e] eqn:E;
    [|vm_compute in E; discriminate].
  assert (py_last (rs_fresnel_radius rep) = Ok S754_nan) as Hlast.
  { vm_compute in E. injection E as <-. vm_compute. reflexivity. }
  split; [|split; [reflexivity|]].
  - exists rep. split; [reflexivity|].
    split; [|split; [|exact Hlast]];
      vm_compute in E; injection E as <-; vm_compute; reflexivity.
  - intros H. unfold Demo.report_at in E.
    destruct (H _ _ _ _ _ _ _ _ _ _ _ E) as (r & Hr & Hz).
    rewrite Hlast in Hr. injection Hr as <-. discriminate Hz.
Qed.

(* ================================================================== *)
(** * Further properties of the engine *)

Section LinkExtras.

Variable h3 : H3.
Variable itm_model : Itm.
Variable tiles : Tiles.
Variable min_samples : Z.
Variable min_distance_km : F64.t.
Variable threshold_db : F64.t.
Variable h3_search_radius : Z.
Variable compute_loss_profile : bool.

Let eval_link : Row -> Step :=
  evaluate_link h3 itm_model tiles min_samples min_distance_km
    threshold_db h3_search_radius compute_loss_profile.

Let residuals_of (db : ArangoDb) (pl : Polars) (w b : list string) (n : Z)
  : result (list ResultRow) :=
  compute_residuals h3 db pl itm_model tiles min_samples min_distance_km
    threshold_db h3_search_radius compute_loss_profile w b n.

(** What [compute_residuals] returns depends on the database and on polars
    through the rows of the data frame only. *)
Lemma compute_residuals_rows db pl w b n edge_data :
  _fetch_edge_data db pl w b n = Ok edge_data ->
  residuals_of db pl w b n
  = snd (evaluate_rows h3 itm_model tiles min_samples min_distance_km
           threshold_db h3_search_radius compute_loss_profile
           edge_data [] []).
Proof. apply compute_residuals_frame. Qed.

(** X1.  A row of the frame without asserted pair is skipped before any
    geometry is computed, whatever the grid, the tiles and the model are:
    one info record, no row, and the loop returns for the frame what it
    returns for the frame without that row. *)
Theorem X1_no_asserted_pair_skipped :
  forall row,
    asserted_pair row = None ->
    eval_link row
    = Continue [InfoNoAssertedCoordinates
                  (str_strip (beaconer row) "hotspots/")
                  (str_strip (witness row) "hotspots/")]
    /\ (forall db db' pl pl' w b n pre post,
          _fetch_edge_data db pl w b n = Ok (pre ++ row :: post) ->
          _fetch_edge_data db' pl' w b n = Ok (pre ++ post) ->
          residuals_of db pl w b n = residuals_of db' pl' w b n).
Proof.
  intros row Hp.
  assert (eval_link row
          = Continue [InfoNoAssertedCoordinates
                        (str_strip (beaconer row) "hotspots/")
                        (str_strip (witness row) "hotspots/")]) as Hstep.
  { unfold eval_link, evaluate_link. rewrite Hp. reflexivity. }
  split; [exact Hstep|].
  intros db db' pl pl' w b n pre post Hdb Hdb'.
  rewrite (compute_residuals_rows _ _ _ _ _ _ Hdb),
    (compute_residuals_rows _ _ _ _ _ _ Hdb').
  eapply evaluate_rows_continue. exact Hstep.
Qed.

(** X2.  A [ValueError] of the propagation model, point to point or along
    the path, skips the link with a warning; the loop returns for the frame
    what it returns for the frame without the link. *)
Theorem X2_model_value_error_skips_link :
  forall row p tx rx bins prof mean var sd m,
    asserted_pair row = Some p ->
    tx_location h3 tiles h3_search_radius p = Ok tx ->
    rx_location h3 tiles h3_search_radius p = Ok rx ->
    pair_bins p = Ok bins ->
    tiles_profile tiles tx rx = Some prof ->
    _validate_model_parameters tx rx (Some prof) (beaconer_freq p)
      (clean_hist (signal_hist p)) = Ok tt ->
    int_sum (pair_counts p) <> 0 ->
    signal_statistics bins (pair_counts p) = Ok (mean, var, sd) ->
    (if compute_loss_profile
     then itm_path itm_model prof (beaconer_freq p) = Raise (ValueError m)
     else itm_p2p itm_model prof (beaconer_freq p) = Raise (ValueError m)) ->
    (exists log, eval_link row = Continue log
       /\ In (if compute_loss_profile
              then WarningLossProfileError
                     (str_strip (beaconer row) "hotspots/")
                     (str_strip (witness row) "hotspots/") m
              else WarningPointToPointError
                     (str_strip (beaconer row) "hotspots/")
                     (str_strip (witness row) "hotspots/") m) log)
    /\ (forall db db' pl pl' w b n pre post,
          _fetch_edge_data db pl w b n = Ok (pre ++ row :: post) ->
          _fetch_edge_data db' pl' w b n = Ok (pre ++ post) ->
          residuals_of db pl w b n = residuals_of db' pl' w b n).
Proof.
  intros row p tx rx bins prof mean var sd m
    Hp Htx Hrx Hbins Hprof Hval Hsum Hstat Hm.
  assert (exists log, eval_link row = Continue log
            /\ In (if compute_loss_profile
                   then WarningLossProfileError
                          (str_strip (beaconer row) "hotspots/")
                          (str_strip (witness row) "hotspots/") m
                   else WarningPointToPointError
                          (str_strip (beaconer row) "hotspots/")
                          (str_strip (witness row) "hotspots/") m) log)
    as (log & Hstep & Hin).
  { unfold eval_link, evaluate_link. rewrite Hp.
    unfold tx_location in Htx. unfold rx_location in Hrx.
    unfold pair_counts, pair_bins in *.
    rewrite Htx, Hrx, Hbins, Hprof, Hval.
    apply Z.eqb_neq in Hsum. rewrite Hsum, Hstat.
    unfold model_loss. destruct compute_loss_profile; rewrite Hm.
    - eexists. split; [reflexivity|]. simpl. auto.
    - eexists. split; [reflexivity|]. simpl. auto. }
  split; [eauto|].
  intros db db' pl pl' w b n pre post Hdb Hdb'.
  rewrite (compute_residuals_rows _ _ _ _ _ _ Hdb),
    (compute_residuals_rows _ _ _ _ _ _ Hdb').
  eapply evaluate_rows_continue. exact Hstep.
Qed.

Lemma validate_frequency_ok tx rx prof freq hist :
  _validate_model_parameters tx rx (Some prof) freq hist = Ok tt ->
  ((freq >=? F64.of_Z 1000000000) || (freq <=? F64.of_Z 400000000))%f64
  = false
  /\ hist <> [].
Proof.
  unfold _validate_model_parameters.
  destruct (validate_location "tx" tx); [|discriminate].
  destruct (validate_location "rx" rx); [|discriminate].
  destruct (_ <? 2)%Z; [discriminate|].
  destruct (_ || _)%bool; [discriminate|].
  destruct hist; [discriminate|]. intros _. split; [reflexivity|discriminate].
Qed.

Lemma model_loss_profile_last b w prof freq loss lp lg :
  model_loss itm_model compute_loss_profile b w prof freq = Loss loss lp lg ->
  if compute_loss_profile
  then exists l, lp = Some l /\ itm_path itm_model prof freq = Ok l
                 /\ py_last l = Ok loss
  else lp = None /\ itm_p2p itm_model prof freq = Ok loss.
Proof.
  unfold model_loss. destruct compute_loss_profile.
  - destruct (itm_path itm_model prof freq) as [l|[]] eqn:E;
      try discriminate.
    destruct (py_last l) as [x|[]] eqn:El; try discriminate.
    intros [= <- <- _]. eauto.
  - destruct (itm_p2p itm_model prof freq) as [x|[]] eqn:E;
      try discriminate.
    intros [= <- <- _]. auto.
Qed.

(** X4.  Every row of the data frame meets the thresholds it was flagged
    under and is made of validated data: at least [min_samples] samples
    and not zero, a residual that is a number below [threshold_db], a
    distance, the last distance of its profile of at least two samples
    divided by 1000, above [min_distance_km], a frequency the validation
    accepted, antenna heights that pass the height check; its model loss is
    the last value of its loss profile when the profile was asked for, and
    it carries no profile otherwise. *)
Theorem X4_returned_rows_meet_thresholds :
  forall db pl w b n results r,
    residuals_of db pl w b n = Ok results ->
    In r results ->
    edge_flag r = true
    /\ (samples r >=? min_samples)%Z = true
    /\ samples r <> 0
    /\ (residual r <? threshold_db)%f64 = true
    /\ F64.is_nan (residual r) = false
    /\ (distance_km r >? min_distance_km)%f64 = true
    /\ (2 <= List.length (terrain_profile_distances r))%nat
    /\ (exists d, py_last (terrain_profile_distances r) = Ok d
                  /\ distance_km r = (d / F64.of_Z 1000)%f64)
    /\ ((frequency_hz r >=? F64.of_Z 1000000000)
        || (frequency_hz r <=? F64.of_Z 400000000))%f64 = false
    /\ ((tx_antenna_height_m r <? F64.of_Z 0)
        || (tx_antenna_height_m r >? F64.of_Z 50))%f64 = false
    /\ ((rx_antenna_height_m r <? F64.of_Z 0)
        || (rx_antenna_height_m r >? F64.of_Z 50))%f64 = false
    /\ (if compute_loss_profile
        then exists l, itm_loss_profile r = Some l
                       /\ py_last l = Ok (itm_loss r)
        else itm_loss_profile r = None).
Proof.
  intros db pl w b n results r H Hr.
  destruct (results_origin _ _ _ _ _ _ _ _ _ _ _ _ _ _ _ H Hr)
    as (edge_data & row & _ & _ & Ha).
  apply evaluate_link_appended in Ha.
  destruct Ha as (p & tx & rx & bins & prof & mean & var & sd & loss & lp
                  & lg & d & Hp & Htx & Hrx & Hbins & Hprof & Hval & Hsum
                  & Hstat & Hloss & Hedge & Hd & ->).
  cbn [edge_flag samples residual distance_km terrain_profile_distances
       frequency_hz tx_antenna_height_m rx_antenna_height_m
       itm_loss_profile itm_loss].
  unfold edge_condition in Hedge. rewrite Hd in Hedge.
  destruct (int_sum (pair_counts p) >=? min_samples)%Z eqn:E1;
    [|discriminate].
  destruct (F64.ltb (measured_loss_of mean p - loss) threshold_db) eqn:E2;
    [|discriminate].
  injection Hedge as E3.
  split; [reflexivity|]. split; [reflexivity|]. split; [exact Hsum|].
  split; [reflexivity|].
  split; [exact (proj1 (F64Facts.ltb_not_nan _ _ E2))|].
  split; [exact E3|].
  split; [exact (validate_profile_length _ _ _ _ _ Hval)|].
  split; [eauto|].
  split; [exact (proj1 (validate_frequency_ok _ _ _ _ _ Hval))|].
  split; [rewrite (tx_location_alt _ _ _ _ _ Htx); apply clamp_height_passes|].
  split; [rewrite (rx_location_alt _ _ _ _ _ Hrx); apply clamp_height_passes|].
  pose proof (model_loss_profile_last _ _ _ _ _ _ _ Hloss) as Hl.
  destruct compute_loss_profile.
  - destruct Hl as (l & -> & _ & Hl). eauto.
  - exact (proj1 Hl).
Qed.

(** What the loop returns from an accumulator is what it returns from
    the empty one, appended. *)
Lemma evaluate_rows_acc rows : forall acc log,
  snd (evaluate_rows h3 itm_model tiles min_samples min_distance_km
         threshold_db h3_search_radius compute_loss_profile rows acc log)
  = match snd (evaluate_rows h3 itm_model tiles min_samples min_distance_km
                 threshold_db h3_search_radius compute_loss_profile rows
                 [] []) with
    | Ok results => Ok (acc ++ results)
    | Raise e => Raise e
    end.
Proof.
  induction rows as [|x rows IH]; intros acc log; simpl.
  - now rewrite app_nil_r.
  - destruct (evaluate_link _ _ _ _ _ _ _ _ x) as [l|[r|] l|e l]; simpl.
    + rewrite (evaluate_rows_log _ _ _ _ _ _ _ _ rows [] l []). apply IH.
    + rewrite (evaluate_rows_log _ _ _ _ _ _ _ _ rows [r] l []).
      rewrite (IH (acc ++ [r])), (IH [r]).
      destruct (snd (evaluate_rows _ _ _ _ _ _ _ _ rows [] []));
        [|reflexivity].
      now rewrite <- app_assoc.
    + rewrite (evaluate_rows_log _ _ _ _ _ _ _ _ rows [] l []). apply IH.
    + reflexivity.
Qed.

Lemma appended_rows_length rows :
  (List.length (flat_map (fun r => appended_rows (eval_link r)) rows)
   <= List.length rows)%nat.
Proof.
  induction rows as [|x rows IH]; simpl; [lia|].
  rewrite length_app. unfold appended_rows at 1.
  destruct (eval_link x) as [|[]|]; simpl; lia.
Qed.

(** X6.  The loop evaluates the rows of the frame one by one: the data
    frame returned for a frame of links is the one returned for its first
    rows followed by the one returned for the rest, an exception in the
    first part is the exception of the whole, and no row of the frame
    contributes more than one row. *)
Theorem X6_batches_compose :
  forall db1 db2 db pl1 pl2 pl w b n rows1 rows2,
    _fetch_edge_data db1 pl1 w b n = Ok rows1 ->
    _fetch_edge_data db2 pl2 w b n = Ok rows2 ->
    _fetch_edge_data db pl w b n = Ok (rows1 ++ rows2) ->
    (forall r1 r2,
        residuals_of db1 pl1 w b n = Ok r1 ->
        residuals_of db2 pl2 w b n = Ok r2 ->
        residuals_of db pl w b n = Ok (r1 ++ r2))
    /\ (forall e,
          residuals_of db1 pl1 w b n = Raise e ->
          residuals_of db pl w b n = Raise e)
    /\ (forall results,
          residuals_of db pl w b n = Ok results ->
          (List.length results <= List.length (rows1 ++ rows2))%nat).
Proof.
  intros db1 db2 db pl1 pl2 pl w b n rows1 rows2 H1 H2 H.
  split; [|split].
  - intros r1 r2.
    rewrite (compute_residuals_rows _ _ _ _ _ _ H1),
      (compute_residuals_rows _ _ _ _ _ _ H2),
      (compute_residuals_rows _ _ _ _ _ _ H), evaluate_rows_app.
    destruct (evaluate_rows _ _ _ _ _ _ _ _ rows1 [] []) as [log1 res1].
    simpl. intros -> E2. rewrite evaluate_rows_acc, E2. reflexivity.
  - intros e.
    rewrite (compute_residuals_rows _ _ _ _ _ _ H1),
      (compute_residuals_rows _ _ _ _ _ _ H), evaluate_rows_app.
    destruct (evaluate_rows _ _ _ _ _ _ _ _ rows1 [] []) as [log1 res1].
    simpl. intros ->. reflexivity.
  - intros results E.
    destruct (compute_residuals_ok _ _ _ _ _ _ _ _ _ _ _ _ _ _ E)
      as (edge_data & Hf & ->).
    rewrite H in Hf. injection Hf as <-. apply appended_rows_length.
Qed.

End LinkExtras.

Lemma X1_no_asserted_pair_skipped_witness :
  Demo.evaluate Demo.h3_empty_ring Demo.tiles Demo.row_no_pair
  = Continue [InfoNoAssertedCoordinates "112beaconer" "112witne"]
  /\ Demo.run Demo.h3 Demo.tiles [Demo.row; Demo.row_no_pair; Demo.row]
     = Demo.run Demo.h3 Demo.tiles [Demo.row; Demo.row].
Proof.
  split.
  - apply (X1_no_asserted_pair_skipped Demo.h3_empty_ring Demo.itm Demo.tiles
             Demo.min_samples Demo.min_distance_km Demo.threshold_db 1 false
             Demo.row_no_pair eq_refl).
  - apply (proj2 (X1_no_asserted_pair_skipped Demo.h3 Demo.itm Demo.tiles
                    Demo.min_samples Demo.min_distance_km Demo.threshold_db 1
                    false Demo.row_no_pair eq_refl))
      with (pre := [Demo.row]) (post := [Demo.row]); reflexivity.
Defined.

Lemma X2_model_value_error_skips_link_witness :
  evaluate_link Demo.h3 Demo.itm_failing Demo.tiles Demo.min_samples
    Demo.min_distance_km Demo.threshold_db 1 false Demo.row
  = Continue [WarningPointToPointError "112beaconer" "112witne"
                "ITM failed"].
Proof.
  pose (tx := mkPoint (F64.of_Z 46) (F64.of_Z (-75)) (F64.of_Z 10)).
  destruct (proj1 (X2_model_value_error_skips_link Demo.h3 Demo.itm_failing
                     Demo.tiles Demo.min_samples Demo.min_distance_km
                     Demo.threshold_db 1 false Demo.row Demo.pair tx tx
                     [F64.of_Z (-100)] Demo.profile_5km (F64.of_Z (-100))
                     F64.zero F64.zero "ITM failed"%string eq_refl eq_refl
                     eq_refl eq_refl eq_refl eq_refl ltac:(discriminate)
                     eq_refl eq_refl))
    as (log & Hlog & _).
  rewrite Hlog. vm_compute in Hlog. injection Hlog as <-. reflexivity.
Defined.

Lemma X4_returned_rows_meet_thresholds_witness :
  exists r,
    Demo.run Demo.h3 Demo.tiles [Demo.row] = Ok [r]
    /\ (samples r >=? Demo.min_samples)%Z = true
    /\ (residual r <? Demo.threshold_db)%f64 = true
    /\ (distance_km r >? Demo.min_distance_km)%f64 = true.
Proof.
  destruct (Demo.run Demo.h3 Demo.tiles [Demo.row]) as [[|r [|]]|] eqn:E;
    try (vm_compute in E; discriminate).
  exists r. split; [reflexivity|].
  destruct (X4_returned_rows_meet_thresholds Demo.h3 Demo.itm Demo.tiles
              Demo.min_samples Demo.min_distance_km Demo.threshold_db 1
              false (Demo.db_of [Demo.row]) Demo.polars
              ["112witness"%string] [] 250
              [r] r E (or_introl eq_refl))
    as (_ & H1 & _ & H2 & _ & H3 & _).
  auto.
Defined.

Lemma X6_batches_compose_witness :
  let rows := Demo.rows_of Demo.h3 Demo.tiles Demo.row in
  Demo.run Demo.h3 Demo.tiles [Demo.row] = Ok rows
  /\ Demo.run Demo.h3 Demo.tiles [Demo.row_no_pair; Demo.row] = Ok rows
  /\ Demo.run Demo.h3 Demo.tiles [Demo.row; Demo.row_no_pair; Demo.row]
     = Ok (rows ++ rows).
Proof.
  intros rows.
  assert (Demo.run Demo.h3 Demo.tiles [Demo.row] = Ok rows) as H1
    by (vm_compute; reflexivity).
  assert (Demo.run Demo.h3 Demo.tiles [Demo.row_no_pair; Demo.row]
          = Ok rows) as H2 by (vm_compute; reflexivity).
  split; [exact H1|]. split; [exact H2|].
  exact (proj1 (X6_batches_compose Demo.h3 Demo.itm Demo.tiles
                  Demo.min_samples Demo.min_distance_km Demo.threshold_db 1
                  false (Demo.db_of [Demo.row])
                  (Demo.db_of [Demo.row_no_pair; Demo.row])
                  (Demo.db_of [Demo.row; Demo.row_no_pair; Demo.row])
                  Demo.polars Demo.polars Demo.polars
                  ["112witness"%string] [] 250
                  [Demo.row] [Demo.row_no_pair; Demo.row]
                  eq_refl eq_refl eq_refl) rows rows H1 H2).
Defined.

(** ** The output of the worker *)

(** X7.  [worker] writes one line per row of the data frame, in the order
    of the frame (every row is flagged, so the filter drops none), and
    selects the report cards from the same frame; an empty frame writes
    nothing and any exception of [compute_residuals] aborts the run. *)
Theorem X7_worker_output :
  forall h3 db pl itm tiles min_samples min_distance_km threshold_db
    h3_search_radius max_beaconers witness_pubkeys,
    let frame :=
      compute_residuals h3 db pl itm tiles min_samples min_distance_km
        threshold_db h3_search_radius false witness_pubkeys []
        max_beaconers in
    let run :=
      worker h3 db pl itm tiles min_samples min_distance_km threshold_db
        h3_search_radius max_beaconers witness_pubkeys in
    (forall df, frame = Ok df -> df <> [] ->
                run = Written
                        (map (fun r => (beaconer_pubkey r, witness_pubkey r))
                           df)
                        (worst_edges df))
    /\ (frame = Ok [] -> run = NothingToWrite)
    /\ (forall e, frame = Raise e -> run = Aborted "Failed to compute residuals").
Proof.
  intros h3 db pl itm tiles ms md thr radius mb wp frame run.
  unfold run, worker. fold frame. split; [|split].
  - intros df H Hne. rewrite H.
    destruct df as [|r0 df]; [congruence|].
    cbn [List.length]. rewrite Nat2Z.inj_succ.
    destruct (Z.succ _ =? 0)%Z eqn:E; [apply Z.eqb_eq in E; lia|].
    assert (filter edge_flag (r0 :: df) = r0 :: df) as ->; [|reflexivity].
    apply forallb_filter_id. apply forallb_forall. intros r Hr.
    destruct (results_origin _ _ _ _ _ _ _ _ _ _ _ _ _ _ _ H Hr)
      as (edge_data & row & _ & _ & Ha).
    apply evaluate_link_appended in Ha.
    destruct Ha as (p & tx & rx & bins & prof & mean & var & sd & loss & lp
                    & lg & d & _ & _ & _ & _ & _ & _ & _ & _ & _ & _ & _
                    & ->).
    reflexivity.
  - intros ->. reflexivity.
  - intros e ->. reflexivity.
Qed.

Lemma X7_worker_output_witness :
  worker Demo.h3 (Demo.db_of [Demo.row; Demo.row_no_pair; Demo.row])
    Demo.polars Demo.itm Demo.tiles Demo.min_samples Demo.min_distance_km
    Demo.threshold_db 1 250 ["112witness"%string]
  = Written [("112beaconer", "112witne"); ("112beaconer", "112witne")]%string
      (worst_edges
         (flat_map (Demo.rows_of Demo.h3 Demo.tiles)
            [Demo.row; Demo.row_no_pair; Demo.row])).
Proof.
  assert (compute_residuals Demo.h3
            (Demo.db_of [Demo.row; Demo.row_no_pair; Demo.row]) Demo.polars
            Demo.itm Demo.tiles Demo.min_samples Demo.min_distance_km
            Demo.threshold_db 1 false ["112witness"%string] [] 250
          = Ok (flat_map (Demo.rows_of Demo.h3 Demo.tiles)
                  [Demo.row; Demo.row_no_pair; Demo.row])) as E
    by (vm_compute; reflexivity).
  rewrite (proj1 (X7_worker_output Demo.h3
                    (Demo.db_of [Demo.row; Demo.row_no_pair; Demo.row])
                    Demo.polars Demo.itm Demo.tiles Demo.min_samples
                    Demo.min_distance_km Demo.threshold_db 1 250
                    ["112witness"%string]) _ E).
  - vm_compute. reflexivity.
  - vm_compute. discriminate.
Defined.

(** ** The refined location *)

Lemma max_from_maximal {A : Type} (key : A -> F64.t) (l : list A) :
  forall best,
    F64.is_nan (key best) = false ->
    (forall y, In y l -> F64.is_nan (key y) = false) ->
    F64.leb (key best) (key (max_from key best (key best) l)) = true
    /\ forall y, In y l ->
         F64.leb (key y) (key (max_from key best (key best) l)) = true.
Proof.
  induction l as [|x l IH]; intros best Hb Hl; simpl.
  - split; [|intros y []].
    destruct (F64Facts.leb_total _ _ Hb Hb); assumption.
  - assert (F64.is_nan (key x) = false) as Hx by (apply Hl; now left).
    assert (forall y, In y l -> F64.is_nan (key y) = false) as Hl'
      by (intros y Hy; apply Hl; now right).
    destruct (F64.gtb (key x) (key best)) eqn:E.
    + destruct (IH x Hx Hl') as [H1 H2].
      rewrite F64Facts.gtb_ltb in E. apply F64Facts.ltb_leb in E.
      split; [eapply F64Facts.leb_trans; eauto|].
      intros y [<-|Hy]; auto.
    + destruct (IH best Hb Hl') as [H1 H2].
      rewrite F64Facts.gtb_ltb in E.
      apply (F64Facts.ltb_false_leb _ _ Hb Hx) in E.
      split; [exact H1|].
      intros y [<-|Hy]; [eapply F64Facts.leb_trans; eauto | auto].
Qed.

Lemma py_max_key_maximal {A : Type} (key : A -> F64.t) (l : list A) x :
  py_max_key key l = Ok x ->
  (forall y, In y l -> F64.is_nan (key y) = false) ->
  In x l /\ forall y, In y l -> F64.leb (key y) (key x) = true.
Proof.
  intros H Hl. split; [exact (py_max_key_In _ _ _ H)|].
  destruct l as [|a l]; [discriminate|]. injection H as <-.
  assert (F64.is_nan (key a) = false) as Ha by (apply Hl; now left).
  destruct (max_from_maximal key l a Ha) as [H1 H2].
  { intros y Hy. apply Hl. now right. }
  intros y [<-|Hy]; auto.
Qed.

(** X5.  The refined location of the beaconer (and of the witness) is a
    point of the ring around its asserted cell, at the clamped height, and
    no point of the ring lies on higher ground, when the elevations of the
    ring are numbers. *)
Theorem X5_refined_location_is_highest :
  forall h3 tiles h3_search_radius p,
    (forall tx,
        tx_location h3 tiles h3_search_radius p = Ok tx ->
        let ring := neighborhood h3 h3_search_radius (beaconer_geo_loc p)
                      (clamp_height (beaconer_elevation p)) in
        (forall pt, In pt ring ->
                    F64.is_nan (tiles_elevation tiles pt) = false) ->
        In tx ring
        /\ alt tx = clamp_height (beaconer_elevation p)
        /\ forall pt, In pt ring ->
             F64.leb (tiles_elevation tiles pt) (tiles_elevation tiles tx)
             = true)
    /\ (forall rx,
        rx_location h3 tiles h3_search_radius p = Ok rx ->
        let ring := neighborhood h3 h3_search_radius (witness_geo_loc p)
                      (clamp_height (witness_elevation p)) in
        (forall pt, In pt ring ->
                    F64.is_nan (tiles_elevation tiles pt) = false) ->
        In rx ring
        /\ alt rx = clamp_height (witness_elevation p)
        /\ forall pt, In pt ring ->
             F64.leb (tiles_elevation tiles pt) (tiles_elevation tiles rx)
             = true).
Proof.
  intros h3 tiles radius p. split.
  - intros tx H ring Hring.
    destruct (py_max_key_maximal _ _ _ H Hring) as [Hin Hmax].
    split; [exact Hin|]. split; [|exact Hmax].
    exact (neighborhood_alt _ _ _ _ _ Hin).
  - intros rx H ring Hring.
    destruct (py_max_key_maximal _ _ _ H Hring) as [Hin Hmax].
    split; [exact Hin|]. split; [|exact Hmax].
    exact (neighborhood_alt _ _ _ _ _ Hin).
Qed.

(** In the example grid the northern point of the ring (46 degrees, the
    higher ground) is the refined location. *)
Lemma X5_refined_location_is_highest_witness :
  tx_location Demo.h3 Demo.tiles 1 Demo.pair
  = Ok (mkPoint (F64.of_Z 46) (F64.of_Z (-75)) (F64.of_Z 10))
  /\ forall pt,
      In pt (neighborhood Demo.h3 1 (beaconer_geo_loc Demo.pair)
               (clamp_height (beaconer_elevation Demo.pair))) ->
      F64.leb (tiles_elevation Demo.tiles pt) (F64.of_Z 46) = true.
Proof.
  assert (tx_location Demo.h3 Demo.tiles 1 Demo.pair
          = Ok (mkPoint (F64.of_Z 46) (F64.of_Z (-75)) (F64.of_Z 10))) as E
    by (vm_compute; reflexivity).
  split; [exact E|].
  refine (proj2 (proj2 (proj1 (X5_refined_location_is_highest Demo.h3
                                 Demo.tiles 1 Demo.pair) _ E _))).
  intros pt [<-|[<-|[]]]; vm_compute; reflexivity.
Defined.

(** ** The selection and the output of the worker *)

Lemma group_first_witnesses seen df :
  NoDup (map witness_pubkey (group_first seen df))
  /\ forall s, In s (group_first seen df) -> ~ In (witness_pubkey s) seen.
Proof.
  revert seen. induction df as [|r df IH]; intros seen; simpl.
  - split; [constructor | intros s []].
  - destruct (existsb (String.eqb (witness_pubkey r)) seen) eqn:E.
    + apply IH.
    + destruct (IH (witness_pubkey r :: seen)) as [Hnd Hseen].
      assert (~ In (witness_pubkey r) seen) as Hr.
      { intros H. apply existsb_eqb_In in H. congruence. }
      split.
      * simpl. constructor; [|exact Hnd].
        intros H. apply in_map_iff in H. destruct H as (s & Hs & Hin).
        apply (Hseen s Hin). left. symmetry. exact Hs.
      * intros s [<-|Hs]; [exact Hr|].
        intros H. apply (Hseen s Hs). now right.
Qed.

Lemma insert_by_residual_perm r l :
  Permutation (r :: l) (insert_by_residual r l).
Proof.
  induction l as [|x l IH]; simpl; [reflexivity|].
  destruct (F64.leb (residual r) (residual x)); [reflexivity|].
  rewrite perm_swap. now constructor.
Qed.

Lemma sort_by_residual_perm df : Permutation df (sort_by_residual df).
Proof.
  induction df as [|r df IH]; simpl; [constructor|].
  rewrite <- insert_by_residual_perm. now constructor.
Qed.

(** X9.  Sorting by residual loses and invents no row: the sorted frame
    is a permutation of the frame; and when the residuals are numbers,
    every row is followed only by rows of greater or equal residual. *)
Theorem X9_sort_by_residual_sorts :
  forall df,
    Permutation df (sort_by_residual df)
    /\ (Forall (fun r => F64.is_nan (residual r) = false) df ->
        StronglySorted residual_le (sort_by_residual df)).
Proof.
  intros df. split; [apply sort_by_residual_perm|].
  apply sort_by_residual_sorted.
Qed.

Lemma X9_sort_by_residual_sorts_witness :
  sort_by_residual Demo.frame
  = [Demo.flagged "b3" "w2" (-40); Demo.flagged "b2" "w1" (-25);
     Demo.flagged "b1" "w1" (-20)]
  /\ StronglySorted residual_le (sort_by_residual Demo.frame).
Proof.
  split; [vm_compute; reflexivity|].
  apply (proj2 (X9_sort_by_residual_sorts Demo.frame)).
  repeat constructor.
Defined.

(** X8.  The rows selected for a report card are flagged rows of the
    frame with pairwise different witnesses, so there are no more of them
    than rows in the frame; a frame without flagged row selects nothing. *)
Theorem X8_selection_has_distinct_witnesses :
  forall df,
    NoDup (map witness_pubkey (worst_edges df))
    /\ (forall s, In s (worst_edges df) -> In s df /\ edge_flag s = true)
    /\ (List.length (worst_edges df) <= List.length df)%nat
    /\ (filter edge_flag df = [] -> worst_edges df = []).
Proof.
  intros df. unfold worst_edges.
  assert (forall s, In s (group_first []
                            (sort_by_residual (filter edge_flag df))) ->
                    In s df /\ edge_flag s = true) as Hin.
  { intros s Hs. apply group_first_In in Hs.
    apply (proj1 (sort_by_residual_In _ _)) in Hs.
    apply filter_In in Hs. exact Hs. }
  split; [apply group_first_witnesses|]. split; [exact Hin|]. split.
  - assert (forall seen l, (List.length (group_first seen l)
                            <= List.length l)%nat) as Hlen.
    { intros seen l. revert seen.
      induction l as [|r l IH]; intros seen; simpl; [lia|].
      destruct (existsb _ seen); simpl; [specialize (IH seen); lia|].
      specialize (IH (witness_pubkey r :: seen)). lia. }
    eapply Nat.le_trans; [apply Hlen|].
    rewrite <- (Permutation_length (sort_by_residual_perm _)).
    apply filter_length_le.
  - intros ->. reflexivity.
Qed.

Lemma X8_selection_has_distinct_witnesses_witness :
  NoDup (map witness_pubkey (worst_edges Demo.frame))
  /\ map witness_pubkey (worst_edges Demo.frame) = ["w2"; "w1"]%string
  /\ (List.length (worst_edges Demo.frame) <= 3)%nat.
Proof.
  destruct (X8_selection_has_distinct_witnesses Demo.frame)
    as (Hnd & _ & Hlen & _).
  split; [exact Hnd|]. split; [vm_compute; reflexivity | exact Hlen].
Defined.


(** ** Validation and values that are not numbers *)

(** X10.  Comparisons with NaN are false, so the validation rejects a NaN
    latitude and a NaN longitude, but lets a NaN height and a NaN frequency
    through: with valid locations, a profile of two samples or more and a
    histogram that is not empty, a NaN frequency is accepted. *)
Theorem X10_validation_of_nan :
  (forall label lon alt,
      validate_location label (mkPoint S754_nan lon alt)
      = Raise (ValueError ("Invalid latitude for " ++ label)))
  /\ (forall label lat alt,
      ((F64.of_Z (-90) <=? lat) && (lat <=? F64.of_Z 90))%f64 = true ->
      validate_location label (mkPoint lat S754_nan alt)
      = Raise (ValueError ("Invalid longitude for " ++ label)))
  /\ (forall label lat lon,
      ((F64.of_Z (-90) <=? lat) && (lat <=? F64.of_Z 90))%f64 = true ->
      ((F64.of_Z (-180) <=? lon) && (lon <=? F64.of_Z 180))%f64 = true ->
      validate_location label (mkPoint lat lon S754_nan) = Ok tt)
  /\ (forall tx rx prof hist,
      validate_location "tx" tx = Ok tt ->
      validate_location "rx" rx = Ok tt ->
      (2 <= List.length (distances prof))%nat ->
      hist <> [] ->
      _validate_model_parameters tx rx (Some prof) S754_nan hist = Ok tt).
Proof.
  split; [|split; [|split]].
  - intros label lon alt. reflexivity.
  - intros label la al Hlat. unfold validate_location. cbn [lat lon].
    rewrite Hlat. reflexivity.
  - intros label la lo Hlat Hlon. unfold validate_location.
    cbn [lat lon alt]. rewrite Hlat, Hlon. reflexivity.
  - intros tx rx prof hist Htx Hrx Hlen Hh.
    rewrite (validate_after_locations _ _ _ _ _ Htx Hrx Hlen).
    destruct hist; [congruence | reflexivity].
Qed.

Lemma X10_validation_of_nan_witness :
  let tx := mkPoint (F64.of_Z 46) (F64.of_Z (-75)) S754_nan in
  _validate_model_parameters tx tx (Some Demo.profile_5km) S754_nan
    [(-1000, 20)] = Ok tt.
Proof.
  intros tx.
  apply (proj2 (proj2 (proj2 X10_validation_of_nan)) tx tx Demo.profile_5km
           [(-1000, 20)]).
  - apply (proj1 (proj2 (proj2 X10_validation_of_nan))); reflexivity.
  - apply (proj1 (proj2 (proj2 X10_validation_of_nan))); reflexivity.
  - simpl. lia.
  - discriminate.
Defined.

(** ** The report *)

Lemma plot_check_differ x y :
  List.length x <> List.length y ->
  plot_check x y = Raise (ValueError "x and y must have same first dimension").
Proof.
  intros H. unfold plot_check.
  destruct (List.length x =? List.length y)%nat eqn:E; [|reflexivity].
  apply Nat.eqb_eq in E. contradiction.
Qed.

Lemma plot_check_same x y :
  List.length x = List.length y -> plot_check x y = Ok tt.
Proof.
  intros H. unfold plot_check. now rewrite H, Nat.eqb_refl.
Qed.

Lemma length_tl {A : Type} (l : list A) :
  List.length (tl l) = (List.length l - 1)%nat.
Proof. destruct l; simpl; lia. Qed.

(** X11.  The failures of [generate_pdf_report], in the order in which the
    function meets them: [IndexError] on empty elevations,
    [ZeroDivisionError] on a zero frequency, [IndexError] on empty
    distances, the [ValueError] of the terrain plot when elevations and
    distances differ in length, [IndexError] on an empty loss profile, and
    the [ValueError] of the loss plot when the loss profile does not hold
    one value less than the distances.  A report that is produced
    therefore has as many elevations as distances, two or more, a frequency
    that is not zero, and one loss value for every distance but the
    first. *)
Theorem X11_report_failures :
  forall elevs dists txh rxh freq lp P tg rg mr,
    let report :=
      generate_pdf_report elevs dists txh rxh freq lp P tg rg mr in
    (elevs = [] -> report = Raise IndexError)
    /\ (elevs <> [] -> F64.is_zero freq = true ->
        report = Raise ZeroDivisionError)
    /\ (elevs <> [] -> F64.is_zero freq = false -> dists = [] ->
        report = Raise IndexError)
    /\ (elevs <> [] -> F64.is_zero freq = false -> dists <> [] ->
        List.length dists <> List.length elevs ->
        report
        = Raise (ValueError "x and y must have same first dimension"))
    /\ (elevs <> [] -> F64.is_zero freq = false -> dists <> [] ->
        List.length dists = List.length elevs -> lp = [] ->
        report = Raise IndexError)
    /\ (elevs <> [] -> F64.is_zero freq = false -> dists <> [] ->
        List.length dists = List.length elevs -> lp <> [] ->
        List.length lp <> (List.length dists - 1)%nat ->
        report
        = Raise (ValueError "x and y must have same first dimension"))
    /\ (forall rep,
        report = Ok rep ->
        F64.is_zero freq = false
        /\ List.length elevs = List.length dists
        /\ (2 <= List.length dists)%nat
        /\ List.length lp = (List.length dists - 1)%nat).
Proof.
  intros elevs dists txh rxh freq lp P tg rg mr report.
  assert (forall rep,
             report = Ok rep ->
             F64.is_zero freq = false
             /\ List.length elevs = List.length dists
             /\ (2 <= List.length dists)%nat
             /\ List.length lp = (List.length dists - 1)%nat) as Hok.
  { intros rep H. unfold report in H. apply generate_pdf_report_inv in H.
    destruct H as (e0 & e1 & wl & D & loss & _ & _ & Hw & _ & Hlen & Hl
                   & Hdx & _).
    rewrite length_tl in Hdx.
    assert (lp <> []) as Hlp by (intros ->; discriminate).
    assert (0 < List.length lp)%nat.
    { destruct lp; [congruence | simpl; lia]. }
    unfold py_div in Hw. destruct (F64.is_zero freq); [discriminate|].
    repeat split; lia. }
  repeat match goal with |- _ /\ _ => split end; try exact Hok; clear Hok;
    unfold report, generate_pdf_report, py_div; clear report;
    try (intros He Hz;
         destruct elevs as [|e0 elevs]; [congruence|]; cbn [py_first];
         destruct (py_last_ok_of_length (e0 :: elevs)) as [e1 ->];
         [simpl; lia|]; rewrite Hz);
    try (intros Hd; destruct dists as [|d0 dists]; [congruence|];
         destruct (py_last_ok_of_length (d0 :: dists)) as [D ->];
         [simpl; lia|]).
  - intros ->. reflexivity.
  - reflexivity.
  - intros ->. reflexivity.
  - intros Hlen. rewrite plot_check_differ; [reflexivity|].
    now rewrite length_map.
  - intros Hlen ->. rewrite plot_check_same; [reflexivity|].
    now rewrite length_map.
  - intros Hlen Hlp Hn.
    rewrite plot_check_same by now rewrite length_map.
    destruct (py_last_ok_of_length lp) as [loss ->].
    { destruct lp; [congruence | simpl; lia]. }
    rewrite plot_check_differ; [reflexivity|].
    rewrite !length_map, length_tl. lia.
Qed.

Lemma X11_report_failures_witness :
  generate_pdf_report (elevation Demo.profile_5km)
    (distances Demo.profile_5km) (F64.of_Z 10) (F64.of_Z 10)
    (F64.of_Z 0) [F64.of_Z 100; F64.of_Z 140] (F64.of_Z 20) F64.zero
    F64.zero (F64.of_Z (-100))
  = Raise ZeroDivisionError
  /\ generate_pdf_report (elevation Demo.profile_5km)
       (distances Demo.profile_5km) (F64.of_Z 10) (F64.of_Z 10)
       (F64.of_Z 904100000) [F64.of_Z 140] (F64.of_Z 20) F64.zero
       F64.zero (F64.of_Z (-100))
     = Raise (ValueError "x and y must have same first dimension").
Proof.
  split.
  - apply (proj1 (proj2 (X11_report_failures
                    (elevation Demo.profile_5km)
                    (distances Demo.profile_5km) (F64.of_Z 10) (F64.of_Z 10)
                    (F64.of_Z 0) [F64.of_Z 100; F64.of_Z 140]
                    (F64.of_Z 20) F64.zero F64.zero (F64.of_Z (-100))))).
    + discriminate.
    + reflexivity.
  - apply (proj1 (proj2 (proj2 (proj2 (proj2 (proj2 (X11_report_failures
                    (elevation Demo.profile_5km)
                    (distances Demo.profile_5km) (F64.of_Z 10) (F64.of_Z 10)
                    (F64.of_Z 904100000) [F64.of_Z 140]
                    (F64.of_Z 20) F64.zero F64.zero (F64.of_Z (-100))))))))).
    + discriminate.
    + reflexivity.
    + discriminate.
    + reflexivity.
    + discriminate.
    + simpl. lia.
Defined.

(** X12.  The line of sight has one value per profile sample and, with two
    samples or more, ends exactly at the last elevation plus the receiver
    height. *)
Theorem X12_line_of_sight_end :
  (forall start stop num,
      List.length (linspace start stop num) = num
      /\ ((2 <= num)%nat -> py_last (linspace start stop num) = Ok stop))
  /\ (forall elevs dists txh rxh freq lp P tg rg mr rep,
      generate_pdf_report elevs dists txh rxh freq lp P tg rg mr = Ok rep ->
      (2 <= List.length dists)%nat ->
      exists e1,
        py_last elevs = Ok e1
        /\ List.length (rs_line rep) = List.length dists
        /\ py_last (rs_line rep) = Ok (e1 + rxh)%f64).
Proof.
  assert (forall start stop num, (2 <= num)%nat ->
            py_last (linspace start stop num) = Ok stop) as Hlast.
  { intros start stop num Hn. unfold linspace.
    destruct (1 <? Z.of_nat num)%Z eqn:E; [|apply Z.ltb_ge in E; lia].
    apply py_last_replace_last. intros H.
    apply (f_equal (@List.length _)) in H. revert H.
    unfold arange.
    repeat match goal with
           | |- context [if ?c then _ else _] => destruct c
           end; rewrite !length_map, length_seq; simpl; lia. }
  split.
  - intros start stop num. split; [apply length_linspace | apply Hlast].
  - intros elevs dists txh rxh freq lp P tg rg mr rep H Hn.
    apply generate_pdf_report_inv in H.
    destruct H as (e0 & e1 & wl & D & loss & He0 & He1 & Hw & HD & _ & Hl
                   & _ & ->).
    exists e1. cbn [rs_line]. split; [exact He1|].
    rewrite length_linspace, length_map. split; [reflexivity|].
    apply Hlast. exact Hn.
Qed.

Lemma X12_line_of_sight_end_witness :
  exists rep,
    Demo.report = Ok rep
    /\ py_last (rs_line rep) = Ok (F64.of_Z 120).
Proof.
  destruct Demo.report as [rep|e] eqn:E; [|vm_compute in E; discriminate].
  unfold Demo.report, Demo.report_at in E.
  destruct (proj2 X12_line_of_sight_end _ _ _ _ _ _ _ _ _ _ _ E)
    as (e1 & He1 & _ & Hlast); [simpl; lia|].
  vm_compute in He1. injection He1 as <-.
  exists rep. split; [reflexivity|]. rewrite Hlast. vm_compute. reflexivity.
Defined.

(* ================================================================== *)
(** ** The inventory of hotspots *)

Lemma firstn_nil_inv {A : Type} (n : nat) (l : list A) :
  (0 < n)%nat -> firstn n l = [] -> l = [].
Proof. destruct n, l; simpl; intros; try lia; congruence. Qed.

Lemma firstn_add_skipn {A : Type} (n k : nat) (l : list A) :
  firstn (n + k) l = firstn n l ++ firstn k (skipn n l).
Proof.
  revert l. induction n as [|n IH]; intros l; [reflexivity|].
  destruct l as [|a l]; simpl; [now rewrite firstn_nil | now rewrite IH].
Qed.

Lemma skipn_skipn_add {A : Type} (n k : nat) (l : list A) :
  skipn k (skipn n l) = skipn (n + k) l.
Proof.
  revert l. induction n as [|n IH]; intros l; [reflexivity|].
  destruct l as [|a l]; simpl; [now rewrite skipn_nil | apply IH].
Qed.

Section Inventory.

Variable db : HotspotDb.
Variable keys : list string.
Variable batch_size : Z.
Hypothesis Hserves : serves db keys.
Hypothesis Hsize : 0 < batch_size.

Lemma page_at offset :
  0 <= offset ->
  hotspot_page db offset batch_size
  = firstn (Z.to_nat batch_size) (skipn (Z.to_nat offset) keys).
Proof. intros H. apply Hserves; lia. Qed.

Lemma skipn_next offset :
  0 <= offset ->
  skipn (Z.to_nat (offset + batch_size)) keys
  = skipn (Z.to_nat batch_size) (skipn (Z.to_nat offset) keys).
Proof.
  intros H. rewrite skipn_skipn_add. f_equal. lia.
Qed.

(** Without a bound on the batches the loop pages through everything that
    is left from its offset. *)
Lemma yield_loop_all fuel : forall offset count,
  0 <= offset ->
  (List.length (skipn (Z.to_nat offset) keys) < fuel)%nat ->
  exists batches,
    yield_loop fuel db batch_size None offset count = Some batches
    /\ List.concat batches = skipn (Z.to_nat offset) keys
    /\ Forall (fun b => b <> []
                        /\ (List.length b <= Z.to_nat batch_size)%nat)
         batches
    /\ forall i, (i < List.length batches)%nat ->
         nth i batches []
         = firstn (Z.to_nat batch_size)
             (skipn (Z.to_nat offset + i * Z.to_nat batch_size) keys).
Proof.
  induction fuel as [|fuel IH]; intros offset count Ho Hfuel; [lia|].
  simpl. rewrite (page_at _ Ho).
  set (rest := skipn (Z.to_nat offset) keys) in *.
  destruct (firstn (Z.to_nat batch_size) rest) as [|k page] eqn:Epage.
  - apply firstn_nil_inv in Epage; [|lia].
    exists []. rewrite Epage. repeat split; auto. simpl. intros i Hi. lia.
  - destruct (IH (offset + batch_size) (count + 1)) as
      (batches & Hrun & Hcat & Hall & Hnth); [lia| |].
    { rewrite skipn_next by exact Ho. fold rest. rewrite length_skipn.
      assert (0 < List.length rest)%nat as Hpos.
      { destruct rest; [rewrite firstn_nil in Epage; discriminate|].
        simpl. lia. }
      lia. }
    rewrite Hrun. exists ((k :: page) :: batches).
    split; [reflexivity|]. split; [|split].
    + change (List.concat ((k :: page) :: batches))
        with ((k :: page) ++ List.concat batches). rewrite Hcat, skipn_next by exact Ho. fold rest.
      rewrite <- Epage. apply firstn_skipn.
    + constructor; [|exact Hall]. split; [discriminate|].
      rewrite <- Epage. rewrite length_firstn. lia.
    + intros [|i] Hi.
      * simpl. rewrite Nat.add_0_r. fold rest. now rewrite Epage.
      * simpl nth. rewrite Hnth by (simpl in Hi; lia).
        do 2 f_equal. lia.
Qed.

(** With a bound [m] the loop stops after the batches that are left
    before the bound. *)
Lemma yield_loop_bounded fuel : forall m offset count,
  0 <= offset -> 0 <= count <= m ->
  (Z.to_nat (m - count) < fuel)%nat ->
  exists batches,
    yield_loop fuel db batch_size (Some m) offset count = Some batches
    /\ (List.length batches <= Z.to_nat (m - count))%nat
    /\ List.concat batches
       = firstn (Z.to_nat (m - count) * Z.to_nat batch_size)
           (skipn (Z.to_nat offset) keys).
Proof.
  induction fuel as [|fuel IH]; intros m offset count Ho Hc Hfuel; [lia|].
  simpl. destruct (count >=? m) eqn:E.
  - apply Z.geb_le in E. exists []. split; [reflexivity|].
    replace (m - count) with 0 by lia. split; [simpl; lia | reflexivity].
  - assert (count < m) as Hlt.
    { destruct (Z.geb_spec count m); [discriminate | lia]. }
    rewrite (page_at _ Ho).
    set (rest := skipn (Z.to_nat offset) keys) in *.
    destruct (firstn (Z.to_nat batch_size) rest) as [|k page] eqn:Epage.
    + apply firstn_nil_inv in Epage; [|lia].
      exists []. rewrite Epage, firstn_nil.
      split; [reflexivity|]. split; [simpl; lia | reflexivity].
    + destruct (IH m (offset + batch_size) (count + 1)) as
        (batches & Hrun & Hlen & Hcat); [lia | lia | lia |].
      rewrite Hrun. exists ((k :: page) :: batches).
      split; [reflexivity|]. split; [simpl; lia|].
      change (List.concat ((k :: page) :: batches))
        with ((k :: page) ++ List.concat batches). rewrite Hcat, skipn_next by exact Ho. fold rest.
      rewrite <- Epage.
      replace (Z.to_nat (m - count) * Z.to_nat batch_size)%nat
        with (Z.to_nat batch_size
              + Z.to_nat (m - (count + 1)) * Z.to_nat batch_size)%nat
        by nia.
      now rewrite firstn_add_skipn.
Qed.

End Inventory.

(** X13.  Against a collection that does not change, with a positive
    batch size and no bound on the batches, [_yield_hotspot_pubkeys] ends
    (any fuel above the number of keys is enough) and its batches, put end
    to end, are the keys of the collection in the order of the sort: batch
    [i] holds the keys from [i * batch_size] on, at most [batch_size] of
    them, and no batch is empty. *)
Theorem X13_inventory_pages_cover_collection :
  forall db keys batch_size fuel,
    serves db keys ->
    0 < batch_size ->
    (List.length keys < fuel)%nat ->
    exists batches,
      _yield_hotspot_pubkeys fuel db batch_size None = Some batches
      /\ List.concat batches = keys
      /\ Forall (fun b => b <> []
                          /\ (List.length b <= Z.to_nat batch_size)%nat)
           batches
      /\ forall i, (i < List.length batches)%nat ->
           nth i batches []
           = firstn (Z.to_nat batch_size)
               (skipn (i * Z.to_nat batch_size) keys).
Proof.
  intros db keys bs fuel Hs Hb Hfuel.
  destruct (yield_loop_all db keys bs Hs Hb fuel 0 0) as
    (batches & Hrun & Hcat & Hall & Hnth); [lia | exact Hfuel |].
  exists batches. repeat split; auto.
Qed.

Lemma X13_inventory_pages_cover_collection_witness :
  _yield_hotspot_pubkeys 6 Demo.hotspots 2 None
  = Some [["11a"; "11b"]; ["11c"; "11d"]; ["11e"]]%string
  /\ exists batches,
      _yield_hotspot_pubkeys 6 Demo.hotspots 2 None = Some batches
      /\ List.concat batches = Demo.hotspot_keys.
Proof.
  split; [reflexivity|].
  destruct (X13_inventory_pages_cover_collection Demo.hotspots
              Demo.hotspot_keys 2 6) as (batches & H & Hcat & _).
  - intros offset count _ _. reflexivity.
  - lia.
  - simpl. lia.
  - exists batches. auto.
Defined.

(** X14.  With [max_batches = m] the generator yields at most [m]
    batches, the first [m * batch_size] keys of the collection; and with a
    batch size of 0 the first page is empty, so nothing is yielded whatever
    the collection holds. *)
Theorem X14_inventory_bounds :
  forall db keys,
    serves db keys ->
    (forall batch_size m fuel,
        0 < batch_size -> 0 <= m -> (Z.to_nat m < fuel)%nat ->
        exists batches,
          _yield_hotspot_pubkeys fuel db batch_size (Some m) = Some batches
          /\ (List.length batches <= Z.to_nat m)%nat
          /\ List.concat batches
             = firstn (Z.to_nat m * Z.to_nat batch_size) keys)
    /\ (forall max_batches fuel,
          _yield_hotspot_pubkeys (S fuel) db 0 max_batches = Some []).
Proof.
  intros db keys Hs. split.
  - intros bs m fuel Hb Hm Hfuel.
    destruct (yield_loop_bounded db keys bs Hs Hb fuel m 0 0) as
      (batches & Hrun & Hlen & Hcat); [lia | lia | |].
    { rewrite Z.sub_0_r. exact Hfuel. }
    rewrite Z.sub_0_r in *. exists batches. auto.
  - intros mb fuel. unfold _yield_hotspot_pubkeys. simpl.
    rewrite (Hs 0 0) by lia. simpl.
    destruct mb as [m|]; [destruct (0 >=? m)|]; reflexivity.
Qed.

Lemma X14_inventory_bounds_witness :
  _yield_hotspot_pubkeys 3 Demo.hotspots 2 (Some 2)
  = Some [["11a"; "11b"]; ["11c"; "11d"]]%string
  /\ exists batches,
      _yield_hotspot_pubkeys 3 Demo.hotspots 2 (Some 2) = Some batches
      /\ (List.length batches <= 2)%nat.
Proof.
  split; [reflexivity|].
  destruct (proj1 (X14_inventory_bounds Demo.hotspots Demo.hotspot_keys
                     (fun offset count _ _ => eq_refl)) 2 2 3%nat)
    as (batches & H & Hlen & _); try lia.
  exists batches. auto.
Defined.

(** *** The files of the inventory *)

Lemma decimal_value_zero s :
  decimal_value (String "0" s) = decimal_value s.
Proof.
  unfold decimal_value. simpl.
  destruct (NilEmpty.uint_of_string s); reflexivity.
Qed.

Lemma decimal_value_pad3 n :
  decimal_value (pad3 (NilEmpty.string_of_uint (Nat.to_uint n))) = n.
Proof.
  assert (decimal_value (NilEmpty.string_of_uint (Nat.to_uint n)) = n) as H.
  { unfold decimal_value. rewrite NilEmpty.usu. apply Unsigned.of_to. }
  unfold pad3.
  destruct (String.length _) as [|[|[|k]]]; simpl;
    rewrite ?decimal_value_zero; exact H.
Qed.

Lemma string_app_inv_tail (s1 s2 t : string) :
  (s1 ++ t = s2 ++ t)%string -> s1 = s2.
Proof.
  intros H. apply (f_equal list_ascii_of_string) in H.
  assert (forall a b, list_ascii_of_string (a ++ b)%string
                      = list_ascii_of_string a ++ list_ascii_of_string b)
    as Happ.
  { induction a as [|c a IH]; intros b; simpl; [reflexivity|].
    now rewrite IH. }
  rewrite !Happ in H. apply app_inv_tail in H.
  apply (f_equal string_of_list_ascii) in H.
  now rewrite !string_of_list_ascii_of_string in H.
Qed.

Lemma batch_file_name_inj i j :
  batch_file_name i = batch_file_name j -> i = j.
Proof.
  unfold batch_file_name. intros H. simpl in H.
  injection H as H. apply string_app_inv_tail in H.
  apply (f_equal decimal_value) in H.
  now rewrite !decimal_value_pad3 in H.
Qed.

Lemma combine_seq_fst {A : Type} (l : list A) start :
  map fst (combine (seq start (List.length l)) l) = seq start (List.length l).
Proof.
  revert start. induction l as [|a l IH]; intros start; simpl;
    [reflexivity | now rewrite IH].
Qed.

Lemma combine_seq_snd {A : Type} (l : list A) start :
  map snd (combine (seq start (List.length l)) l) = l.
Proof.
  revert start. induction l as [|a l IH]; intros start; simpl;
    [reflexivity | now rewrite IH].
Qed.

Lemma NoDup_map_injective {A B : Type} (f : A -> B) (l : list A) :
  (forall x y, f x = f y -> x = y) -> NoDup l -> NoDup (map f l).
Proof.
  intros Hinj. induction 1 as [|a l Ha Hl IH]; simpl; constructor; auto.
  intros H. apply in_map_iff in H. destruct H as (y & Hy & Hin).
  apply Hinj in Hy. subst y. contradiction.
Qed.

(** X16.  [save_hotspot_inventory] writes one file per yielded batch, the
    rows of the file being the keys of the batch; file [i] is named
    [batch_<i on three digits>.csv], the index can be read back from the
    name, and so no two batches are written to the same file. *)
Theorem X16_inventory_files :
  (forall i j, batch_file_name i = batch_file_name j -> i = j)
  /\ (forall fuel db batch_size max_batches files,
      save_hotspot_inventory fuel db batch_size max_batches = Some files ->
      _yield_hotspot_pubkeys fuel db batch_size max_batches
      = Some (map snd files)
      /\ map fst files = map batch_file_name (seq 0 (List.length files))
      /\ NoDup (map fst files)).
Proof.
  split; [exact batch_file_name_inj|].
  intros fuel db bs mb files. unfold save_hotspot_inventory.
  destruct (_yield_hotspot_pubkeys fuel db bs mb) as [batches|];
    [|discriminate].
  intros [= <-].
  assert (map snd (map (fun ib : nat * list string =>
                          (batch_file_name (fst ib), snd ib))
                     (combine (seq 0 (List.length batches)) batches))
          = batches) as Hsnd.
  { rewrite map_map. cbn [snd]. apply combine_seq_snd. }
  assert (map fst (map (fun ib : nat * list string =>
                          (batch_file_name (fst ib), snd ib))
                     (combine (seq 0 (List.length batches)) batches))
          = map batch_file_name (seq 0 (List.length batches))) as Hfst.
  { rewrite map_map. cbn [fst].
    rewrite <- (combine_seq_fst batches 0) at 2. now rewrite map_map. }
  rewrite Hsnd, Hfst, length_map, length_combine, length_seq, Nat.min_id.
  repeat split.
  apply NoDup_map_injective; [exact batch_file_name_inj | apply seq_NoDup].
Qed.

Lemma X16_inventory_files_witness :
  save_hotspot_inventory 6 Demo.hotspots 2 None
  = Some [("batch_000.csv", ["11a"; "11b"]);
          ("batch_001.csv", ["11c"; "11d"]);
          ("batch_002.csv", ["11e"])]%string
  /\ batch_file_name 1234 = "batch_1234.csv"%string
  /\ forall j, batch_file_name 7 = batch_file_name j -> 7%nat = j.
Proof.
  split; [vm_compute; reflexivity|]. split; [vm_compute; reflexivity|].
  intros j. apply (proj1 X16_inventory_files).
Defined.

(** ** Identifiers that collide *)

Lemma rstrip_list_app chars l post :
  Forall (fun c => in_chars chars c = true) post ->
  rstrip_list chars (l ++ post) = rstrip_list chars l.
Proof.
  intros H. unfold rstrip_list. rewrite rev_app_distr.
  rewrite lstrip_list_app; [reflexivity|].
  apply Forall_rev. exact H.
Qed.

Lemma lstrip_list_all chars l :
  Forall (fun c => in_chars chars c = true) l -> lstrip_list chars l = [].
Proof.
  intros H. rewrite <- (app_nil_r l). now rewrite lstrip_list_app.
Qed.

Lemma lstrip_list_app_r chars l post :
  Forall (fun c => in_chars chars c = true) post ->
  lstrip_list chars (l ++ post)
  = match lstrip_list chars l with
    | [] => []
    | x => x ++ post
    end.
Proof.
  intros H. induction l as [|c l IH]; simpl.
  - now apply lstrip_list_all.
  - destruct (in_chars chars c); [exact IH | reflexivity].
Qed.

Lemma strip_list_padding chars pre l post :
  Forall (fun c => in_chars chars c = true) pre ->
  Forall (fun c => in_chars chars c = true) post ->
  rstrip_list chars (lstrip_list chars (pre ++ l ++ post))
  = rstrip_list chars (lstrip_list chars l).
Proof.
  intros Hpre Hpost.
  rewrite lstrip_list_app by exact Hpre.
  rewrite lstrip_list_app_r by exact Hpost.
  destruct (lstrip_list chars l) as [|c x]; [reflexivity|].
  now apply rstrip_list_app.
Qed.

Lemma list_ascii_of_string_app a b :
  list_ascii_of_string (a ++ b)%string
  = list_ascii_of_string a ++ list_ascii_of_string b.
Proof.
  induction a as [|c a IH]; simpl; [reflexivity | now rewrite IH].
Qed.

(** X15.  [strip] does not see characters of its set around a string: a
    public key wrapped in characters of {h, o, t, s, p, /} is reported
    under the same identifier as the key itself, so different hotspots can
    be reported, and grouped, under one identifier. *)
Theorem X15_identifiers_collide :
  forall pre key post,
    Forall (fun c => in_chars "hotspots/" c = true)
      (list_ascii_of_string pre) ->
    Forall (fun c => in_chars "hotspots/" c = true)
      (list_ascii_of_string post) ->
    str_strip (doc_id (pre ++ key ++ post)) "hotspots/"
    = str_strip (doc_id key) "hotspots/".
Proof.
  intros pre key post Hpre Hpost.
  rewrite !strip_doc_id. f_equal.
  rewrite !list_ascii_of_string_app.
  now apply strip_list_padding.
Qed.

Lemma X15_identifiers_collide_witness :
  str_strip (doc_id "s112abcp") "hotspots/"
  = str_strip (doc_id "112abc") "hotspots/"
  /\ "s112abcp"%string <> "112abc"%string.
Proof.
  split; [|discriminate].
  apply (X15_identifiers_collide "s" "112abc" "p");
    repeat constructor.
Defined.
